(** * A shallow embedding of the ATT request dispatcher of bluetoe
      (bluetoe/server.hpp).

    Buffers are lists of octets, pointers into a buffer are offsets (Z),
    [std::uint8_t], [std::uint16_t] and [std::size_t] values are integers
    with their wrap-around written out.  A computation that leaves the
    defined behaviour of the C++ program (a failed [assert], an access
    outside a buffer or outside the attribute table) yields [None]. *)

From Stdlib Require Import ZArith Lia.
From Stdlib Require Import Strings.Byte.
From stdpp Require Import base option list.

Open Scope Z_scope.

(** ** Machine integers *)

Definition uint8 (z : Z) : Z := z mod 2 ^ 8.
Definition uint16 (z : Z) : Z := z mod 2 ^ 16.
(** [std::size_t], taken as a 64 bit unsigned integer. *)
Definition size_t (z : Z) : Z := z mod 2 ^ 64.

Definition byte_val (b : byte) : Z := Z.of_N (Byte.to_N b).

Definition to_byte (z : Z) : byte :=
  match Byte.of_N (Z.to_N (z mod 256)) with
  | Some b => b
  | None => x00
  end.

#[export] Instance byte_eq_decision : EqDecision byte := fun x y =>
  match Byte.eqb x y as b return Byte.eqb x y = b -> Decision (x = y) with
  | true => fun H => left (Byte.byte_dec_bl x y H)
  | false => fun H => right (Byte.eqb_false H)
  end eq_refl.

(** ** Buffers *)

(** [p[i]] for a pointer [p] to the first octet of [mem]. *)
Definition load (mem : list byte) (i : Z) : option byte :=
  if 0 <=? i then mem !! Z.to_nat i else None.

(** Writes [bytes] to [mem + pos]; writing outside of [mem] is undefined. *)
Definition store (mem : list byte) (pos : Z) (bytes : list byte) : option (list byte) :=
  if (0 <=? pos) && (pos + Z.of_nat (length bytes) <=? Z.of_nat (length mem))
  then Some (take (Z.to_nat pos) mem ++ bytes ++ drop (Z.to_nat pos + length bytes) mem)
  else None.

(** The octets of [mem] in [[first, last)]. *)
Definition region (mem : list byte) (first last : Z) : list byte :=
  take (Z.to_nat (last - first)) (drop (Z.to_nat first) mem).

Module details.

(** ** Protocol constants *)

Module att_opcodes.
(** Modelled from the spec: bluetoe/codes.hpp is not part of the sources;
    the opcodes are those of the dispatch table and of the wire layout. *)
Inductive t :=
| error_response
| exchange_mtu_request
| exchange_mtu_response
| find_information_request
| find_information_response
| find_by_type_value_request
| find_by_type_value_response
| read_by_type_request
| read_by_type_response
| read_request
| read_response
| read_blob_request
| read_blob_response
| read_by_group_type_request
| read_by_group_type_response
| write_request
| write_response.
End att_opcodes.

Module att_error_codes.
(** Modelled from the spec: the error taxonomy of the ATT Error Response
    (bluetoe/codes.hpp is not part of the sources). *)
Inductive t :=
| invalid_handle
| read_not_permitted
| write_not_permitted
| invalid_pdu
| request_not_supported
| invalid_offset
| attribute_not_found
| invalid_attribute_value_length
| unsupported_group_type.
End att_error_codes.

Module att_uuid_format.
(** Modelled from the spec: the two formats of a Find Information
    Response (bluetoe/codes.hpp is not part of the sources). *)
Inductive t := short_16bit | long_128bit.
End att_uuid_format.

(** [bits( e )]: the underlying integer of an enumerator. *)
Class Bits (A : Type) := bits : A -> Z.

#[export] Instance att_opcodes_bits : Bits att_opcodes.t := fun o =>
  match o with
  | att_opcodes.error_response => 0x01
  | att_opcodes.exchange_mtu_request => 0x02
  | att_opcodes.exchange_mtu_response => 0x03
  | att_opcodes.find_information_request => 0x04
  | att_opcodes.find_information_response => 0x05
  | att_opcodes.find_by_type_value_request => 0x06
  | att_opcodes.find_by_type_value_response => 0x07
  | att_opcodes.read_by_type_request => 0x08
  | att_opcodes.read_by_type_response => 0x09
  | att_opcodes.read_request => 0x0A
  | att_opcodes.read_response => 0x0B
  | att_opcodes.read_blob_request => 0x0C
  | att_opcodes.read_blob_response => 0x0D
  | att_opcodes.read_by_group_type_request => 0x10
  | att_opcodes.read_by_group_type_response => 0x11
  | att_opcodes.write_request => 0x12
  | att_opcodes.write_response => 0x13
  end.

#[export] Instance att_error_codes_bits : Bits att_error_codes.t := fun e =>
  match e with
  | att_error_codes.invalid_handle => 0x01
  | att_error_codes.read_not_permitted => 0x02
  | att_error_codes.write_not_permitted => 0x03
  | att_error_codes.invalid_pdu => 0x04
  | att_error_codes.request_not_supported => 0x06
  | att_error_codes.invalid_offset => 0x07
  | att_error_codes.attribute_not_found => 0x0A
  | att_error_codes.invalid_attribute_value_length => 0x0D
  | att_error_codes.unsupported_group_type => 0x10
  end.

#[export] Instance att_uuid_format_bits : Bits att_uuid_format.t := fun f =>
  match f with
  | att_uuid_format.short_16bit => 0x01
  | att_uuid_format.long_128bit => 0x02
  end.

Module gap_types.
(** Modelled from the spec: the types of the advertising data structures
    that the server writes (bluetoe/codes.hpp is not part of the
    sources). *)
Inductive t := flags | shortened_local_name | complete_local_name.
End gap_types.

#[export] Instance gap_types_bits : Bits gap_types.t := fun g =>
  match g with
  | gap_types.flags => 0x01
  | gap_types.shortened_local_name => 0x08
  | gap_types.complete_local_name => 0x09
  end.

(** [static_cast< att_opcodes >( input[ 0 ] )], as far as the dispatcher
    tells opcodes apart. *)
Definition att_opcodes_of (z : Z) : option att_opcodes.t :=
  if z =? 0x02 then Some att_opcodes.exchange_mtu_request
  else if z =? 0x04 then Some att_opcodes.find_information_request
  else if z =? 0x06 then Some att_opcodes.find_by_type_value_request
  else if z =? 0x08 then Some att_opcodes.read_by_type_request
  else if z =? 0x0A then Some att_opcodes.read_request
  else if z =? 0x0C then Some att_opcodes.read_blob_request
  else if z =? 0x10 then Some att_opcodes.read_by_group_type_request
  else if z =? 0x12 then Some att_opcodes.write_request
  else None.

(** Modelled from the spec: the minimum ATT MTU (bluetoe/codes.hpp is not
    part of the sources). *)
Definition default_att_mtu_size : Z := 23.

Module gatt_uuids.
(** Modelled from the spec: the 16 bit UUID of a Primary Service
    declaration. *)
Definition primary_service : Z := 0x2800.
(** Modelled from the spec: the 16 bit UUID of a Characteristic
    declaration. *)
Definition characteristic : Z := 0x2803.
End gatt_uuids.

(** ** Little-endian codec *)

(** Modelled from the spec: bluetoe/bits.hpp is not part of the sources;
    16 bit words, handles and 16 bit UUIDs are two octets, least
    significant octet first. *)
Definition read_16bit (mem : list byte) (p : Z) : option Z :=
  lo ← load mem p;
  hi ← load mem (p + 1);
  Some (Z.lor (byte_val lo) (Z.shiftl (byte_val hi) 8)).

Definition read_handle (mem : list byte) (p : Z) : option Z :=
  read_16bit mem p.

(** The writers return the memory and the pointer behind the written
    octets. *)
Definition write_16bit (mem : list byte) (p : Z) (bits16 : Z) : option (list byte * Z) :=
  mem ← store mem p [to_byte (Z.land bits16 0xff); to_byte (Z.shiftr bits16 8)];
  Some (mem, p + 2).

Definition write_handle (mem : list byte) (p : Z) (handle : Z) : option (list byte * Z) :=
  write_16bit mem p handle.

Definition write_16bit_uuid (mem : list byte) (p : Z) (uuid : Z) : option (list byte * Z) :=
  write_16bit mem p uuid.

Definition write_opcode (mem : list byte) (p : Z) (opcode : att_opcodes.t) : option (list byte * Z) :=
  mem ← store mem p [to_byte (bits opcode)];
  Some (mem, p + 1).

(** ** Attribute access *)

Module attribute_access_result.
(** Modelled from the spec: the results of an attribute access
    (bluetoe/attribute.hpp is not part of the sources). *)
Inductive t :=
| success
| read_truncated
| write_overflow
| invalid_offset
| write_not_permitted
| read_not_permitted
| value_equal
| value_not_equal.
End attribute_access_result.

#[export] Instance attribute_access_result_eq_dec : EqDecision attribute_access_result.t.
Proof. solve_decision. Defined.

Inductive attribute_access_type := read_access | write_access | compare_access.

(** Modelled from the spec: the argument of an access.  [buffer] holds
    the octets of the memory the C++ field points to, [buffer_size] the
    size of that memory on the way in and the number of octets read on
    the way out. *)
Record attribute_access_arguments := {
  type : attribute_access_type;
  buffer : list byte;
  buffer_size : Z;
  buffer_offset : Z
}.

(** [attribute_access_arguments::read( begin, end, offset )] for two
    pointers into [mem]. *)
Definition read (mem : list byte) (begin end_ : Z) (offset : Z) : attribute_access_arguments :=
  {| type := read_access;
     buffer := region mem begin end_;
     buffer_size := size_t (end_ - begin);
     buffer_offset := offset |}.

Definition write (mem : list byte) (begin end_ : Z) : attribute_access_arguments :=
  {| type := write_access;
     buffer := region mem begin end_;
     buffer_size := size_t (end_ - begin);
     buffer_offset := 0 |}.

Definition compare_value (mem : list byte) (begin end_ : Z) : attribute_access_arguments :=
  {| type := compare_access;
     buffer := region mem begin end_;
     buffer_size := size_t (end_ - begin);
     buffer_offset := 0 |}.

(** What a read access left in the memory [[begin, end_)] is copied back:
    an access only reaches the memory it was given. *)
Definition commit (mem : list byte) (begin end_ : Z) (args : attribute_access_arguments) : option (list byte) :=
  store mem begin (take (Z.to_nat (end_ - begin)) (buffer args)).

(** Modelled from the spec: an attribute is a 16 bit UUID and one access
    operation; the operation returns its result and the arguments as it
    left them. *)
Record attribute := {
  uuid : Z;
  access : attribute_access_arguments -> Z -> attribute_access_result.t * attribute_access_arguments
}.

(** Modelled from the spec: what the dispatcher uses of a service
    (bluetoe/service.hpp is not part of the sources): its attributes in
    handle order, the width of its UUID, the attribute holding the
    service UUID and the writer of one Read By Group Type tuple, which
    maps the memory, [output], [end] and the index of the service to the
    memory and the new [output]. *)
Record service := {
  attributes : list attribute;
  uuid_is_128bit : bool;
  characteristic_declaration_attribute : attribute;
  read_primary_service_response : list byte -> Z -> Z -> Z -> bool -> list byte * Z
}.

Definition number_of_attributes (s : service) : Z := Z.of_nat (length (attributes s)).

(** [for_< services >::each( f )]: the services in declaration order. *)
Fixpoint for_each {S : Type} (each : service -> S -> option S) (services : list service) (f : S) : option S :=
  match services with
  | [] => Some f
  | s :: services => f ← each s f; for_each each services f
  end.

(** ** The function objects of the handlers *)

Module value_filter.
Record t := { begin_ : Z; end_ : Z }.

(** [operator()( index, attr )]; [begin_] and [end_] point into [input]. *)
Definition call (input : list byte) (f : t) (index : Z) (attr : attribute) : bool :=
  let read := compare_value input (begin_ f) (end_ f) in
  bool_decide ((access attr read 1).1 = attribute_access_result.value_equal).
End value_filter.

Module collect_find_by_type_groups.
Record t := { begin_ : Z; end_ : Z; current_ : Z }.

Definition make (begin end_ : Z) : t :=
  {| begin_ := begin; end_ := end_; current_ := begin |}.

(** [operator()< Service >( handle, attr )] *)
Definition call (Service : service) (it : t) (mem : list byte) (handle : Z) (_ : attribute)
  : option (t * list byte * bool) :=
  if 4 <=? end_ it - current_ it then
    '(mem, current) ← write_handle mem (current_ it) handle;
    '(mem, current) ← write_handle mem current (uint16 (handle + number_of_attributes Service - 1));
    Some ({| begin_ := begin_ it; end_ := end_ it; current_ := current |}, mem, true)
  else Some (it, mem, false).

Definition size (it : t) : Z := uint8 (current_ it - begin_ it).
End collect_find_by_type_groups.

Module collect_attributes.
Record t := { begin_ : Z; current_ : Z; end_ : Z; size_ : Z; first_ : bool }.

Definition maximum_pdu_size : Z := 253.
Definition header_size : Z := 2.

Definition make (begin end_ : Z) : t :=
  {| begin_ := begin; current_ := begin; end_ := end_; size_ := 0; first_ := true |}.

(** [operator()( handle, attr )] *)
Definition call (it : t) (mem : list byte) (handle : Z) (attr : attribute) : option (t * list byte) :=
  if header_size <=? size_t (end_ it - current_ it) then
    let max_data_size :=
      size_t (Z.min (size_t (end_ it - current_ it)) (maximum_pdu_size + header_size) - header_size) in
    let read := read mem (current_ it + header_size) (current_ it + header_size + max_data_size) 0 in
    let '(rc, read) := access attr read handle in
    mem ← commit mem (current_ it + header_size) (current_ it + header_size + max_data_size) read;
    if bool_decide (rc = attribute_access_result.success)
       || bool_decide (rc = attribute_access_result.read_truncated)
          && (buffer_size read =? maximum_pdu_size)
    then
      guard (buffer_size read <= maximum_pdu_size);;
      let it :=
        if first_ it
        then {| begin_ := begin_ it; current_ := current_ it; end_ := end_ it;
                size_ := uint8 (buffer_size read + header_size); first_ := false |}
        else it in
      if size_t (buffer_size read + header_size) =? size_ it then
        '(mem, current) ← write_handle mem (current_ it) handle;
        Some ({| begin_ := begin_ it; current_ := current + uint8 (buffer_size read);
                 end_ := end_ it; size_ := size_ it; first_ := first_ it |}, mem)
      else Some (it, mem)
    else Some (it, mem)
  else Some (it, mem).

Definition size (it : t) : Z := uint8 (current_ it - begin_ it).
Definition data_size (it : t) : Z := size_ it.
Definition empty (it : t) : bool := current_ it =? begin_ it.
End collect_attributes.

Module collect_primary_services.
(** [output_] stands for the handler's pointer [begin], which the object
    refers to, and [attribute_data_size_] for the address of the octet it
    refers to. *)
Record t := {
  output_ : Z;
  end_ : Z;
  index_ : Z;
  starting_handle_ : Z;
  ending_handle_ : Z;
  first_ : bool;
  is_128bit_uuid_ : bool;
  attribute_data_size_ : Z
}.

Definition make (output end_ starting_index starting_handle ending_handle attribute_data_size : Z) : t :=
  {| output_ := output; end_ := end_; index_ := starting_index;
     starting_handle_ := starting_handle; ending_handle_ := ending_handle;
     first_ := true; is_128bit_uuid_ := true;
     attribute_data_size_ := attribute_data_size |}.

(** [each< Service >()] *)
Definition each (Service : service) (st : t * list byte) : option (t * list byte) :=
  let '(f, mem) := st in
  '(f, mem) ←
    (if (starting_handle_ f <=? index_ f) && (index_ f <=? ending_handle_ f) then
       '(f, mem) ←
         (if first_ f then
            let is_128bit := uuid_is_128bit Service in
            mem ← store mem (attribute_data_size_ f) [to_byte (if is_128bit then 16 + 4 else 2 + 4)];
            Some ({| output_ := output_ f; end_ := end_ f; index_ := index_ f;
                     starting_handle_ := starting_handle_ f; ending_handle_ := ending_handle_ f;
                     first_ := false; is_128bit_uuid_ := is_128bit;
                     attribute_data_size_ := attribute_data_size_ f |}, mem)
          else Some (f, mem));
       let '(mem, output) :=
         read_primary_service_response Service mem (output_ f) (end_ f) (index_ f) (is_128bit_uuid_ f) in
       Some ({| output_ := output; end_ := end_ f; index_ := index_ f;
                starting_handle_ := starting_handle_ f; ending_handle_ := ending_handle_ f;
                first_ := first_ f; is_128bit_uuid_ := is_128bit_uuid_ f;
                attribute_data_size_ := attribute_data_size_ f |}, mem)
     else Some (f, mem));
  Some ({| output_ := output_ f; end_ := end_ f;
           index_ := uint16 (index_ f + number_of_attributes Service);
           starting_handle_ := starting_handle_ f; ending_handle_ := ending_handle_ f;
           first_ := first_ f; is_128bit_uuid_ := is_128bit_uuid_ f;
           attribute_data_size_ := attribute_data_size_ f |}, mem).
End collect_primary_services.

Module services_by_group.
Section services_by_group.
(** The template parameters: the iterator with its
    [operator()< Service >], and the filter. *)
Context {Iterator : Type}.
Variable iterator_call : service -> Iterator -> list byte -> Z -> attribute -> option (Iterator * list byte * bool).
Variable filter_ : Z -> attribute -> bool.

(** [iterator_] and [found_] stand for the objects the C++ members refer
    to. *)
Record t := {
  starting_handle_ : Z;
  ending_handle_ : Z;
  index_ : Z;
  iterator_ : Iterator;
  found_ : bool
}.

Definition make (starting_handle ending_handle : Z) (iterator : Iterator) (found : bool) : t :=
  {| starting_handle_ := starting_handle; ending_handle_ := ending_handle;
     index_ := 1; iterator_ := iterator; found_ := found |}.

(** [each< Service >()] *)
Definition each (Service : service) (st : t * list byte) : option (t * list byte) :=
  let '(f, mem) := st in
  '(f, mem) ←
    (if (starting_handle_ f <=? index_ f) && (index_ f <=? ending_handle_ f) then
       let attr := characteristic_declaration_attribute Service in
       if filter_ (index_ f) attr then
         '(iterator, mem, r) ← iterator_call Service (iterator_ f) mem (index_ f) attr;
         Some ({| starting_handle_ := starting_handle_ f; ending_handle_ := ending_handle_ f;
                  index_ := index_ f; iterator_ := iterator; found_ := r || found_ f |}, mem)
       else Some (f, mem)
     else Some (f, mem));
  Some ({| starting_handle_ := starting_handle_ f; ending_handle_ := ending_handle_ f;
           index_ := uint16 (index_ f + number_of_attributes Service);
           iterator_ := iterator_ f; found_ := found_ f |}, mem).
End services_by_group.
End services_by_group.

End details.

Import details.

(** ** The server *)

Module connection_data.
Record t := { server_mtu_ : Z; client_mtu_ : Z }.

(** [connection_data( server_mtu )] *)
Definition make (server_mtu : Z) : option t :=
  guard (default_att_mtu_size <= server_mtu);;
  Some {| server_mtu_ := server_mtu; client_mtu_ := default_att_mtu_size |}.

Definition negotiated_mtu (c : t) : Z := Z.min (server_mtu_ c) (client_mtu_ c).

(** [client_mtu( mtu )], the setter. *)
Definition set_client_mtu (c : t) (mtu : Z) : option t :=
  guard (default_att_mtu_size <= mtu);;
  Some {| server_mtu_ := server_mtu_ c; client_mtu_ := mtu |}.

Definition client_mtu (c : t) : Z := client_mtu_ c.
Definition server_mtu (c : t) : Z := server_mtu_ c.
End connection_data.

(** The outcome of the [check_...] members: [true] with the handles they
    read, or [false] with the error response they left behind. *)
Inductive check_result (A : Type) :=
| check_true (a : A)
| check_false (output : list byte) (out_size : Z).
Arguments check_true {A} a.
Arguments check_false {A} output out_size.

Module server.
Section server.

(** The services of the server, in declaration order. *)
Variable services : list service.
(** [details::gatt_uuids::internal_128bit_uuid], the UUID an attribute
    carries when its UUID is a 128 bit one. *)
Variable internal_128bit_uuid : Z.
(** [details::uuid_filter( uuid, is_128bit )], for a pointer into [input]. *)
Variable uuid_filter : list byte -> Z -> bool -> Z -> attribute -> bool.

(** Modelled from the spec: the attribute table is the concatenation of
    the attributes of the services (bluetoe/service.hpp is not part of the
    sources). *)
Definition attribute_table : list attribute :=
  concat (attributes <$> services).

Definition number_of_attributes : Z := Z.of_nat (length attribute_table).

(** Modelled from the spec: [attribute_at( index )] is the attribute with
    handle [index + 1]; no attribute lies outside of the table. *)
Definition attribute_at (index : Z) : option attribute :=
  if 0 <=? index then attribute_table !! Z.to_nat index else None.

Definition in_size (input : list byte) : Z := Z.of_nat (length input).

Definition error_response (opcode : byte) (error_code : att_error_codes.t) (handle : Z)
    (output : list byte) (out_size : Z) : option (list byte * Z) :=
  if 5 <=? out_size then
    output ← store output 0
      [ to_byte (bits att_opcodes.error_response);
        opcode;
        to_byte (Z.land handle 0xff);
        to_byte (Z.shiftr handle 8);
        to_byte (bits error_code) ];
    Some (output, 5)
  else Some (output, 0).

(** The overload without a handle. *)
Definition error_response_without_handle (opcode : byte) (error_code : att_error_codes.t)
    (output : list byte) (out_size : Z) : option (list byte * Z) :=
  error_response opcode error_code 0 output out_size.

Definition check_size_and_handle_range (A B : Z) (input output : list byte) (out_size : Z)
  : option (check_result (Z * Z)) :=
  if negb (in_size input =? A) && negb (in_size input =? B) then
    opcode ← load input 0;
    '(output, out_size) ← error_response_without_handle opcode att_error_codes.invalid_pdu output out_size;
    Some (check_false output out_size)
  else
    starting_handle ← read_handle input 1;
    ending_handle ← read_handle input 3;
    if (starting_handle =? 0) || (ending_handle <? starting_handle) then
      opcode ← load input 0;
      '(output, out_size) ← error_response opcode att_error_codes.invalid_handle starting_handle output out_size;
      Some (check_false output out_size)
    else if number_of_attributes <? starting_handle then
      opcode ← load input 0;
      '(output, out_size) ← error_response opcode att_error_codes.attribute_not_found starting_handle output out_size;
      Some (check_false output out_size)
    else Some (check_true (starting_handle, ending_handle)).

Definition check_handle (input output : list byte) (out_size : Z) : option (check_result Z) :=
  handle ← read_handle input 1;
  if handle =? 0 then
    opcode ← load input 0;
    '(output, out_size) ← error_response opcode att_error_codes.invalid_handle handle output out_size;
    Some (check_false output out_size)
  else if number_of_attributes <? handle then
    opcode ← load input 0;
    '(output, out_size) ← error_response opcode att_error_codes.attribute_not_found handle output out_size;
    Some (check_false output out_size)
  else Some (check_true handle).

Definition check_size_and_handle (A B : Z) (input output : list byte) (out_size : Z)
  : option (check_result Z) :=
  if negb (in_size input =? A) && negb (in_size input =? B) then
    opcode ← load input 0;
    '(output, out_size) ← error_response_without_handle opcode att_error_codes.invalid_pdu output out_size;
    Some (check_false output out_size)
  else check_handle input output out_size.

Definition handle_exchange_mtu_request (input output : list byte) (out_size : Z)
    (connection : connection_data.t) : option (list byte * Z * connection_data.t) :=
  if negb (in_size input =? 3) then
    opcode ← load input 0;
    r ← error_response_without_handle opcode att_error_codes.invalid_pdu output out_size;
    Some (r, connection)
  else
    mtu ← read_16bit input 1;
    if mtu <? default_att_mtu_size then
      opcode ← load input 0;
      r ← error_response_without_handle opcode att_error_codes.invalid_pdu output out_size;
      Some (r, connection)
    else
      connection ← connection_data.set_client_mtu connection mtu;
      output ← store output 0 [to_byte (bits att_opcodes.exchange_mtu_response)];
      '(output, _) ← write_16bit output 1 (connection_data.server_mtu connection);
      Some (output, 3, connection).

(** [buffer] is the local array of the function; an attribute access is
    a function of its arguments, the application data behind the
    attribute being fixed while one request is served. *)
Definition write_128bit_uuid (mem : list byte) (out : Z) (char_declaration : attribute)
  : option (list byte) :=
  guard (uuid char_declaration = gatt_uuids.characteristic);;
  let buffer := replicate (3 + 16) x00 in
  let read := read buffer 0 (3 + 16) 0 in
  let '(_, read) := access char_declaration read 1 in
  guard (buffer_size read = 3 + 16);;
  buffer ← commit buffer 0 (3 + 16) read;
  store mem out (region buffer 3 (3 + 16)).

(** The loop of [collect_handle_uuid_tuples]; [fuel] bounds the number of
    iterations. *)
Fixpoint collect_handle_uuid_tuples_loop (fuel : nat) (start end_ : Z) (only_16_bit : bool)
    (mem : list byte) (out out_end : Z) : option (list byte * Z) :=
  let size_per_tuple := if only_16_bit then 2 + 2 else 2 + 16 in
  if (start <=? end_) && (start <=? number_of_attributes)
     && (size_per_tuple <=? size_t (out_end - out)) then
    match fuel with
    | O => None
    | S fuel =>
      attr ← attribute_at (size_t (start - 1));
      let is_16_bit_uuids := negb (uuid attr =? internal_128bit_uuid) in
      if eqb only_16_bit is_16_bit_uuids then
        '(mem, _) ← write_handle mem out start;
        mem ←
          (if is_16_bit_uuids then
             '(mem, _) ← write_16bit_uuid mem (out + 2) (uuid attr);
             Some mem
           else
             char_declaration ← attribute_at (size_t (start - 2));
             write_128bit_uuid mem (out + 2) char_declaration);
        collect_handle_uuid_tuples_loop fuel (uint16 (start + 1)) end_ only_16_bit
          mem (out + size_per_tuple) out_end
      else
        collect_handle_uuid_tuples_loop fuel (uint16 (start + 1)) end_ only_16_bit
          mem out out_end
    end
  else Some (mem, out).

(** A handle that passes the loop condition is at most
    [number_of_attributes], and each iteration increments it: the loop
    body runs at most [number_of_attributes + 1 - start] times. *)
Definition collect_handle_uuid_tuples (start end_ : Z) (only_16_bit : bool)
    (mem : list byte) (out out_end : Z) : option (list byte * Z) :=
  collect_handle_uuid_tuples_loop (Z.to_nat (number_of_attributes + 1 - start))
    start end_ only_16_bit mem out out_end.

Definition handle_find_information_request (input output : list byte) (out_size : Z)
  : option (list byte * Z) :=
  r ← check_size_and_handle_range 5 5 input output out_size;
  match r with
  | check_false output out_size => Some (output, out_size)
  | check_true (starting_handle, ending_handle) =>
    attr ← attribute_at (size_t (starting_handle - 1));
    let only_16_bit_uuids := negb (uuid attr =? internal_128bit_uuid) in
    let write_ptr := 0 in
    let write_end := write_ptr + out_size in
    output ← store output write_ptr [to_byte (bits att_opcodes.find_information_response)];
    let write_ptr := write_ptr + 1 in
    '(output, write_ptr) ←
      (if negb (write_ptr =? write_end) then
         output ← store output write_ptr
           [to_byte (bits (if only_16_bit_uuids
                           then att_uuid_format.short_16bit
                           else att_uuid_format.long_128bit))];
         Some (output, write_ptr + 1)
       else Some (output, write_ptr));
    '(output, write_ptr) ←
      collect_handle_uuid_tuples starting_handle ending_handle only_16_bit_uuids
        output write_ptr write_end;
    Some (output, size_t (write_ptr - 0))
  end.

Section iteration.
(** The template parameters of [all_attributes] and of
    [all_services_by_group]. *)
Context {Iterator : Type}.
Variable iter_call : Iterator -> list byte -> Z -> attribute -> option (Iterator * list byte).
Variable iterator_call : service -> Iterator -> list byte -> Z -> attribute -> option (Iterator * list byte * bool).
Variable filter : Z -> attribute -> bool.

(** The loop of [all_attributes]; [fuel] bounds the number of iterations. *)
Fixpoint all_attributes_loop (fuel : nat) (starting_handle ending_handle : Z)
    (iter : Iterator) (mem : list byte) : option (Iterator * list byte) :=
  if (starting_handle <=? ending_handle) && (starting_handle <=? number_of_attributes) then
    match fuel with
    | O => None
    | S fuel =>
      attr ← attribute_at (size_t (starting_handle - 1));
      '(iter, mem) ←
        (if filter starting_handle attr
         then iter_call iter mem starting_handle attr
         else Some (iter, mem));
      all_attributes_loop fuel (uint16 (starting_handle + 1)) ending_handle iter mem
    end
  else Some (iter, mem).

Definition all_attributes (starting_handle ending_handle : Z) (iter : Iterator) (mem : list byte)
  : option (Iterator * list byte) :=
  all_attributes_loop (Z.to_nat (number_of_attributes + 1 - starting_handle))
    starting_handle ending_handle iter mem.

Definition all_services_by_group (starting_handle ending_handle : Z) (iterator : Iterator)
    (mem : list byte) : option (Iterator * list byte * bool) :=
  let result := false in
  '(f, mem) ←
    for_each (services_by_group.each iterator_call filter) services
      (services_by_group.make starting_handle ending_handle iterator result, mem);
  Some (services_by_group.iterator_ f, mem, services_by_group.found_ f).
End iteration.

Definition handle_find_by_type_value_request (input output : list byte) (out_size : Z)
  : option (list byte * Z) :=
  r ← check_size_and_handle_range 9 23 input output out_size;
  match r with
  | check_false output out_size => Some (output, out_size)
  | check_true (starting_handle, ending_handle) =>
    requested_type ← read_handle input 5;
    if negb (requested_type =? gatt_uuids.primary_service) then
      opcode ← load input 0;
      error_response opcode att_error_codes.unsupported_group_type starting_handle output out_size
    else
      let iterator := collect_find_by_type_groups.make (0 + 1) (0 + out_size) in
      let filter := value_filter.call input
                      {| value_filter.begin_ := 7; value_filter.end_ := 0 + in_size input |} in
      '(iterator, output, found) ←
        all_services_by_group collect_find_by_type_groups.call filter
          starting_handle ending_handle iterator output;
      if found : bool then
        output ← store output 0 [to_byte (bits att_opcodes.find_by_type_value_response)];
        Some (output, size_t (collect_find_by_type_groups.size iterator + 1))
      else
        opcode ← load input 0;
        error_response opcode att_error_codes.attribute_not_found starting_handle output out_size
  end.

Definition handle_read_request (input output : list byte) (out_size : Z)
  : option (list byte * Z) :=
  r ← check_size_and_handle 3 3 input output out_size;
  match r with
  | check_false output out_size => Some (output, out_size)
  | check_true handle =>
    let read := read output (0 + 1) (0 + out_size) 0 in
    attr ← attribute_at (size_t (handle - 1));
    let '(rc, read) := access attr read handle in
    output ← commit output (0 + 1) (0 + out_size) read;
    if bool_decide (rc = attribute_access_result.success)
       || bool_decide (rc = attribute_access_result.read_truncated) then
      output ← store output 0 [to_byte (bits att_opcodes.read_response)];
      Some (output, size_t (1 + buffer_size read))
    else
      opcode ← load input 0;
      error_response opcode att_error_codes.read_not_permitted handle output out_size
  end.

Definition handle_read_blob_request (input output : list byte) (out_size : Z)
  : option (list byte * Z) :=
  r ← check_size_and_handle 5 5 input output out_size;
  match r with
  | check_false output out_size => Some (output, out_size)
  | check_true handle =>
    offset ← read_16bit input 3;
    let read := read output (0 + 1) (0 + out_size) offset in
    attr ← attribute_at (size_t (handle - 1));
    let '(rc, read) := access attr read handle in
    output ← commit output (0 + 1) (0 + out_size) read;
    if bool_decide (rc = attribute_access_result.success)
       || bool_decide (rc = attribute_access_result.read_truncated) then
      output ← store output 0 [to_byte (bits att_opcodes.read_blob_response)];
      Some (output, size_t (1 + buffer_size read))
    else if bool_decide (rc = attribute_access_result.invalid_offset) then
      opcode ← load input 0;
      error_response opcode att_error_codes.invalid_offset handle output out_size
    else
      opcode ← load input 0;
      error_response opcode att_error_codes.read_not_permitted handle output out_size
  end.

Definition handle_read_by_type_request (input output : list byte) (out_size : Z)
  : option (list byte * Z) :=
  r ← check_size_and_handle_range (5 + 2) (5 + 16) input output out_size;
  match r with
  | check_false output out_size => Some (output, out_size)
  | check_true (starting_handle, ending_handle) =>
    let iterator := collect_attributes.make (0 + 2) (0 + out_size) in
    '(iterator, output) ←
      all_attributes collect_attributes.call (uuid_filter input 5 (in_size input =? 5 + 16))
        starting_handle ending_handle iterator output;
    if negb (collect_attributes.empty iterator) then
      output ← store output 0 [to_byte (bits att_opcodes.read_by_type_response)];
      output ← store output 1 [to_byte (collect_attributes.data_size iterator)];
      Some (output, size_t (2 + collect_attributes.size iterator))
    else
      opcode ← load input 0;
      error_response opcode att_error_codes.attribute_not_found starting_handle output out_size
  end.

Definition handle_read_by_group_type_request (input output : list byte) (out_size : Z)
  : option (list byte * Z) :=
  r ← check_size_and_handle_range (5 + 2) (5 + 16) input output out_size;
  match r with
  | check_false output out_size => Some (output, out_size)
  | check_true (starting_handle, ending_handle) =>
    unsupported ←
      (if in_size input =? 5 + 16 then Some true
       else requested_type ← read_handle input 5;
            Some (negb (requested_type =? gatt_uuids.primary_service)));
    if unsupported : bool then
      opcode ← load input 0;
      error_response opcode att_error_codes.unsupported_group_type starting_handle output out_size
    else
      let begin := 0 in
      let end_ := 0 + out_size in
      '(output', begin) ← write_opcode output begin att_opcodes.read_by_group_type_response;
      let begin := begin + 1 in
      let data_begin := begin in
      '(f, output') ←
        for_each collect_primary_services.each services
          (collect_primary_services.make begin end_ 1 starting_handle ending_handle (begin - 1),
           output');
      let begin := collect_primary_services.output_ f in
      if begin =? data_begin then
        opcode ← load input 0;
        error_response opcode att_error_codes.attribute_not_found starting_handle output' out_size
      else Some (output', size_t (begin - 0))
  end.

Definition handle_write_request (input output : list byte) (out_size : Z)
  : option (list byte * Z) :=
  if in_size input <? 3 then
    opcode ← load input 0;
    error_response_without_handle opcode att_error_codes.invalid_pdu output out_size
  else
    r ← check_handle input output out_size;
    match r with
    | check_false output out_size => Some (output, out_size)
    | check_true handle =>
      let write := write input 3 (0 + in_size input) in
      attr ← attribute_at (size_t (handle - 1));
      let '(rc, _) := access attr write handle in
      if bool_decide (rc = attribute_access_result.success) then
        output ← store output 0 [to_byte (bits att_opcodes.write_response)];
        Some (output, 1)
      else if bool_decide (rc = attribute_access_result.write_overflow) then
        opcode ← load input 0;
        error_response opcode att_error_codes.invalid_attribute_value_length handle output out_size
      else
        opcode ← load input 0;
        error_response opcode att_error_codes.write_not_permitted handle output out_size
    end.

Definition l2cap_input (input output : list byte) (out_size : Z) (connection : connection_data.t)
  : option (list byte * Z * connection_data.t) :=
  let out_size := Z.min out_size (connection_data.negotiated_mtu connection) in
  guard (in_size input ≠ 0);;
  guard (default_att_mtu_size <= out_size);;
  opcode ← load input 0;
  match att_opcodes_of (byte_val opcode) with
  | Some att_opcodes.exchange_mtu_request =>
    handle_exchange_mtu_request input output out_size connection
  | Some att_opcodes.find_information_request =>
    r ← handle_find_information_request input output out_size; Some (r, connection)
  | Some att_opcodes.find_by_type_value_request =>
    r ← handle_find_by_type_value_request input output out_size; Some (r, connection)
  | Some att_opcodes.read_by_type_request =>
    r ← handle_read_by_type_request input output out_size; Some (r, connection)
  | Some att_opcodes.read_request =>
    r ← handle_read_request input output out_size; Some (r, connection)
  | Some att_opcodes.read_blob_request =>
    r ← handle_read_blob_request input output out_size; Some (r, connection)
  | Some att_opcodes.read_by_group_type_request =>
    r ← handle_read_by_group_type_request input output out_size; Some (r, connection)
  | Some att_opcodes.write_request =>
    r ← handle_write_request input output out_size; Some (r, connection)
  | _ =>
    r ← error_response_without_handle opcode att_error_codes.request_not_supported output out_size;
    Some (r, connection)
  end.

(** [advertising_data( begin, buffer_size )]; [name] is [name::name], the
    characters of the configured [server_name] in front of the
    terminating zero, or [None] for the [nullptr] of a server without a
    name.  [begin] is the offset 0 of [buffer]. *)
Definition advertising_data (name : option (list byte)) (buffer : list byte) (buffer_size : Z)
  : option (list byte * Z) :=
  let begin := 0 in
  let end_ := begin + buffer_size in
  '(buffer, begin) ←
    (if 3 <=? buffer_size then
       buffer ← store buffer begin [to_byte 2];
       buffer ← store buffer (begin + 1) [to_byte (bits gap_types.flags)];
       buffer ← store buffer (begin + 2) [to_byte 6];
       Some (buffer, begin + 3)
     else Some (buffer, begin));
  '(buffer, begin) ←
    match name with
    | Some name =>
      if 2 <? end_ - begin then
        let name_length := Z.of_nat (length name) in
        let max_name_len := Z.min name_length (size_t (end_ - begin - 2)) in
        if 0 <? name_length then
          buffer ← store buffer begin [to_byte (max_name_len + 1)];
          buffer ← store buffer (begin + 1)
            [to_byte (bits (if max_name_len =? name_length
                            then gap_types.complete_local_name
                            else gap_types.shortened_local_name))];
          buffer ← store buffer (begin + 2) (take (Z.to_nat max_name_len) name);
          Some (buffer, begin + (max_name_len + 2))
        else Some (buffer, begin)
      else Some (buffer, begin)
    | None => Some (buffer, begin)
    end;
  Some (buffer, size_t (buffer_size - size_t (end_ - begin))).

End server.
End server.

(** The PDU a handler left: the first [out_size] octets of [output]. *)
Definition pdu (output : list byte) (out_size : Z) : list byte :=
  take (Z.to_nat out_size) output.

(** The two octets of a handle or of a 16 bit UUID on the wire. *)
Definition handle_octets (handle : Z) : list byte :=
  [to_byte (Z.land handle 0xff); to_byte (Z.shiftr handle 8)].

(** ** A concrete server

    The database of the scenarios: one primary service with UUID 0x180F at
    the handles 1 to 3, the declaration of the Battery Level
    characteristic at 2 and its value, 0x55, at 3. *)

Module battery.

(** Modelled from the spec: an attribute with a fixed value; a read
    copies the octets from the offset on as far as the buffer reaches, a
    comparison is octet for octet, and a write is refused unless the
    attribute is [writable] and the value is not longer than the
    attribute's. *)
Definition fixed_access (value : list byte) (writable : bool)
    (args : attribute_access_arguments) (_ : Z)
  : attribute_access_result.t * attribute_access_arguments :=
  match type args with
  | read_access =>
    if Z.of_nat (length value) <? buffer_offset args then
      (attribute_access_result.invalid_offset, args)
    else
      let rest := drop (Z.to_nat (buffer_offset args)) value in
      let data := take (Z.to_nat (buffer_size args)) rest in
      (if Z.of_nat (length rest) <=? buffer_size args
       then attribute_access_result.success
       else attribute_access_result.read_truncated,
       {| type := read_access;
          buffer := data ++ drop (length data) (buffer args);
          buffer_size := Z.of_nat (length data);
          buffer_offset := buffer_offset args |})
  | write_access =>
    if negb writable then (attribute_access_result.write_not_permitted, args)
    else if Z.of_nat (length value) <? buffer_size args
      then (attribute_access_result.write_overflow, args)
      else (attribute_access_result.success, args)
  | compare_access =>
    (if bool_decide (buffer args = value)
     then attribute_access_result.value_equal
     else attribute_access_result.value_not_equal, args)
  end.

Definition fixed_attribute (uuid : Z) (value : list byte) (writable : bool) : attribute :=
  {| uuid := uuid; access := fixed_access value writable |}.

(** An attribute that refuses every access. *)
Definition denied_attribute (uuid : Z) : attribute :=
  {| uuid := uuid;
     access := fun args _ =>
       (match type args with
        | read_access => attribute_access_result.read_not_permitted
        | write_access => attribute_access_result.write_not_permitted
        | compare_access => attribute_access_result.value_not_equal
        end, args) |}.

(** Modelled from the spec: one Read By Group Type tuple of a service with
    a 16 bit UUID: the handle, the handle of the last attribute and the
    UUID, written if the UUID width is the one of the response and the
    tuple fits. *)
Definition primary_service_response_16 (service_uuid count : Z)
    (mem : list byte) (output end_ index : Z) (is_128bit : bool) : list byte * Z :=
  if negb is_128bit && (6 <=? end_ - output) then
    match store mem output
            [ to_byte (Z.land index 0xff); to_byte (Z.shiftr index 8);
              to_byte (Z.land (index + count - 1) 0xff);
              to_byte (Z.shiftr (index + count - 1) 8);
              to_byte (Z.land service_uuid 0xff); to_byte (Z.shiftr service_uuid 8) ] with
    | Some mem => (mem, output + 6)
    | None => (mem, output)
    end
  else (mem, output).

(** A service with a 16 bit UUID, given the attributes that follow its
    declaration. *)
Definition service_16 (service_uuid : Z) (rest : list attribute) : service :=
  let declaration :=
    fixed_attribute gatt_uuids.primary_service
      [to_byte (Z.land service_uuid 0xff); to_byte (Z.shiftr service_uuid 8)] false in
  {| attributes := declaration :: rest;
     uuid_is_128bit := false;
     characteristic_declaration_attribute := declaration;
     read_primary_service_response :=
       primary_service_response_16 service_uuid (1 + Z.of_nat (length rest)) |}.

(** Modelled from the spec: the filter of Read By Type for a 16 bit type:
    the attributes whose UUID is the requested one. *)
Definition uuid_filter (input : list byte) (p : Z) (is_128bit : bool) (_ : Z) (attr : attribute) : bool :=
  negb is_128bit && bool_decide (read_16bit input p = Some (uuid attr)).

Definition internal_128bit_uuid : Z := 0xFFFF.

(** The declaration of a Battery Level characteristic, whose value has
    the handle [value_handle], and the value. *)
Definition battery_level (value_handle : Z) (value : list byte) : list attribute :=
  [ fixed_attribute gatt_uuids.characteristic
      ([x12] ++ handle_octets value_handle ++ [x19; x2a]) false;
    fixed_attribute 0x2A19 value false ].

Definition services : list service := [ service_16 0x180F (battery_level 3 [x55]) ].


(** Three values of 100 octets, at the handles 3, 5 and 7. *)
Definition three_long_levels : list service :=
  [ service_16 0x180F
      (battery_level 3 (replicate 100 x11) ++ battery_level 5 (replicate 100 x22)
       ++ battery_level 7 (replicate 100 x33)) ].

(** Six services with the same UUID, of one attribute each. *)
Definition six_services : list service := replicate 6 (service_16 0x180F []).

(** A characteristic with a 128 bit UUID: the declaration holds the
    properties, the handle of the value and the UUID. *)
Definition uuid_128 : list byte :=
  [xa9; x3c; xc7; x5b; xed; x4e; x8a; xa2; x9f; x49; xe2; x0d; x94; x40; x8b; x8c].

Definition custom_services : list service :=
  [ service_16 0x180F
      [ fixed_attribute gatt_uuids.characteristic ([x02; x03; x00] ++ uuid_128) false;
        fixed_attribute internal_128bit_uuid [x2a] false ] ].

(** A fresh connection and an output buffer for the MTU [mtu]. *)
Definition connection (mtu : Z) : connection_data.t :=
  {| connection_data.server_mtu_ := mtu; connection_data.client_mtu_ := mtu |}.

Definition output (mtu : Z) : list byte := replicate (Z.to_nat mtu) x00.

(** The response PDU of a request on a connection with the MTU [mtu]. *)
Definition respond_with (mtu : Z) (services : list service) (input : list byte)
  : option (list byte) :=
  '(output, out_size, _) ←
    server.l2cap_input services internal_128bit_uuid uuid_filter input
      (output mtu) mtu (connection mtu);
  Some (pdu output out_size).

(** The response PDU of a request on a connection with the default MTU. *)
Definition respond (services : list service) (input : list byte) : option (list byte) :=
  respond_with 23 services input.

End battery.

(** ** Reading requests and responses *)

(** The 16 bit word with the octets [lo] and [hi]. *)
Definition word16 (lo hi : byte) : Z := byte_val lo + 256 * byte_val hi.


(** The Error Response to the request [opcode] that names the handle with
    the octets [handle_lo] and [handle_hi]. *)
Definition error_pdu (opcode handle_lo handle_hi : byte) (error_code : att_error_codes.t) : list byte :=
  [x01; opcode; handle_lo; handle_hi; to_byte (bits error_code)].


(** ** The attributes of a Find Information Request *)

(** The UUID of the attribute is a 16 bit one. *)
Definition has_16bit_uuid (internal_128bit_uuid : Z) (attr : attribute) : bool :=
  negb (uuid attr =? internal_128bit_uuid).

(** The attribute with the handle [handle] lies in
    [[starting_handle, ending_handle]] and its UUID has the width of the
    response. *)
Definition eligible (services : list service) (internal_128bit_uuid : Z) (only_16_bit : bool)
    (starting_handle ending_handle handle : Z) : Prop :=
  starting_handle <= handle <= ending_handle /\
  exists attr,
    server.attribute_at services (handle - 1) = Some attr /\
    has_16bit_uuid internal_128bit_uuid attr = only_16_bit.

(** The invariant of the database behind [write_128bit_uuid]: an
    attribute with a 128 bit UUID directly follows a Characteristic
    declaration, whose value read into 19 octets fills them. *)
Definition long_uuids_declared (services : list service) (internal_128bit_uuid : Z) : Prop :=
  forall index attr,
    server.attribute_at services index = Some attr ->
    uuid attr = internal_128bit_uuid ->
    exists char_declaration,
      server.attribute_at services (index - 1) = Some char_declaration
      /\ uuid char_declaration = gatt_uuids.characteristic
      /\ buffer_size (access char_declaration (read (replicate (3 + 16) x00) 0 (3 + 16) 0) 1).2
         = 3 + 16.

(** The 16 octets that [write_128bit_uuid] copies out of the value of a
    Characteristic declaration. *)
Definition long_uuid_octets (char_declaration : attribute) : list byte :=
  let buffer := replicate (3 + 16) x00 in
  let read := read buffer 0 (3 + 16) 0 in
  let '(_, read) := access char_declaration read 1 in
  match commit buffer 0 (3 + 16) read with
  | Some buffer => region buffer 3 (3 + 16)
  | None => []
  end.

(** The tuple of a Find Information Response for the attribute with the
    handle [handle]: the handle and the UUID, if the UUID has the width
    of the response. *)
Definition information_tuple (services : list service) (internal_128bit_uuid : Z)
    (only_16_bit : bool) (handle : Z) : option (list byte) :=
  attr ← server.attribute_at services (handle - 1);
  if eqb only_16_bit (has_16bit_uuid internal_128bit_uuid attr) then
    if only_16_bit then Some (handle_octets handle ++ handle_octets (uuid attr))
    else
      char_declaration ← server.attribute_at services (handle - 2);
      Some (handle_octets handle ++ long_uuid_octets char_declaration)
  else None.

(** The tuples of the attributes with the handles from [starting_handle]
    to [ending_handle], as far as there are attributes, in the order of
    the handles. *)
Definition information_tuples (services : list service) (internal_128bit_uuid : Z)
    (only_16_bit : bool) (starting_handle ending_handle : Z) : list (list byte) :=
  omap (information_tuple services internal_128bit_uuid only_16_bit)
    (seqZ starting_handle
       (Z.min ending_handle (server.number_of_attributes services) + 1 - starting_handle)).

(** ** The contracts of the collaborators *)

(** A read access reports at most as many octets as the buffer it was
    given holds. *)
Definition read_within_buffer (attr : attribute) : Prop :=
  forall args handle,
    type args = read_access -> 0 <= buffer_size args ->
    0 <= buffer_size (access attr args handle).2 <= buffer_size args.

Definition reads_within_buffer (services : list service) : Prop :=
  forall index attr,
    server.attribute_at services index = Some attr -> read_within_buffer attr.

(** The writer of a Read By Group Type tuple stays inside the memory
    between [output] and [end_] that it was given. *)
Definition response_within_buffer (Service : service) : Prop :=
  forall mem output end_ index is_128bit,
    0 <= output <= end_ -> end_ <= Z.of_nat (length mem) ->
    let '(mem', output') := read_primary_service_response Service mem output end_ index is_128bit in
    output <= output' <= end_ /\ length mem' = length mem.

(** The writer of a Read By Group Type tuple leaves the memory in front of
    [output] and from [end_] on as it was. *)
Definition response_writes_within (Service : service) : Prop :=
  forall mem output end_ index is_128bit,
    0 <= output <= end_ -> end_ <= Z.of_nat (length mem) ->
    let '(mem', _) := read_primary_service_response Service mem output end_ index is_128bit in
    take (Z.to_nat output) mem' = take (Z.to_nat output) mem
    /\ drop (Z.to_nat end_) mem' = drop (Z.to_nat end_) mem.

(** What the dispatcher relies on: fewer than 65535 attributes, and the
    contracts of the attributes and of the services. *)
Definition database_valid (services : list service) (internal_128bit_uuid : Z) : Prop :=
  server.number_of_attributes services < 65535
  /\ long_uuids_declared services internal_128bit_uuid
  /\ reads_within_buffer services
  /\ Forall response_within_buffer services
  /\ Forall response_writes_within services.

(** The invariant of [connection_data]: what its constructor and
    [client_mtu( mtu )] assert, within 16 bits. *)
Definition connection_valid (connection : connection_data.t) : Prop :=
  default_att_mtu_size <= connection_data.server_mtu_ connection < 2 ^ 16
  /\ default_att_mtu_size <= connection_data.client_mtu_ connection < 2 ^ 16.

(** A handler answers with a PDU of at least the opcode and of at most
    [out_size] octets. *)
Definition responds_within (out_size : Z) (response : option (list byte * Z)) : Prop :=
  exists output' size, response = Some (output', size) /\ 1 <= size <= out_size.

(** [mem'] is [mem] with other octets in front of the offset [n]. *)
Definition same_behind (n : Z) (mem mem' : list byte) : Prop :=
  length mem' = length mem /\ drop (Z.to_nat n) mem' = drop (Z.to_nat n) mem.

(** A response opens with the opcode [response], or it is an Error
    Response, five octets that open with 0x01 and the opcode [request]. *)
Definition opens_with (request response : byte) (output' : list byte) (size : Z) : Prop :=
  load output' 0 = Some response \/ (size = 5 /\ take 2 output' = [x01; request]).

(** ** The tuples of a Read By Type Response *)

(** The result of a read is taken into a Read By Type Response: it is
    whole, or cut at the 253 octets a tuple can hold. *)
Definition read_accepted (rc : attribute_access_result.t) (read_size : Z) : Prop :=
  rc = attribute_access_result.success
  \/ (rc = attribute_access_result.read_truncated /\ read_size = 253).

(** What [collect_attributes] holds between two attributes: no tuple and
    no size yet, or a size of 2 to 255 octets and a whole number of
    tuples of that size. *)
Definition well_packed (it : collect_attributes.t) : Prop :=
  collect_attributes.begin_ it <= collect_attributes.current_ it <= collect_attributes.end_ it
  /\ if collect_attributes.first_ it
     then collect_attributes.current_ it = collect_attributes.begin_ it
     else 2 <= collect_attributes.size_ it <= 255
          /\ exists k, 1 <= k
               /\ collect_attributes.current_ it - collect_attributes.begin_ it
                  = k * collect_attributes.size_ it.








(** [read_accepted], decided. *)
Definition accepted (rc : attribute_access_result.t) (read_size : Z) : bool :=
  bool_decide (rc = attribute_access_result.success)
  || bool_decide (rc = attribute_access_result.read_truncated) && (read_size =? 253).


(** ** The groups of a Find By Type Value Request *)

(** The services whose declaration has a handle in
    [[starting_handle, ending_handle]] and passes [filter], each with the
    handle of its declaration and of its last attribute, in declaration
    order; [index] is the handle of the declaration of the first
    service. *)
Fixpoint matching_groups (filter : Z -> attribute -> bool) (starting_handle ending_handle : Z)
    (index : Z) (services : list service) : list (Z * Z) :=
  match services with
  | [] => []
  | Service :: services =>
    let groups :=
      matching_groups filter starting_handle ending_handle
        (uint16 (index + number_of_attributes Service)) services in
    if (starting_handle <=? index) && (index <=? ending_handle)
       && filter index (characteristic_declaration_attribute Service)
    then (index, uint16 (index + number_of_attributes Service - 1)) :: groups
    else groups
  end.

(** The handles of the declarations of the services, in declaration
    order, as the handlers count them; [index] is the handle of the
    declaration of the first service. *)
Fixpoint service_handles (index : Z) (services : list service) : list Z :=
  match services with
  | [] => []
  | Service :: services =>
    index :: service_handles (uint16 (index + number_of_attributes Service)) services
  end.

(** The handles of the declarations of the services in unbounded
    arithmetic: each service starts behind the attributes of the one
    before it. *)
Fixpoint declaration_handles (index : Z) (services : list service) : list Z :=
  match services with
  | [] => []
  | Service :: services =>
    index :: declaration_handles (index + number_of_attributes Service) services
  end.

(** The first service whose declaration has a handle in
    [[starting_handle, ending_handle]]; [index] is the handle of the
    declaration of the first service. *)
Fixpoint first_in_range (starting_handle ending_handle index : Z) (services : list service)
  : option service :=
  match services with
  | [] => None
  | Service :: services =>
    if (starting_handle <=? index) && (index <=? ending_handle) then Some Service
    else first_in_range starting_handle ending_handle
           (uint16 (index + number_of_attributes Service)) services
  end.

(** The four octets of a group in a Find By Type Value Response. *)
Definition group_octets (group : Z * Z) : list byte :=
  handle_octets group.1 ++ handle_octets group.2.

(** * Properties *)

#[global] Arguments read : simpl never.
#[global] Arguments write : simpl never.
#[global] Arguments compare_value : simpl never.
#[global] Arguments commit : simpl never.
#[global] Arguments store : simpl never.
#[global] Arguments region : simpl never.
#[global] Arguments size_t : simpl never.
#[global] Arguments uint8 : simpl never.
#[global] Arguments uint16 : simpl never.
#[global] Arguments services_by_group.each : simpl never.
#[global] Arguments collect_primary_services.each : simpl never.
#[global] Arguments collect_find_by_type_groups.call : simpl never.
#[global] Arguments collect_attributes.call : simpl never.
#[global] Arguments handle_octets : simpl never.

(** ** Octets and buffers *)

Lemma byte_val_range (b : byte) : 0 <= byte_val b < 256.
Proof. unfold byte_val. pose proof (Byte.to_N_bounded b). lia. Qed.

Lemma byte_val_to_byte (z : Z) : byte_val (to_byte z) = z mod 256.
Proof.
  unfold byte_val, to_byte.
  pose proof (Z.mod_pos_bound z 256 ltac:(lia)) as Hz.
  destruct (Byte.of_N (Z.to_N (z mod 256))) as [b|] eqn:E.
  - apply Byte.to_of_N in E. lia.
  - apply Byte.of_N_None_iff in E. lia.
Qed.

Lemma to_byte_byte_val (b : byte) : to_byte (byte_val b) = b.
Proof.
  unfold to_byte, byte_val.
  pose proof (Byte.to_N_bounded b) as Hb.
  rewrite Z.mod_small by lia.
  rewrite N2Z.id, Byte.of_to_N. reflexivity.
Qed.

Lemma to_byte_mod (z : Z) : to_byte (z mod 256) = to_byte z.
Proof. unfold to_byte. rewrite Z.mod_mod by lia. reflexivity. Qed.

Lemma word16_range (lo hi : byte) : 0 <= word16 lo hi < 65536.
Proof. unfold word16. pose proof (byte_val_range lo). pose proof (byte_val_range hi). lia. Qed.

Lemma lor_shiftl_word16 (lo hi : byte) :
  Z.lor (byte_val lo) (Z.shiftl (byte_val hi) 8) = word16 lo hi.
Proof.
  unfold word16. rewrite Z.shiftl_mul_pow2 by lia.
  rewrite <- Z.add_nocarry_lor; [change (2 ^ 8) with 256; lia|].
  pose proof (byte_val_range lo) as Hlo.
  change 256 with (2 ^ 8).
  apply Z.bits_inj'. intros n Hn.
  rewrite Z.land_spec, Z.bits_0.
  destruct (Z.lt_ge_cases n 8).
  - rewrite Z.mul_pow2_bits_low by lia. apply andb_false_r.
  - rewrite (Z.bits_above_log2 (byte_val lo)); [reflexivity|lia|].
    destruct (Z.eq_dec (byte_val lo) 0) as [->|]; [simpl; lia|].
    apply Z.log2_lt_pow2; [lia|]. eapply Z.lt_le_trans; [apply Hlo|].
    change 256 with (2 ^ 8). apply Z.pow_le_mono_r; lia.
Qed.

Lemma to_byte_land (z : Z) : to_byte (Z.land z 255) = to_byte z.
Proof. change 255 with (Z.ones 8). rewrite Z.land_ones by lia. apply to_byte_mod. Qed.

Lemma word16_lo (lo hi : byte) : to_byte (Z.land (word16 lo hi) 255) = lo.
Proof.
  rewrite to_byte_land. rewrite <- to_byte_mod. unfold word16.
  pose proof (byte_val_range lo).
  replace ((byte_val lo + 256 * byte_val hi) mod 256) with (byte_val lo).
  - apply to_byte_byte_val.
  - apply Z.mod_unique_pos with (q := byte_val hi); lia.
Qed.

Lemma word16_hi (lo hi : byte) : to_byte (Z.shiftr (word16 lo hi) 8) = hi.
Proof.
  rewrite Z.shiftr_div_pow2 by lia. unfold word16.
  pose proof (byte_val_range lo).
  replace ((byte_val lo + 256 * byte_val hi) / 2 ^ 8) with (byte_val hi).
  - apply to_byte_byte_val.
  - change (2 ^ 8) with 256.
    apply Z.div_unique_pos with (r := byte_val lo); lia.
Qed.

Lemma length_handle_octets (handle : Z) : length (handle_octets handle) = 2%nat.
Proof. reflexivity. Qed.

(** Solves a bound on lengths of appended, taken and dropped lists. *)
Ltac list_len :=
  repeat (progress (rewrite ?length_app, ?length_take, ?length_drop, ?length_replicate,
                      ?length_handle_octets;
                    cbn [length]));
  lia.

Lemma store_Some (mem : list byte) (pos : Z) (bytes : list byte) :
  0 <= pos -> pos + Z.of_nat (length bytes) <= Z.of_nat (length mem) ->
  store mem pos bytes =
    Some (take (Z.to_nat pos) mem ++ bytes ++ drop (Z.to_nat pos + length bytes) mem).
Proof.
  intros H1 H2. unfold store.
  destruct (Z.leb_spec 0 pos); [|lia].
  destruct (Z.leb_spec (pos + Z.of_nat (length bytes)) (Z.of_nat (length mem))); [|lia].
  reflexivity.
Qed.

Lemma store_inv (mem : list byte) (pos : Z) (bytes mem' : list byte) :
  store mem pos bytes = Some mem' ->
  0 <= pos /\ pos + Z.of_nat (length bytes) <= Z.of_nat (length mem) /\
  mem' = take (Z.to_nat pos) mem ++ bytes ++ drop (Z.to_nat pos + length bytes) mem.
Proof.
  unfold store.
  destruct (Z.leb_spec 0 pos); simpl; [|discriminate].
  destruct (Z.leb_spec (pos + Z.of_nat (length bytes)) (Z.of_nat (length mem))); [|discriminate].
  intros [= <-]. auto.
Qed.

Lemma length_store (mem : list byte) (pos : Z) (bytes mem' : list byte) :
  store mem pos bytes = Some mem' -> length mem' = length mem.
Proof.
  intros (H1 & H2 & ->)%store_inv.
  rewrite !length_app, length_take, length_drop. lia.
Qed.

(** A store leaves the octets in front of it alone. *)
Lemma take_store (mem : list byte) (pos : Z) (bytes mem' : list byte) (n : nat) :
  store mem pos bytes = Some mem' -> (Z.of_nat n <= pos) ->
  take n mem' = take n mem.
Proof.
  intros (H1 & H2 & ->)%store_inv Hn.
  rewrite take_app_le by (rewrite length_take; lia).
  rewrite take_take. f_equal. lia.
Qed.

Lemma store_0_take (mem : list byte) (bytes mem' : list byte) :
  store mem 0 bytes = Some mem' -> take (length bytes) mem' = bytes.
Proof.
  intros (H1 & H2 & ->)%store_inv. simpl.
  rewrite take_app_length. reflexivity.
Qed.

(** ** Error responses and the decoding of requests *)

Lemma error_response_Some opcode error_code handle (output : list byte) out_size :
  5 <= out_size -> 5 <= Z.of_nat (length output) ->
  server.error_response opcode error_code handle output out_size =
    Some ([x01; opcode; to_byte (Z.land handle 255); to_byte (Z.shiftr handle 8);
           to_byte (bits error_code)] ++ drop 5 output, 5).
Proof.
  intros H1 H2. unfold server.error_response.
  destruct (Z.leb_spec 5 out_size); [|lia].
  rewrite store_Some by (simpl; lia). reflexivity.
Qed.

Lemma error_response_word16 opcode error_code lo hi (output : list byte) out_size :
  5 <= out_size -> 5 <= Z.of_nat (length output) ->
  server.error_response opcode error_code (word16 lo hi) output out_size =
    Some (error_pdu opcode lo hi error_code ++ drop 5 output, 5).
Proof.
  intros H1 H2. rewrite error_response_Some by assumption.
  rewrite word16_lo, word16_hi. reflexivity.
Qed.

Lemma error_response_without_handle_Some opcode error_code (output : list byte) out_size :
  5 <= out_size -> 5 <= Z.of_nat (length output) ->
  server.error_response_without_handle opcode error_code output out_size =
    Some (error_pdu opcode x00 x00 error_code ++ drop 5 output, 5).
Proof.
  intros H1 H2. unfold server.error_response_without_handle.
  rewrite error_response_Some by assumption. reflexivity.
Qed.

Lemma read_16bit_at_1 (a lo hi : byte) (mem : list byte) :
  read_16bit (a :: lo :: hi :: mem) 1 = Some (word16 lo hi).
Proof. unfold read_16bit. simpl. rewrite lor_shiftl_word16. reflexivity. Qed.

Lemma read_16bit_at_3 (a b c lo hi : byte) (mem : list byte) :
  read_16bit (a :: b :: c :: lo :: hi :: mem) 3 = Some (word16 lo hi).
Proof. unfold read_16bit. simpl. rewrite lor_shiftl_word16. reflexivity. Qed.

Lemma read_16bit_at_5 (a b c d e lo hi : byte) (mem : list byte) :
  read_16bit (a :: b :: c :: d :: e :: lo :: hi :: mem) 5 = Some (word16 lo hi).
Proof. unfold read_16bit. simpl. rewrite lor_shiftl_word16. reflexivity. Qed.

Section server_properties.
Variable services : list service.
Variable internal_128bit_uuid : Z.
Variable uuid_filter : list byte -> Z -> bool -> Z -> attribute -> bool.

Local Abbreviation number_of_attributes := (server.number_of_attributes services).

(** [check_size_and_handle_range] on a PDU of one of the two sizes. *)
Lemma check_size_and_handle_range_sized (A B : Z) (opcode s_lo s_hi e_lo e_hi : byte)
    (rest output : list byte) (out_size : Z) :
  let input := opcode :: s_lo :: s_hi :: e_lo :: e_hi :: rest in
  server.in_size input = A \/ server.in_size input = B ->
  5 <= out_size <= Z.of_nat (length output) ->
  server.check_size_and_handle_range services A B input output out_size =
    if (word16 s_lo s_hi =? 0) || (word16 e_lo e_hi <? word16 s_lo s_hi) then
      Some (check_false
              (error_pdu opcode s_lo s_hi att_error_codes.invalid_handle ++ drop 5 output) 5)
    else if number_of_attributes <? word16 s_lo s_hi then
      Some (check_false
              (error_pdu opcode s_lo s_hi att_error_codes.attribute_not_found ++ drop 5 output) 5)
    else Some (check_true (word16 s_lo s_hi, word16 e_lo e_hi)).
Proof.
  intros input Hsize Hout. subst input.
  unfold server.check_size_and_handle_range.
  replace (negb (server.in_size (opcode :: s_lo :: s_hi :: e_lo :: e_hi :: rest) =? A)
           && negb (server.in_size (opcode :: s_lo :: s_hi :: e_lo :: e_hi :: rest) =? B))
    with false
    by (destruct Hsize as [-> | ->]; rewrite Z.eqb_refl; simpl;
        rewrite ?andb_false_r; reflexivity).
  unfold read_handle. rewrite read_16bit_at_1, read_16bit_at_3. simpl.
  destruct ((word16 s_lo s_hi =? 0) || (word16 e_lo e_hi <? word16 s_lo s_hi)).
  - rewrite error_response_word16 by lia. reflexivity.
  - destruct (number_of_attributes <? word16 s_lo s_hi); [|reflexivity].
    rewrite error_response_word16 by lia. reflexivity.
Qed.

(** [check_size_and_handle_range] on a PDU of another size. *)
Lemma check_size_and_handle_range_missized (A B : Z) (opcode : byte)
    (input output : list byte) (out_size : Z) :
  load input 0 = Some opcode ->
  server.in_size input <> A -> server.in_size input <> B ->
  5 <= out_size <= Z.of_nat (length output) ->
  server.check_size_and_handle_range services A B input output out_size =
    Some (check_false
            (error_pdu opcode x00 x00 att_error_codes.invalid_pdu ++ drop 5 output) 5).
Proof.
  intros Hop H1 H2 Hout. unfold server.check_size_and_handle_range.
  destruct (Z.eqb_spec (server.in_size input) A); [contradiction|].
  destruct (Z.eqb_spec (server.in_size input) B); [contradiction|].
  simpl. rewrite Hop. simpl.
  rewrite error_response_without_handle_Some by lia. reflexivity.
Qed.

(** A PDU of at least five octets, taken apart. *)
Lemma range_request_inv (input : list byte) (opcode : byte) :
  load input 0 = Some opcode -> 5 <= server.in_size input ->
  exists s_lo s_hi e_lo e_hi rest, input = opcode :: s_lo :: s_hi :: e_lo :: e_hi :: rest.
Proof.
  intros Hop Hlen. unfold server.in_size in Hlen.
  destruct input as [|o [|s_lo [|s_hi [|e_lo [|e_hi rest]]]]]; simpl in Hlen; try lia.
  injection Hop as ->. eauto 6.
Qed.

(** C4: range validation, in the order of the checks: a PDU of neither
    size yields invalid_pdu; then a starting handle of 0 or above the
    ending handle yields invalid_handle, naming the starting handle; then
    a starting handle above the number of attributes yields
    attribute_not_found; otherwise the two handles are returned. *)
Theorem check_size_and_handle_range_cases (A B : Z) (input output : list byte) (out_size : Z)
    (opcode : byte) :
  5 <= A -> 5 <= B ->
  5 <= out_size <= Z.of_nat (length output) ->
  load input 0 = Some opcode ->
  (server.in_size input <> A /\ server.in_size input <> B ->
   exists output',
     server.check_size_and_handle_range services A B input output out_size
       = Some (check_false output' 5)
     /\ pdu output' 5 = error_pdu opcode x00 x00 att_error_codes.invalid_pdu)
  /\
  (server.in_size input = A \/ server.in_size input = B ->
   exists s_lo s_hi e_lo e_hi rest,
     input = opcode :: s_lo :: s_hi :: e_lo :: e_hi :: rest /\
     let starting_handle := word16 s_lo s_hi in
     let ending_handle := word16 e_lo e_hi in
     (starting_handle = 0 \/ ending_handle < starting_handle ->
      exists output',
        server.check_size_and_handle_range services A B input output out_size
          = Some (check_false output' 5)
        /\ pdu output' 5 = error_pdu opcode s_lo s_hi att_error_codes.invalid_handle)
     /\
     (starting_handle <> 0 -> starting_handle <= ending_handle ->
      number_of_attributes < starting_handle ->
      exists output',
        server.check_size_and_handle_range services A B input output out_size
          = Some (check_false output' 5)
        /\ pdu output' 5 = error_pdu opcode s_lo s_hi att_error_codes.attribute_not_found)
     /\
     (starting_handle <> 0 -> starting_handle <= ending_handle ->
      starting_handle <= number_of_attributes ->
      server.check_size_and_handle_range services A B input output out_size
        = Some (check_true (starting_handle, ending_handle)))).
Proof.
  intros HA HB Hout Hop. split.
  - intros [H1 H2].
    rewrite (check_size_and_handle_range_missized A B opcode) by assumption.
    eexists. split; reflexivity.
  - intros Hsize.
    destruct (range_request_inv input opcode Hop ltac:(lia))
      as (s_lo & s_hi & e_lo & e_hi & rest & ->).
    exists s_lo, s_hi, e_lo, e_hi, rest. split; [reflexivity|].
    cbv zeta. rewrite check_size_and_handle_range_sized by assumption.
    repeat split.
    + intros Hbad. eexists. split.
      * replace ((word16 s_lo s_hi =? 0) || (word16 e_lo e_hi <? word16 s_lo s_hi)) with true;
          [reflexivity|].
        symmetry. apply orb_true_iff. destruct Hbad; [left|right]; lia.
      * reflexivity.
    + intros H0 Hle Hgt.
      destruct (Z.eqb_spec (word16 s_lo s_hi) 0); [contradiction|].
      destruct (Z.ltb_spec (word16 e_lo e_hi) (word16 s_lo s_hi)); [lia|].
      destruct (Z.ltb_spec number_of_attributes (word16 s_lo s_hi)); [|lia].
      simpl. eexists. split; reflexivity.
    + intros H0 Hle Hgt.
      destruct (Z.eqb_spec (word16 s_lo s_hi) 0); [contradiction|].
      destruct (Z.ltb_spec (word16 e_lo e_hi) (word16 s_lo s_hi)); [lia|].
      destruct (Z.ltb_spec number_of_attributes (word16 s_lo s_hi)); [lia|].
      reflexivity.
Qed.

Lemma size_t_small (z : Z) : 0 <= z < 2 ^ 64 -> size_t z = z.
Proof. intros H. unfold size_t. apply Z.mod_small. exact H. Qed.

Lemma number_of_attributes_nonneg : 0 <= number_of_attributes.
Proof. unfold server.number_of_attributes. lia. Qed.

Lemma attribute_at_Some (index : Z) :
  0 <= index < number_of_attributes ->
  exists attr, server.attribute_at services index = Some attr.
Proof.
  intros [H0 HN]. unfold server.attribute_at, server.number_of_attributes in *.
  destruct (Z.leb_spec 0 index); [|lia].
  apply lookup_lt_is_Some_2. lia.
Qed.

Lemma attribute_at_inv (index : Z) (attr : attribute) :
  server.attribute_at services index = Some attr ->
  0 <= index < number_of_attributes.
Proof.
  unfold server.attribute_at, server.number_of_attributes.
  destruct (Z.leb_spec 0 index); [|discriminate].
  intros Hl%lookup_lt_Some. lia.
Qed.

(** [check_handle] on a PDU of at least three octets. *)
Lemma check_handle_sized (opcode lo hi : byte) (rest output : list byte) (out_size : Z) :
  5 <= out_size <= Z.of_nat (length output) ->
  server.check_handle services (opcode :: lo :: hi :: rest) output out_size =
    if word16 lo hi =? 0 then
      Some (check_false (error_pdu opcode lo hi att_error_codes.invalid_handle ++ drop 5 output) 5)
    else if number_of_attributes <? word16 lo hi then
      Some (check_false
              (error_pdu opcode lo hi att_error_codes.attribute_not_found ++ drop 5 output) 5)
    else Some (check_true (word16 lo hi)).
Proof.
  intros Hout. unfold server.check_handle, read_handle.
  rewrite read_16bit_at_1. simpl.
  destruct (word16 lo hi =? 0).
  - rewrite error_response_word16 by lia. reflexivity.
  - destruct (number_of_attributes <? word16 lo hi); [|reflexivity].
    rewrite error_response_word16 by lia. reflexivity.
Qed.

Lemma pdu_error (opcode lo hi : byte) (code : att_error_codes.t) (rest : list byte) :
  pdu (error_pdu opcode lo hi code ++ rest) 5 = error_pdu opcode lo hi code.
Proof. reflexivity. Qed.

(** C7: Exchange MTU: a PDU that is not three octets long and a requested
    MTU below 23 yield invalid_pdu; otherwise the requested MTU becomes
    the client MTU, the response is 0x03 followed by the server MTU, least
    significant octet first, and the negotiated MTU is the minimum of the
    server MTU and the requested one. *)
Theorem exchange_mtu_request_responses (input output : list byte) (out_size : Z)
    (connection : connection_data.t) (opcode : byte) :
  5 <= out_size <= Z.of_nat (length output) ->
  load input 0 = Some opcode ->
  (server.in_size input <> 3 ->
   exists output',
     server.handle_exchange_mtu_request input output out_size connection
       = Some (output', 5, connection)
     /\ pdu output' 5 = error_pdu opcode x00 x00 att_error_codes.invalid_pdu)
  /\
  (server.in_size input = 3 ->
   exists mtu_lo mtu_hi,
     input = [opcode; mtu_lo; mtu_hi] /\
     let mtu := word16 mtu_lo mtu_hi in
     (mtu < 23 ->
      exists output',
        server.handle_exchange_mtu_request input output out_size connection
          = Some (output', 5, connection)
        /\ pdu output' 5 = error_pdu opcode x00 x00 att_error_codes.invalid_pdu)
     /\
     (23 <= mtu ->
      exists output' connection',
        server.handle_exchange_mtu_request input output out_size connection
          = Some (output', 3, connection')
        /\ pdu output' 3 =
             [ x03;
               to_byte (connection_data.server_mtu connection mod 256);
               to_byte (connection_data.server_mtu connection / 256) ]
        /\ connection_data.client_mtu connection' = mtu
        /\ connection_data.server_mtu connection' = connection_data.server_mtu connection
        /\ connection_data.negotiated_mtu connection'
             = Z.min (connection_data.server_mtu connection) mtu)).
Proof.
  intros Hout Hop. split.
  - intros Hsize. unfold server.handle_exchange_mtu_request.
    destruct (Z.eqb_spec (server.in_size input) 3); [contradiction|].
    simpl. rewrite Hop. simpl.
    rewrite error_response_without_handle_Some by lia. simpl.
    eexists. split; reflexivity.
  - intros Hsize. unfold server.in_size in Hsize.
    destruct input as [|o [|mtu_lo [|mtu_hi [|]]]]; simpl in Hsize; try lia.
    injection Hop as ->.
    exists mtu_lo, mtu_hi. split; [reflexivity|]. cbv zeta.
    unfold server.handle_exchange_mtu_request. simpl negb. cbv iota.
    rewrite read_16bit_at_1. simpl.
    split.
    + intros Hlt. unfold default_att_mtu_size.
      destruct (Z.ltb_spec (word16 mtu_lo mtu_hi) 23); [|lia].
      rewrite error_response_without_handle_Some by lia. simpl.
      eexists. split; reflexivity.
    + intros Hge. unfold default_att_mtu_size.
      destruct (Z.ltb_spec (word16 mtu_lo mtu_hi) 23); [lia|].
      unfold connection_data.set_client_mtu, default_att_mtu_size.
      rewrite option_guard_True by lia. simpl.
      rewrite store_Some by (simpl; lia). simpl.
      unfold write_16bit. rewrite store_Some by list_len. simpl.
      eexists _, _. split; [reflexivity|].
      unfold pdu. simpl.
      change 255 with (Z.ones 8). rewrite Z.land_ones by lia.
      rewrite to_byte_mod, Z.shiftr_div_pow2 by lia.
      unfold connection_data.server_mtu, connection_data.client_mtu,
        connection_data.negotiated_mtu. simpl.
      rewrite take_0, to_byte_mod. change (2 ^ 8) with 256. auto.
Qed.

Lemma word16_size_t (lo hi : byte) :
  word16 lo hi <> 0 -> size_t (word16 lo hi - 1) = word16 lo hi - 1.
Proof. intros H. pose proof (word16_range lo hi). apply size_t_small. lia. Qed.

Lemma region_tail (a b c : byte) (value : list byte) :
  region (a :: b :: c :: value) 3 (server.in_size (a :: b :: c :: value)) = value.
Proof.
  unfold region, server.in_size. rewrite !length_cons.
  change (Z.to_nat 3) with 3%nat. simpl drop.
  apply take_ge. lia.
Qed.

(** C6: Write Request: a PDU shorter than three octets yields
    invalid_pdu; the handle is validated; the write access receives the
    octets behind the handle; success yields the one octet 0x13,
    write_overflow yields invalid_attribute_value_length and every other
    result write_not_permitted. *)
Theorem write_request_responses (input output : list byte) (out_size : Z) (opcode : byte) :
  5 <= out_size <= Z.of_nat (length output) ->
  load input 0 = Some opcode ->
  (server.in_size input < 3 ->
   exists output',
     server.handle_write_request services input output out_size = Some (output', 5)
     /\ pdu output' 5 = error_pdu opcode x00 x00 att_error_codes.invalid_pdu)
  /\
  (3 <= server.in_size input ->
   exists lo hi value,
     input = opcode :: lo :: hi :: value /\
     let handle := word16 lo hi in
     let write := write input 3 (server.in_size input) in
     buffer write = value /\
     (handle = 0 ->
      exists output',
        server.handle_write_request services input output out_size = Some (output', 5)
        /\ pdu output' 5 = error_pdu opcode lo hi att_error_codes.invalid_handle)
     /\
     (number_of_attributes < handle ->
      exists output',
        server.handle_write_request services input output out_size = Some (output', 5)
        /\ pdu output' 5 = error_pdu opcode lo hi att_error_codes.attribute_not_found)
     /\
     (handle <> 0 -> handle <= number_of_attributes ->
      exists attr,
        server.attribute_at services (handle - 1) = Some attr /\
        let rc := (access attr write handle).1 in
        (rc = attribute_access_result.success ->
         exists output',
           server.handle_write_request services input output out_size = Some (output', 1)
           /\ pdu output' 1 = [x13])
        /\
        (rc = attribute_access_result.write_overflow ->
         exists output',
           server.handle_write_request services input output out_size = Some (output', 5)
           /\ pdu output' 5 =
                error_pdu opcode lo hi att_error_codes.invalid_attribute_value_length)
        /\
        (rc <> attribute_access_result.success ->
         rc <> attribute_access_result.write_overflow ->
         exists output',
           server.handle_write_request services input output out_size = Some (output', 5)
           /\ pdu output' 5 = error_pdu opcode lo hi att_error_codes.write_not_permitted))).
Proof.
  intros Hout Hop. split.
  - intros Hsize. unfold server.handle_write_request.
    destruct (Z.ltb_spec (server.in_size input) 3); [|lia].
    rewrite Hop. simpl.
    rewrite error_response_without_handle_Some by lia.
    eexists. split; reflexivity.
  - intros Hsize. unfold server.in_size in Hsize.
    destruct input as [|o [|lo [|hi value]]]; simpl in Hsize; try lia.
    injection Hop as ->.
    exists lo, hi, value. split; [reflexivity|]. cbv zeta.
    split; [apply region_tail|].
    unfold server.handle_write_request.
    destruct (Z.ltb_spec (server.in_size (opcode :: lo :: hi :: value)) 3) as [Hlt|_];
      [unfold server.in_size in Hlt; rewrite !length_cons in Hlt; lia|].
    rewrite check_handle_sized by assumption.
    pose proof (word16_range lo hi) as Hrange.
    pose proof number_of_attributes_nonneg as HN.
    split; [|split].
    + intros ->. simpl. eexists. split; reflexivity.
    + intros Hgt.
      destruct (Z.eqb_spec (word16 lo hi) 0); [lia|].
      destruct (Z.ltb_spec number_of_attributes (word16 lo hi)); [|lia].
      simpl. eexists. split; reflexivity.
    + intros Hne Hle.
      destruct (Z.eqb_spec (word16 lo hi) 0); [lia|].
      destruct (Z.ltb_spec number_of_attributes (word16 lo hi)); [lia|].
      destruct (attribute_at_Some (word16 lo hi - 1) ltac:(lia)) as [attr Hattr].
      exists attr. split; [exact Hattr|].
      simpl. rewrite word16_size_t by assumption. rewrite Hattr. simpl.
      change (0 + server.in_size (opcode :: lo :: hi :: value))
        with (server.in_size (opcode :: lo :: hi :: value)).
      destruct (access attr (write (opcode :: lo :: hi :: value) 3
                               (server.in_size (opcode :: lo :: hi :: value)))
                  (word16 lo hi)) as [rc write'].
      simpl. split; [|split].
      * intros ->. simpl. rewrite store_Some by list_len. simpl.
        eexists. split; reflexivity.
      * intros ->. simpl. rewrite error_response_word16 by lia.
        eexists. split; reflexivity.
      * intros H1 H2.
        rewrite bool_decide_eq_false_2 by assumption.
        rewrite bool_decide_eq_false_2 by assumption.
        simpl. rewrite error_response_word16 by lia.
        eexists. split; reflexivity.
Qed.

Lemma commit_Some (mem : list byte) (begin end_ : Z) (args : attribute_access_arguments) :
  0 <= begin <= end_ -> end_ <= Z.of_nat (length mem) ->
  commit mem begin end_ args =
    Some (take (Z.to_nat begin) mem
          ++ take (Z.to_nat (end_ - begin)) (buffer args)
          ++ drop (Z.to_nat begin + length (take (Z.to_nat (end_ - begin)) (buffer args))) mem).
Proof. intros H1 H2. unfold commit. apply store_Some; list_len. Qed.

Lemma length_commit (mem mem' : list byte) (begin end_ : Z) (args : attribute_access_arguments) :
  commit mem begin end_ args = Some mem' -> length mem' = length mem.
Proof. apply length_store. Qed.

(** What a read handler leaves when the access succeeded: the opcode,
    followed by the octets the access left in the buffer. *)
Lemma read_response_pdu (output : list byte) (out_size : Z) (args : attribute_access_arguments)
    (opcode : byte) :
  1 <= out_size <= Z.of_nat (length output) ->
  exists output1 output2,
    commit output 1 out_size args = Some output1
    /\ store output1 0 [opcode] = Some output2
    /\ load output2 0 = Some opcode
    /\ forall n, 0 <= n <= out_size - 1 -> n <= Z.of_nat (length (buffer args)) ->
       pdu output2 (1 + n) = opcode :: take (Z.to_nat n) (buffer args).
Proof.
  intros Hout. rewrite commit_Some by lia.
  eexists _, _. split; [reflexivity|].
  rewrite store_Some by list_len.
  split; [reflexivity|]. split; [reflexivity|].
  intros n Hn Hlen. unfold pdu.
  replace (Z.to_nat (1 + n)) with (S (Z.to_nat n)) by lia.
  change (Z.to_nat 0) with 0%nat. change (Z.to_nat 1) with 1%nat.
  rewrite take_0. change (length [opcode]) with 1%nat.
  change ([] ++ [opcode] ++ ?l) with (opcode :: l).
  rewrite firstn_cons. f_equal.
  rewrite drop_app_length' by list_len.
  rewrite take_app_le by list_len.
  rewrite take_take. f_equal. lia.
Qed.

Lemma commit_then_error (output : list byte) (out_size : Z) (args : attribute_access_arguments)
    (opcode lo hi : byte) (code : att_error_codes.t) :
  5 <= out_size <= Z.of_nat (length output) ->
  exists output1 output2,
    commit output 1 out_size args = Some output1
    /\ server.error_response opcode code (word16 lo hi) output1 out_size = Some (output2, 5)
    /\ pdu output2 5 = error_pdu opcode lo hi code.
Proof.
  intros Hout. rewrite commit_Some by lia.
  eexists _, _. split; [reflexivity|].
  rewrite error_response_word16 by list_len.
  split; reflexivity.
Qed.

(** [check_size_and_handle] on a PDU of the one expected size. *)
Lemma check_size_and_handle_sized (A : Z) (opcode lo hi : byte) (rest output : list byte)
    (out_size : Z) :
  server.in_size (opcode :: lo :: hi :: rest) = A ->
  5 <= out_size <= Z.of_nat (length output) ->
  server.check_size_and_handle services A A (opcode :: lo :: hi :: rest) output out_size =
    if word16 lo hi =? 0 then
      Some (check_false (error_pdu opcode lo hi att_error_codes.invalid_handle ++ drop 5 output) 5)
    else if number_of_attributes <? word16 lo hi then
      Some (check_false
              (error_pdu opcode lo hi att_error_codes.attribute_not_found ++ drop 5 output) 5)
    else Some (check_true (word16 lo hi)).
Proof.
  intros HA Hout. unfold server.check_size_and_handle.
  rewrite HA, Z.eqb_refl. simpl. apply check_handle_sized. assumption.
Qed.

(** C5: Read Request and Read Blob Request: handle 0 yields
    invalid_handle and a handle above the number of attributes
    attribute_not_found; when the read over the output behind the opcode
    (from offset 0 for Read) returns success or read_truncated, the
    opcode is 0x0B or 0x0D and the size is one more than the number of
    octets read; invalid_offset yields invalid_offset for Read Blob, and
    every other result read_not_permitted. *)
Theorem read_and_read_blob_responses (opcode lo hi o_lo o_hi : byte) (output : list byte)
    (out_size : Z) :
  5 <= out_size <= Z.of_nat (length output) -> out_size < 2 ^ 64 ->
  let handle := word16 lo hi in
  let offset := word16 o_lo o_hi in
  let handle_read := server.handle_read_request services [opcode; lo; hi] output out_size in
  let handle_blob :=
    server.handle_read_blob_request services [opcode; lo; hi; o_lo; o_hi] output out_size in
  let replies (response : option (list byte * Z)) (size : Z) (response_pdu : list byte) :=
    exists output', response = Some (output', size) /\ pdu output' size = response_pdu in
  (handle = 0 ->
   replies handle_read 5 (error_pdu opcode lo hi att_error_codes.invalid_handle)
   /\ replies handle_blob 5 (error_pdu opcode lo hi att_error_codes.invalid_handle))
  /\
  (number_of_attributes < handle ->
   replies handle_read 5 (error_pdu opcode lo hi att_error_codes.attribute_not_found)
   /\ replies handle_blob 5 (error_pdu opcode lo hi att_error_codes.attribute_not_found))
  /\
  (handle <> 0 -> handle <= number_of_attributes ->
   exists attr,
     server.attribute_at services (handle - 1) = Some attr /\
     (forall rc read',
        access attr (read output 1 out_size 0) handle = (rc, read') ->
        (rc = attribute_access_result.success \/ rc = attribute_access_result.read_truncated ->
         0 <= buffer_size read' <= out_size - 1 ->
         exists output',
           handle_read = Some (output', 1 + buffer_size read')
           /\ load output' 0 = Some x0b
           /\ (buffer_size read' <= Z.of_nat (length (buffer read')) ->
               pdu output' (1 + buffer_size read')
                 = x0b :: take (Z.to_nat (buffer_size read')) (buffer read')))
        /\
        (rc <> attribute_access_result.success -> rc <> attribute_access_result.read_truncated ->
         replies handle_read 5 (error_pdu opcode lo hi att_error_codes.read_not_permitted)))
     /\
     (forall rc read',
        access attr (read output 1 out_size offset) handle = (rc, read') ->
        (rc = attribute_access_result.success \/ rc = attribute_access_result.read_truncated ->
         0 <= buffer_size read' <= out_size - 1 ->
         exists output',
           handle_blob = Some (output', 1 + buffer_size read')
           /\ load output' 0 = Some x0d
           /\ (buffer_size read' <= Z.of_nat (length (buffer read')) ->
               pdu output' (1 + buffer_size read')
                 = x0d :: take (Z.to_nat (buffer_size read')) (buffer read')))
        /\
        (rc = attribute_access_result.invalid_offset ->
         replies handle_blob 5 (error_pdu opcode lo hi att_error_codes.invalid_offset))
        /\
        (rc <> attribute_access_result.success -> rc <> attribute_access_result.read_truncated ->
         rc <> attribute_access_result.invalid_offset ->
         replies handle_blob 5 (error_pdu opcode lo hi att_error_codes.read_not_permitted)))).
Proof.
  intros Hout Hmax. cbv zeta.
  unfold server.handle_read_request, server.handle_read_blob_request.
  rewrite !check_size_and_handle_sized by (reflexivity || assumption).
  pose proof (word16_range lo hi) as Hrange.
  pose proof number_of_attributes_nonneg as HN.
  split; [|split].
  - intros ->. simpl. split; eexists; split; reflexivity.
  - intros Hgt.
    destruct (Z.eqb_spec (word16 lo hi) 0); [lia|].
    destruct (Z.ltb_spec number_of_attributes (word16 lo hi)); [|lia].
    simpl. split; eexists; split; reflexivity.
  - intros Hne Hle.
    destruct (Z.eqb_spec (word16 lo hi) 0); [lia|].
    destruct (Z.ltb_spec number_of_attributes (word16 lo hi)); [lia|].
    destruct (attribute_at_Some (word16 lo hi - 1) ltac:(lia)) as [attr Hattr].
    exists attr. split; [exact Hattr|].
    rewrite read_16bit_at_3. simpl.
    rewrite word16_size_t by assumption. rewrite Hattr. simpl.
    change (0 + 1) with 1. change (0 + out_size) with out_size.
    split.
    + intros rc read' ->. split.
      * intros Hrc Hsize.
        destruct (read_response_pdu output out_size read' x0b ltac:(lia))
          as (output1 & output2 & -> & Hstore & Hload & Hpdu).
        replace (bool_decide (rc = attribute_access_result.success)
                 || bool_decide (rc = attribute_access_result.read_truncated)) with true
          by (destruct Hrc as [-> | ->]; reflexivity).
        simpl. change (to_byte (bits att_opcodes.read_response)) with x0b.
        rewrite Hstore. simpl.
        rewrite size_t_small by lia.
        exists output2. split; [reflexivity|]. split; [exact Hload|].
        intros Hlen. apply Hpdu; lia.
      * intros H1 H2.
        rewrite !bool_decide_eq_false_2 by assumption.
        destruct (commit_then_error output out_size read' opcode lo hi
                    att_error_codes.read_not_permitted Hout)
          as (output1 & output2 & -> & Herr & Hpdu).
        simpl. rewrite Herr. exists output2. split; [reflexivity|exact Hpdu].
    + intros rc read' ->. split; [|split].
      * intros Hrc Hsize.
        destruct (read_response_pdu output out_size read' x0d ltac:(lia))
          as (output1 & output2 & -> & Hstore & Hload & Hpdu).
        replace (bool_decide (rc = attribute_access_result.success)
                 || bool_decide (rc = attribute_access_result.read_truncated)) with true
          by (destruct Hrc as [-> | ->]; reflexivity).
        simpl. change (to_byte (bits att_opcodes.read_blob_response)) with x0d.
        rewrite Hstore. simpl.
        rewrite size_t_small by lia.
        exists output2. split; [reflexivity|]. split; [exact Hload|].
        intros Hlen. apply Hpdu; lia.
      * intros ->.
        destruct (commit_then_error output out_size read' opcode lo hi
                    att_error_codes.invalid_offset Hout)
          as (output1 & output2 & -> & Herr & Hpdu).
        simpl. rewrite Herr. exists output2. split; [reflexivity|exact Hpdu].
      * intros H1 H2 H3.
        rewrite !bool_decide_eq_false_2 by assumption.
        destruct (commit_then_error output out_size read' opcode lo hi
                    att_error_codes.read_not_permitted Hout)
          as (output1 & output2 & -> & Herr & Hpdu).
        simpl. rewrite Herr. exists output2. split; [reflexivity|exact Hpdu].
Qed.

(** ** Find By Type Value: the walk over the services *)

Lemma write_handle_Some (mem : list byte) (p handle : Z) :
  0 <= p -> p + 2 <= Z.of_nat (length mem) ->
  write_handle mem p handle =
    Some (take (Z.to_nat p) mem ++ handle_octets handle ++ drop (Z.to_nat p + 2) mem, p + 2).
Proof.
  intros H1 H2. unfold write_handle, write_16bit.
  rewrite store_Some by (simpl; lia). reflexivity.
Qed.

(** Appending octets at [p] extends the octets in front of [p]. *)
Lemma take_append (mem bytes : list byte) (p : Z) :
  0 <= p -> p + Z.of_nat (length bytes) <= Z.of_nat (length mem) ->
  take (Z.to_nat (p + Z.of_nat (length bytes)))
    (take (Z.to_nat p) mem ++ bytes ++ drop (Z.to_nat p + length bytes) mem)
  = take (Z.to_nat p) mem ++ bytes.
Proof.
  intros H1 H2. rewrite app_assoc. apply take_app_length'. list_len.
Qed.

Lemma collect_find_by_type_groups_call_room (Service : service) (begin end_ current : Z)
    (mem : list byte) (handle : Z) (attr : attribute) :
  0 <= current -> end_ <= Z.of_nat (length mem) -> 4 <= end_ - current ->
  exists mem',
    collect_find_by_type_groups.call Service
      {| collect_find_by_type_groups.begin_ := begin;
         collect_find_by_type_groups.end_ := end_;
         collect_find_by_type_groups.current_ := current |} mem handle attr
    = Some ({| collect_find_by_type_groups.begin_ := begin;
               collect_find_by_type_groups.end_ := end_;
               collect_find_by_type_groups.current_ := current + 4 |}, mem', true)
    /\ length mem' = length mem
    /\ take (Z.to_nat (current + 4)) mem'
       = take (Z.to_nat current) mem
         ++ group_octets (handle, uint16 (handle + details.number_of_attributes Service - 1)).
Proof.
  intros H0 Hend Hroom. unfold collect_find_by_type_groups.call. simpl.
  destruct (Z.leb_spec 4 (end_ - current)); [|lia].
  rewrite write_handle_Some by lia. simpl.
  rewrite write_handle_Some by list_len. simpl.
  replace (current + 2 + 2) with (current + 4) by lia.
  eexists. split; [reflexivity|]. split; [list_len|].
  unfold group_octets. simpl fst. simpl snd.
  set (m1 := take (Z.to_nat current) mem ++ _).
  assert (length m1 = length mem) as Hm1 by (subst m1; list_len).
  assert (take (Z.to_nat (current + 2)) m1
          = take (Z.to_nat current) mem ++ handle_octets handle) as Ht.
  { subst m1. apply (take_append mem (handle_octets handle) current); simpl; lia. }
  rewrite Ht.
  change (to_byte (Z.land ?x 255) :: to_byte (Z.shiftr ?x 8) :: ?l)
    with (handle_octets x ++ l).
  rewrite !app_assoc. apply take_app_length'.
  rewrite !length_app, length_take. simpl. lia.
Qed.

Lemma collect_find_by_type_groups_call_full (Service : service)
    (it : collect_find_by_type_groups.t) (mem : list byte) (handle : Z) (attr : attribute) :
  collect_find_by_type_groups.end_ it - collect_find_by_type_groups.current_ it < 4 ->
  collect_find_by_type_groups.call Service it mem handle attr = Some (it, mem, false).
Proof.
  intros Hroom. unfold collect_find_by_type_groups.call.
  destruct (Z.leb_spec 4 (collect_find_by_type_groups.end_ it
                          - collect_find_by_type_groups.current_ it)); [lia|].
  reflexivity.
Qed.

Lemma services_by_group_each_unfold {Iterator : Type}
    (iterator_call : service -> Iterator -> list byte -> Z -> attribute
                     -> option (Iterator * list byte * bool))
    (filter : Z -> attribute -> bool) (Service : service)
    (f : services_by_group.t) (mem : list byte) :
  services_by_group.each iterator_call filter Service (f, mem) =
    '(f, mem) ←
      (if (services_by_group.starting_handle_ f <=? services_by_group.index_ f)
          && (services_by_group.index_ f <=? services_by_group.ending_handle_ f) then
         let attr := characteristic_declaration_attribute Service in
         if filter (services_by_group.index_ f) attr then
           '(iterator, mem, r) ←
             iterator_call Service (services_by_group.iterator_ f) mem
               (services_by_group.index_ f) attr;
           Some ({| services_by_group.starting_handle_ := services_by_group.starting_handle_ f;
                    services_by_group.ending_handle_ := services_by_group.ending_handle_ f;
                    services_by_group.index_ := services_by_group.index_ f;
                    services_by_group.iterator_ := iterator;
                    services_by_group.found_ := r || services_by_group.found_ f |}, mem)
         else Some (f, mem)
       else Some (f, mem));
    Some ({| services_by_group.starting_handle_ := services_by_group.starting_handle_ f;
             services_by_group.ending_handle_ := services_by_group.ending_handle_ f;
             services_by_group.index_ :=
               uint16 (services_by_group.index_ f + details.number_of_attributes Service);
             services_by_group.iterator_ := services_by_group.iterator_ f;
             services_by_group.found_ := services_by_group.found_ f |}, mem).
Proof. reflexivity. Qed.

Lemma find_by_type_groups_walk (filter : Z -> attribute -> bool)
    (starting_handle ending_handle begin end_ : Z) (Services : list service) :
  forall (index current : Z) (found : bool) (mem : list byte),
  0 <= current <= end_ -> end_ <= Z.of_nat (length mem) ->
  let groups := matching_groups filter starting_handle ending_handle index Services in
  let k := Z.min (Z.of_nat (length groups)) ((end_ - current) / 4) in
  exists index' mem',
    for_each (services_by_group.each collect_find_by_type_groups.call filter) Services
      ({| services_by_group.starting_handle_ := starting_handle;
          services_by_group.ending_handle_ := ending_handle;
          services_by_group.index_ := index;
          services_by_group.iterator_ :=
            {| collect_find_by_type_groups.begin_ := begin;
               collect_find_by_type_groups.end_ := end_;
               collect_find_by_type_groups.current_ := current |};
          services_by_group.found_ := found |}, mem)
    = Some ({| services_by_group.starting_handle_ := starting_handle;
               services_by_group.ending_handle_ := ending_handle;
               services_by_group.index_ := index';
               services_by_group.iterator_ :=
                 {| collect_find_by_type_groups.begin_ := begin;
                    collect_find_by_type_groups.end_ := end_;
                    collect_find_by_type_groups.current_ := current + 4 * k |};
               services_by_group.found_ := (0 <? k) || found |}, mem')
    /\ length mem' = length mem
    /\ take (Z.to_nat (current + 4 * k)) mem'
       = take (Z.to_nat current) mem ++ concat (group_octets <$> take (Z.to_nat k) groups).
Proof.
  induction Services as [|Service Services IH]; intros index current found mem Hcur Hend; cbv zeta.
  - simpl. assert (0 <= (end_ - current) / 4) by (apply Z.div_pos; lia).
    rewrite Z.min_l by lia. simpl. rewrite Z.add_0_r, app_nil_r. eauto.
  - simpl matching_groups. simpl for_each. rewrite services_by_group_each_unfold. simpl.
    destruct ((starting_handle <=? index) && (index <=? ending_handle)) eqn:Hrange; simpl.
    + destruct (filter index (characteristic_declaration_attribute Service)) eqn:Hfilter; simpl.
      * destruct (Z.le_gt_cases 4 (end_ - current)) as [Hroom|Hfull].
        -- destruct (collect_find_by_type_groups_call_room Service begin end_ current mem index
                       (characteristic_declaration_attribute Service)
                       ltac:(lia) Hend Hroom) as (mem1 & -> & Hlen1 & Htake1).
           simpl.
           destruct (IH (uint16 (index + details.number_of_attributes Service)) (current + 4)
                       true mem1 ltac:(lia) ltac:(lia)) as (index' & mem' & -> & Hlen & Htake).
           set (groups := matching_groups filter starting_handle ending_handle
                            (uint16 (index + details.number_of_attributes Service)) Services) in *.
           assert ((end_ - current) / 4 = 1 + (end_ - (current + 4)) / 4) as Hdiv.
           { replace (end_ - current) with (end_ - (current + 4) + 1 * 4) by lia.
             rewrite Z.div_add by lia. lia. }
           assert (0 <= (end_ - (current + 4)) / 4) by (apply Z.div_pos; lia).
           set (k' := Z.min (Z.of_nat (length groups)) ((end_ - (current + 4)) / 4)) in *.
           assert (Z.min (Z.of_nat (S (length groups))) ((end_ - current) / 4) = 1 + k') as ->
             by (subst k'; lia).
           assert (0 <= k') by (subst k'; lia).
           exists index', mem'.
           replace (current + 4 * (1 + k')) with (current + 4 + 4 * k') by lia.
           split; [|split].
           ++ destruct (Z.ltb_spec 0 (1 + k')); [|lia]. rewrite orb_true_r. reflexivity.
           ++ lia.
           ++ rewrite Htake, Htake1.
              replace (Z.to_nat (1 + k')) with (S (Z.to_nat k')) by lia.
              simpl. rewrite <- !app_assoc. reflexivity.
        -- rewrite collect_find_by_type_groups_call_full by (simpl; lia). simpl.
           destruct (IH (uint16 (index + details.number_of_attributes Service)) current
                       found mem Hcur Hend) as (index' & mem' & -> & Hlen & Htake).
           assert ((end_ - current) / 4 = 0) as Hdiv by (apply Z.div_small; lia).
           rewrite Hdiv in *.
           rewrite !Z.min_r in * by lia.
           exists index', mem'. auto.
      * apply IH; assumption.
    + apply IH; assumption.
Qed.

Lemma uint8_range (z : Z) : 0 <= uint8 z < 256.
Proof. unfold uint8. apply Z.mod_pos_bound. lia. Qed.

Lemma uint16_range (z : Z) : 0 <= uint16 z < 65536.
Proof. unfold uint16. apply Z.mod_pos_bound. lia. Qed.

(** Overwriting the first octet of a buffer keeps what lies behind it. *)
Lemma store_opcode (mem : list byte) (opcode : byte) (n : Z) (head tail : list byte) :
  0 <= n -> length head = 1%nat ->
  take (Z.to_nat (1 + n)) mem = head ++ tail ->
  exists mem',
    store mem 0 [opcode] = Some mem'
    /\ length mem' = length mem
    /\ take (Z.to_nat (1 + n)) mem' = opcode :: tail.
Proof.
  intros Hn Hhead Htake.
  replace (Z.to_nat (1 + n)) with (S (Z.to_nat n)) in * by lia.
  destruct head as [|h [|]]; try discriminate.
  destruct mem as [|b mem]; [discriminate|].
  rewrite firstn_cons in Htake. injection Htake as _ Htake.
  rewrite store_Some by list_len.
  eexists. split; [reflexivity|]. split; [list_len|].
  change (Z.to_nat 0) with 0%nat. rewrite take_0.
  change ([] ++ [opcode] ++ ?l) with (opcode :: l).
  rewrite firstn_cons. f_equal. exact Htake.
Qed.

(** C10: Find By Type Value on a request that passed validation and asks
    for primary services: of the matching services the first
    [(out_size - 1) / 4] are packed, each as the four octets of its two
    handles, so a group is appended only while four octets remain and the
    matching services behind it are left out; with at least one matching
    service the response is a Find By Type Value Response, opcode 0x07,
    and not an error. *)
Theorem find_by_type_value_packs_while_room (opcode s_lo s_hi e_lo e_hi : byte)
    (value output : list byte) (out_size : Z) :
  let input := opcode :: s_lo :: s_hi :: e_lo :: e_hi :: x00 :: x28 :: value in
  let starting_handle := word16 s_lo s_hi in
  let ending_handle := word16 e_lo e_hi in
  server.in_size input = 9 \/ server.in_size input = 23 ->
  5 <= out_size <= Z.of_nat (length output) ->
  starting_handle <> 0 -> starting_handle <= ending_handle ->
  starting_handle <= number_of_attributes ->
  let filter :=
    value_filter.call input
      {| value_filter.begin_ := 7; value_filter.end_ := server.in_size input |} in
  let groups := matching_groups filter starting_handle ending_handle 1 services in
  let packed := take (Z.to_nat ((out_size - 1) / 4)) groups in
  let packed_size := 4 * Z.of_nat (length packed) in
  (groups <> [] ->
   exists output',
     server.handle_find_by_type_value_request services input output out_size
       = Some (output', uint8 packed_size + 1)
     /\ packed <> []
     /\ 1 + packed_size <= out_size
     /\ take (Z.to_nat (1 + packed_size)) output' = x07 :: concat (group_octets <$> packed))
  /\
  (groups = [] ->
   exists output',
     server.handle_find_by_type_value_request services input output out_size
       = Some (output', 5)
     /\ pdu output' 5 = error_pdu opcode s_lo s_hi att_error_codes.attribute_not_found).
Proof.
  intros input starting_handle ending_handle Hsize Hout H0 Hle HN filter groups packed packed_size.
  unfold server.handle_find_by_type_value_request.
  subst input. rewrite check_size_and_handle_range_sized by assumption.
  fold starting_handle ending_handle.
  destruct (Z.eqb_spec starting_handle 0); [contradiction|].
  destruct (Z.ltb_spec ending_handle starting_handle); [lia|].
  destruct (Z.ltb_spec number_of_attributes starting_handle); [lia|].
  simpl orb. cbv iota. cbn [mbind option_bind].
  unfold read_handle. rewrite read_16bit_at_5. cbn [mbind option_bind].
  change (negb (word16 x00 x28 =? gatt_uuids.primary_service)) with false. cbv iota.
  unfold server.all_services_by_group, services_by_group.make,
    collect_find_by_type_groups.make.
  change (0 + 1) with 1. change (0 + out_size) with out_size.
  change (0 + server.in_size ?l) with (server.in_size l).
  fold filter.
  destruct (find_by_type_groups_walk filter starting_handle ending_handle 1 out_size services
              1 1 false output ltac:(lia) ltac:(lia))
    as (index' & mem' & Hwalk & Hlen & Htake).
  fold groups in Hwalk, Htake.
  set (k := Z.min (Z.of_nat (length groups)) ((out_size - 1) / 4)) in *.
  rewrite Hwalk.
  cbn [mbind option_bind services_by_group.found_ services_by_group.iterator_].
  unfold collect_find_by_type_groups.size.
  cbn [collect_find_by_type_groups.current_ collect_find_by_type_groups.begin_].
  rewrite orb_false_r.
  assert (1 <= (out_size - 1) / 4) as Hroom
    by (apply Z.div_le_lower_bound; lia).
  assert (Z.of_nat (length packed) = k) as Hpacked
    by (subst packed k; rewrite length_take; lia).
  assert ((out_size - 1) / 4 * 4 <= out_size - 1) as Hfit
    by (pose proof (Z.mul_div_le (out_size - 1) 4 ltac:(lia)); lia).
  split.
  - intros Hgroups.
    assert (1 <= Z.of_nat (length groups)) by (destruct groups; [contradiction|simpl; lia]).
    assert (1 <= k) as Hk by (subst k; lia).
    destruct (Z.ltb_spec 0 k); [|lia]. cbv iota.
    assert (length (take (Z.to_nat 1) output) = 1%nat) as Hhead by list_len.
    destruct (store_opcode mem' x07 (4 * k) _ _ ltac:(lia) Hhead Htake)
      as (output' & Hstore & Hlen' & Htake').
    change (to_byte (bits att_opcodes.find_by_type_value_response)) with x07.
    rewrite Hstore. cbn [mbind option_bind].
    exists output'.
    replace (1 + 4 * k - 1) with (4 * k) by lia.
    subst packed_size. rewrite Hpacked.
    pose proof (uint8_range (4 * k)).
    rewrite size_t_small by lia.
    split; [reflexivity|]. split; [|split].
    + intros Hnil. rewrite Hnil in Hpacked. simpl in Hpacked. lia.
    + subst k. lia.
    + rewrite Htake'. f_equal. f_equal. f_equal. subst packed k.
      destruct (Z.le_ge_cases (Z.of_nat (length groups)) ((out_size - 1) / 4)).
      * rewrite Z.min_l by lia. rewrite !take_ge by lia. reflexivity.
      * rewrite Z.min_r by lia. reflexivity.
  - intros Hgroups.
    assert (k = 0) as -> by (subst k; rewrite Hgroups; simpl; lia).
    change (0 <? 0) with false. cbv iota.
    change (load (opcode :: ?l) 0) with (Some opcode). cbn [mbind option_bind].
    subst starting_handle. rewrite error_response_word16 by lia.
    eexists. split; reflexivity.
Qed.

Lemma Some_bind {A B : Type} (f : A -> option B) (x : A) : Some x ≫= f = f x.
Proof. reflexivity. Qed.

Lemma pdu_cons (b : byte) (mem : list byte) (size : Z) :
  1 <= size -> exists tail, pdu (b :: mem) size = b :: tail.
Proof.
  intros Hsize. unfold pdu.
  replace (Z.to_nat size) with (S (Z.to_nat (size - 1))) by lia.
  rewrite firstn_cons. eauto.
Qed.

(** A request of one of the two sizes is answered, and not by an
    invalid_pdu Error Response. *)
Lemma find_by_type_value_sized (opcode s_lo s_hi e_lo e_hi t_lo t_hi : byte)
    (value output : list byte) (out_size : Z) :
  let input := opcode :: s_lo :: s_hi :: e_lo :: e_hi :: t_lo :: t_hi :: value in
  server.in_size input = 9 \/ server.in_size input = 23 ->
  5 <= out_size <= Z.of_nat (length output) ->
  exists output' size,
    server.handle_find_by_type_value_request services input output out_size
      = Some (output', size)
    /\ 1 <= size <= out_size
    /\ ((exists tail, pdu output' size = x07 :: tail)
        \/ pdu output' size = error_pdu opcode s_lo s_hi att_error_codes.invalid_handle
        \/ pdu output' size = error_pdu opcode s_lo s_hi att_error_codes.attribute_not_found
        \/ pdu output' size = error_pdu opcode s_lo s_hi att_error_codes.unsupported_group_type).
Proof.
  intros input Hsize Hout. subst input.
  unfold server.handle_find_by_type_value_request.
  rewrite check_size_and_handle_range_sized by assumption.
  destruct ((word16 s_lo s_hi =? 0) || (word16 e_lo e_hi <? word16 s_lo s_hi)).
  { cbn [mbind option_bind]. eexists _, _. split; [reflexivity|]. split; [lia|].
    right. left. reflexivity. }
  destruct (number_of_attributes <? word16 s_lo s_hi).
  { cbn [mbind option_bind]. eexists _, _. split; [reflexivity|]. split; [lia|].
    right. right. left. reflexivity. }
  cbn [mbind option_bind].
  unfold read_handle. rewrite read_16bit_at_5. cbn [mbind option_bind].
  change (load (opcode :: ?l) 0) with (Some opcode). cbn [mbind option_bind].
  destruct (negb (word16 t_lo t_hi =? gatt_uuids.primary_service)).
  { rewrite error_response_word16 by lia.
    eexists _, _. split; [reflexivity|]. split; [lia|]. right. right. right. reflexivity. }
  unfold server.all_services_by_group, services_by_group.make,
    collect_find_by_type_groups.make.
  change (0 + 1) with 1. change (0 + out_size) with out_size.
  match goal with |- context [for_each (services_by_group.each _ ?f)] => set (filter := f) end.
  destruct (find_by_type_groups_walk filter (word16 s_lo s_hi) (word16 e_lo e_hi) 1 out_size
              services 1 1 false output ltac:(lia) ltac:(lia))
    as (index' & mem' & Hwalk & Hlen & Htake).
  rewrite Hwalk.
  cbn [mbind option_bind services_by_group.found_ services_by_group.iterator_].
  cbn [collect_find_by_type_groups.size] in *.
  set (k := Z.min (Z.of_nat (length (matching_groups filter (word16 s_lo s_hi)
                                       (word16 e_lo e_hi) 1 services)))
              ((out_size - 1) / 4)) in *.
  assert (0 <= k /\ 4 * k <= out_size - 1) as Hk.
  { assert (0 <= (out_size - 1) / 4) by (apply Z.div_pos; lia).
    pose proof (Z.mul_div_le (out_size - 1) 4 ltac:(lia)). subst k. lia. }
  destruct ((0 <? k) || false).
  - rewrite store_Some by list_len. cbn [mbind option_bind].
    unfold collect_find_by_type_groups.size.
    cbn [collect_find_by_type_groups.current_ collect_find_by_type_groups.begin_].
    pose proof (uint8_range (1 + 4 * k - 1)) as Hu8.
    assert (uint8 (1 + 4 * k - 1) <= 4 * k) as Hle8.
    { unfold uint8. replace (1 + 4 * k - 1) with (4 * k) by lia.
      apply Z.mod_le; lia. }
    rewrite size_t_small by lia.
    eexists _, _. split; [reflexivity|]. split; [lia|]. left.
    change (to_byte (bits att_opcodes.find_by_type_value_response)) with x07.
    apply pdu_cons. lia.
  - rewrite error_response_word16 by lia.
    eexists _, _. split; [reflexivity|]. split; [lia|]. right. right. left. reflexivity.
Qed.

(** C3, as the code has it: a Find By Type Value Request is accepted
    when it is 9 or 23 octets long, and every other length is rejected
    with an invalid_pdu Error Response. *)
Theorem find_by_type_value_request_sizes (input output : list byte) (out_size : Z)
    (opcode : byte) :
  5 <= out_size <= Z.of_nat (length output) ->
  load input 0 = Some opcode ->
  (server.in_size input <> 9 -> server.in_size input <> 23 ->
   exists output',
     server.handle_find_by_type_value_request services input output out_size
       = Some (output', 5)
     /\ pdu output' 5 = error_pdu opcode x00 x00 att_error_codes.invalid_pdu)
  /\
  (server.in_size input = 9 \/ server.in_size input = 23 ->
   exists output' size,
     server.handle_find_by_type_value_request services input output out_size
       = Some (output', size)
     /\ forall lo hi, pdu output' size <> error_pdu opcode lo hi att_error_codes.invalid_pdu).
Proof.
  intros Hout Hop. split.
  - intros H9 H23. unfold server.handle_find_by_type_value_request.
    rewrite (check_size_and_handle_range_missized 9 23 opcode) by assumption.
    cbn [mbind option_bind]. eexists. split; reflexivity.
  - intros Hsize.
    assert (7 <= server.in_size input) as Hlen by lia.
    unfold server.in_size in Hlen.
    destruct input as [|o [|s_lo [|s_hi [|e_lo [|e_hi [|t_lo [|t_hi value]]]]]]];
      cbn [length] in Hlen; try lia.
    injection Hop as ->.
    destruct (find_by_type_value_sized opcode s_lo s_hi e_lo e_hi t_lo t_hi value output
                out_size Hsize Hout) as (output' & size & -> & _ & Hpdu).
    exists output', size. split; [reflexivity|].
    intros lo hi Heq. rewrite Heq in Hpdu.
    destruct Hpdu as [[tail Hpdu] | [Hpdu | [Hpdu | Hpdu]]]; discriminate Hpdu.
Qed.

(** ** Read By Group Type *)

Lemma collect_primary_services_each_outside (Service : service)
    (f : collect_primary_services.t) (mem : list byte) :
  ~ (collect_primary_services.starting_handle_ f <= collect_primary_services.index_ f
     <= collect_primary_services.ending_handle_ f) ->
  collect_primary_services.each Service (f, mem) =
    Some ({| collect_primary_services.output_ := collect_primary_services.output_ f;
             collect_primary_services.end_ := collect_primary_services.end_ f;
             collect_primary_services.index_ :=
               uint16 (collect_primary_services.index_ f + details.number_of_attributes Service);
             collect_primary_services.starting_handle_ :=
               collect_primary_services.starting_handle_ f;
             collect_primary_services.ending_handle_ :=
               collect_primary_services.ending_handle_ f;
             collect_primary_services.first_ := collect_primary_services.first_ f;
             collect_primary_services.is_128bit_uuid_ :=
               collect_primary_services.is_128bit_uuid_ f;
             collect_primary_services.attribute_data_size_ :=
               collect_primary_services.attribute_data_size_ f |}, mem).
Proof.
  intros Hout. unfold collect_primary_services.each.
  replace ((collect_primary_services.starting_handle_ f <=? collect_primary_services.index_ f)
           && (collect_primary_services.index_ f <=? collect_primary_services.ending_handle_ f))
    with false; [reflexivity|].
  symmetry. apply andb_false_iff.
  destruct (Z.leb_spec (collect_primary_services.starting_handle_ f)
              (collect_primary_services.index_ f)); [|left; reflexivity].
  destruct (Z.leb_spec (collect_primary_services.index_ f)
              (collect_primary_services.ending_handle_ f)); [|right; reflexivity].
  exfalso. apply Hout. lia.
Qed.

(** Without a service in the range the walk over the services leaves
    the output alone. *)
Lemma collect_primary_services_walk_none (Services : list service) :
  forall (f : collect_primary_services.t) (mem : list byte),
  Forall (fun handle => ~ (collect_primary_services.starting_handle_ f <= handle
                           <= collect_primary_services.ending_handle_ f))
    (service_handles (collect_primary_services.index_ f) Services) ->
  exists f',
    for_each collect_primary_services.each Services (f, mem) = Some (f', mem)
    /\ collect_primary_services.output_ f' = collect_primary_services.output_ f.
Proof.
  induction Services as [|Service Services IH]; intros f mem Hnone.
  - exists f. split; reflexivity.
  - cbn [service_handles] in Hnone. apply Forall_cons in Hnone as [Hout Hnone].
    cbn [for_each]. rewrite collect_primary_services_each_outside by exact Hout.
    cbn [mbind option_bind].
    match goal with |- context [for_each _ _ (?f1, mem)] =>
      destruct (IH f1 mem Hnone) as (f' & -> & Houtput) end.
    exists f'. split; [reflexivity|exact Houtput].
Qed.

(** C9: Read By Group Type on a request whose handles passed
    validation: a PDU of 21 octets and every type but the 16 bit Primary
    Service UUID yield unsupported_group_type; when the type is the
    Primary Service UUID and no service declaration has a handle in the
    range, the response is attribute_not_found. *)
Theorem read_by_group_type_errors (opcode s_lo s_hi e_lo e_hi : byte)
    (rest output : list byte) (out_size : Z) :
  let input := opcode :: s_lo :: s_hi :: e_lo :: e_hi :: rest in
  let starting_handle := word16 s_lo s_hi in
  let ending_handle := word16 e_lo e_hi in
  let replies (size : Z) (response_pdu : list byte) :=
    exists output',
      server.handle_read_by_group_type_request services input output out_size
        = Some (output', size)
      /\ pdu output' size = response_pdu in
  5 <= out_size <= Z.of_nat (length output) ->
  starting_handle <> 0 -> starting_handle <= ending_handle ->
  starting_handle <= number_of_attributes ->
  (server.in_size input = 21 ->
   replies 5 (error_pdu opcode s_lo s_hi att_error_codes.unsupported_group_type))
  /\
  (server.in_size input = 7 ->
   exists t_lo t_hi,
     rest = [t_lo; t_hi] /\
     (word16 t_lo t_hi <> 0x2800 ->
      replies 5 (error_pdu opcode s_lo s_hi att_error_codes.unsupported_group_type))
     /\
     (word16 t_lo t_hi = 0x2800 ->
      Forall (fun handle => ~ (starting_handle <= handle <= ending_handle))
        (service_handles 1 services) ->
      replies 5 (error_pdu opcode s_lo s_hi att_error_codes.attribute_not_found))).
Proof.
  intros input starting_handle ending_handle replies Hout H0 Hle HN.
  assert (forall size : Z, (size = 7 \/ size = 21) -> server.in_size input = size ->
          server.check_size_and_handle_range services (5 + 2) (5 + 16) input output out_size
          = Some (check_true (starting_handle, ending_handle))) as Hcheck.
  { intros size Hsize Hin. subst input.
    rewrite check_size_and_handle_range_sized by (assumption || lia).
    fold starting_handle ending_handle.
    destruct (Z.eqb_spec starting_handle 0); [contradiction|].
    destruct (Z.ltb_spec ending_handle starting_handle); [lia|].
    destruct (Z.ltb_spec number_of_attributes starting_handle); [lia|].
    reflexivity. }
  split.
  - intros Hsize. subst replies. cbv beta.
    unfold server.handle_read_by_group_type_request.
    rewrite (Hcheck 21) by (assumption || lia). cbn [mbind option_bind].
    rewrite Hsize. change (21 =? 5 + 16) with true. cbv iota. cbn [mbind option_bind].
    subst input starting_handle.
    change (load (opcode :: ?l) 0) with (Some opcode). cbn [mbind option_bind].
    rewrite error_response_word16 by lia.
    eexists. split; reflexivity.
  - intros Hsize.
    assert (Z.of_nat (length rest) = 2) as Hrest
      by (subst input; unfold server.in_size in Hsize; cbn [length] in Hsize; lia).
    destruct rest as [|t_lo [|t_hi [|]]]; cbn [length] in Hrest; try lia.
    exists t_lo, t_hi. split; [reflexivity|].
    subst replies. cbv beta.
    unfold server.handle_read_by_group_type_request.
    rewrite (Hcheck 7) by (assumption || lia). cbn [mbind option_bind].
    rewrite Hsize. change (7 =? 5 + 16) with false. cbv iota.
    subst input starting_handle ending_handle.
    unfold read_handle. rewrite read_16bit_at_5. cbn [mbind option_bind].
    change (load (opcode :: ?l) 0) with (Some opcode).
    split.
    + intros Htype.
      destruct (Z.eqb_spec (word16 t_lo t_hi) gatt_uuids.primary_service) as [Heq|_];
        [unfold gatt_uuids.primary_service in Heq; contradiction|].
      cbn [negb mbind option_bind].
      rewrite error_response_word16 by lia.
      eexists. split; reflexivity.
    + intros Htype Hnone.
      destruct (Z.eqb_spec (word16 t_lo t_hi) gatt_uuids.primary_service) as [_|Hne];
        [|unfold gatt_uuids.primary_service in Hne; contradiction].
      cbn [negb mbind option_bind].
      unfold write_opcode. rewrite store_Some by list_len. cbn [mbind option_bind].
      unfold collect_primary_services.make. change (0 + 1 + 1) with 2.
      match goal with |- context [for_each _ _ (?f, ?mem)] =>
        destruct (collect_primary_services_walk_none services f mem) as (f' & -> & Hsame) end.
      { exact Hnone. }
      cbn [mbind option_bind]. rewrite Hsame.
      cbn [collect_primary_services.output_]. change (2 =? 2) with true. cbv iota.
      cbn [mbind option_bind].
      rewrite error_response_word16 by list_len.
      eexists. split; reflexivity.
Qed.

(** ** Find Information *)

Lemma length_region_le (mem : list byte) (first last : Z) :
  Z.of_nat (length (region mem first last)) <= Z.max 0 (last - first).
Proof. unfold region. rewrite length_take. lia. Qed.

Lemma write_128bit_uuid_Some (mem : list byte) (out : Z) (char_declaration : attribute) :
  uuid char_declaration = gatt_uuids.characteristic ->
  buffer_size (access char_declaration (read (replicate (3 + 16) x00) 0 (3 + 16) 0) 1).2 = 3 + 16 ->
  0 <= out -> out + 16 <= Z.of_nat (length mem) ->
  exists mem',
    server.write_128bit_uuid mem out char_declaration = Some mem'
    /\ length mem' = length mem
    /\ take (Z.to_nat out) mem' = take (Z.to_nat out) mem.
Proof.
  intros Huuid Hsize Hout Hend. unfold server.write_128bit_uuid.
  rewrite option_guard_True by exact Huuid. cbn [mbind option_bind].
  destruct (access char_declaration (read (replicate (3 + 16) x00) 0 (3 + 16) 0) 1)
    as [rc read'] eqn:Hacc.
  cbn [snd] in Hsize.
  rewrite option_guard_True by exact Hsize. cbn [mbind option_bind].
  rewrite commit_Some by list_len. cbn [mbind option_bind].
  match goal with |- context [store mem out ?bytes] =>
    pose proof (length_region_le
                  (take (Z.to_nat 0) (replicate (3 + 16) x00)
                   ++ take (Z.to_nat (3 + 16 - 0)) (buffer read')
                   ++ drop (Z.to_nat 0 + length (take (Z.to_nat (3 + 16 - 0)) (buffer read')))
                        (replicate (3 + 16) x00)) 3 (3 + 16)) as Hregion;
    destruct (store mem out bytes) as [mem'|] eqn:Hstore
  end.
  - exists mem'. split; [reflexivity|]. split.
    + eapply length_store. exact Hstore.
    + eapply take_store; [exact Hstore|lia].
  - unfold store in Hstore.
    destruct (Z.leb_spec 0 out); [|lia]. cbn [andb] in Hstore.
    match type of Hstore with (if ?c then _ else _) = _ => destruct c eqn:Hc end;
      [discriminate|].
    apply Z.leb_gt in Hc. lia.
Qed.

Lemma collect_handle_uuid_tuples_loop_Some (only_16_bit : bool) (end_ out_end : Z) :
  number_of_attributes < 65535 ->
  long_uuids_declared services internal_128bit_uuid ->
  out_end < 2 ^ 64 ->
  let size_per_tuple := if only_16_bit then 2 + 2 else 2 + 16 in
  forall (fuel : nat) (start : Z) (mem : list byte) (out : Z),
  1 <= start -> number_of_attributes + 1 - start <= Z.of_nat fuel ->
  0 <= out <= out_end -> out_end <= Z.of_nat (length mem) ->
  exists mem' out',
    server.collect_handle_uuid_tuples_loop services internal_128bit_uuid fuel start end_
      only_16_bit mem out out_end = Some (mem', out')
    /\ out <= out' <= out_end
    /\ length mem' = length mem
    /\ take (Z.to_nat out) mem' = take (Z.to_nat out) mem
    /\ (forall attr,
          start <= end_ -> start <= number_of_attributes ->
          size_per_tuple <= out_end - out ->
          server.attribute_at services (start - 1) = Some attr ->
          has_16bit_uuid internal_128bit_uuid attr = only_16_bit ->
          out + size_per_tuple <= out'
          /\ take (Z.to_nat (out + 2)) mem' = take (Z.to_nat out) mem ++ handle_octets start).
Proof.
  intros HN Hwf Hmax size_per_tuple.
  assert (size_per_tuple = 4 \/ size_per_tuple = 18) as Hsize
    by (subst size_per_tuple; destruct only_16_bit; lia).
  induction fuel as [|fuel IH]; intros start mem out Hstart Hfuel Hout Hend.
  - (* no fuel: the handle is above the number of attributes *)
    cbn [server.collect_handle_uuid_tuples_loop].
    destruct (Z.leb_spec start number_of_attributes); [lia|].
    rewrite andb_false_r. cbn [andb].
    exists mem, out. split; [reflexivity|]. split; [lia|]. split; [reflexivity|].
    split; [reflexivity|]. intros; lia.
  - cbn [server.collect_handle_uuid_tuples_loop]. fold size_per_tuple.
    rewrite (size_t_small (out_end - out)) by lia.
    destruct ((start <=? end_) && (start <=? number_of_attributes)
              && (size_per_tuple <=? out_end - out)) eqn:Hcond.
    2: { assert (~ (start <= end_ /\ start <= number_of_attributes
                       /\ size_per_tuple <= out_end - out)) as Hnot.
         { intros (H1 & H2 & H3). apply Z.leb_le in H1, H2, H3.
           rewrite H1, H2, H3 in Hcond. discriminate. }
         exists mem, out. split; [reflexivity|]. split; [lia|]. split; [reflexivity|].
         split; [reflexivity|]. intros attr H1 H2 H3 _ _. exfalso. apply Hnot. auto. }
    apply andb_true_iff in Hcond as [Hcond Hroom].
    apply andb_true_iff in Hcond as [Hle HleN].
    apply Z.leb_le in Hle, HleN, Hroom.
    rewrite (size_t_small (start - 1)) by lia.
    destruct (attribute_at_Some (start - 1) ltac:(lia)) as [attr Hattr].
    rewrite Hattr. cbn [mbind option_bind].
    assert (uint16 (start + 1) = start + 1) as Hnext
      by (unfold uint16; apply Z.mod_small; lia).
    rewrite Hnext.
    fold (has_16bit_uuid internal_128bit_uuid attr).
    destruct (Bool.eqb only_16_bit (has_16bit_uuid internal_128bit_uuid attr)) eqn:Heligible.
    + (* the tuple is written *)
      apply Bool.eqb_prop in Heligible.
      rewrite write_handle_Some by lia. cbn [mbind option_bind].
      set (mem1 := take (Z.to_nat out) mem ++ handle_octets start
                   ++ drop (Z.to_nat out + 2) mem).
      assert (length mem1 = length mem) as Hlen1 by (subst mem1; list_len).
      assert (take (Z.to_nat (out + 2)) mem1 = take (Z.to_nat out) mem ++ handle_octets start)
        as Htake1.
      { subst mem1. rewrite app_assoc. apply take_app_length'. list_len. }
      assert (exists mem2,
                (if has_16bit_uuid internal_128bit_uuid attr
                 then '(mem, _) ← write_16bit_uuid mem1 (out + 2) (uuid attr); Some mem
                 else char_declaration ← server.attribute_at services (size_t (start - 2));
                      server.write_128bit_uuid mem1 (out + 2) char_declaration)
                = Some mem2
                /\ length mem2 = length mem
                /\ take (Z.to_nat (out + 2)) mem2 = take (Z.to_nat (out + 2)) mem1)
        as (mem2 & -> & Hlen2 & Htake2).
      { destruct (has_16bit_uuid internal_128bit_uuid attr) eqn:H16.
        - unfold write_16bit_uuid, write_16bit.
          destruct (store mem1 (out + 2) _) as [mem2|] eqn:Hstore.
          + exists mem2. cbn [mbind option_bind]. split; [reflexivity|]. split.
            * rewrite <- Hlen1. eapply length_store. exact Hstore.
            * eapply take_store; [exact Hstore|lia].
          + rewrite store_Some in Hstore by list_len. discriminate.
        - unfold has_16bit_uuid in H16. apply negb_false_iff, Z.eqb_eq in H16.
          destruct (Hwf (start - 1) attr Hattr H16) as (decl & Hdecl & Huuid & Hread).
          replace (start - 1 - 1) with (start - 2) in Hdecl by lia.
          pose proof (attribute_at_inv _ _ Hdecl) as Hrange.
          rewrite size_t_small by lia. rewrite Hdecl. cbn [mbind option_bind].
          assert (size_per_tuple = 18) as Hlong
            by (subst size_per_tuple; rewrite Heligible; reflexivity).
          destruct (write_128bit_uuid_Some mem1 (out + 2) decl Huuid Hread ltac:(lia)
                      ltac:(lia)) as (mem2 & -> & Hlen2 & Htake2).
          exists mem2. split; [reflexivity|]. split; [lia|exact Htake2]. }
      cbn [mbind option_bind].
      destruct (IH (start + 1) mem2 (out + size_per_tuple) ltac:(lia) ltac:(lia) ltac:(lia)
                  ltac:(lia)) as (mem' & out' & -> & Hout' & Hlen' & Htake' & _).
      exists mem', out'. split; [reflexivity|]. split; [lia|]. split; [lia|].
      assert (take (Z.to_nat (out + 2)) mem' = take (Z.to_nat out) mem ++ handle_octets start)
        as Hfirst.
      { rewrite <- Htake1, <- Htake2.
        transitivity (take (Z.to_nat (out + 2)) (take (Z.to_nat (out + size_per_tuple)) mem')).
        - rewrite take_take. f_equal. lia.
        - rewrite Htake'. rewrite take_take. f_equal. lia. }
      split.
      * transitivity (take (Z.to_nat out) (take (Z.to_nat (out + 2)) mem')).
        -- rewrite take_take. f_equal. lia.
        -- rewrite Hfirst. rewrite take_app_le by list_len.
           rewrite take_take. f_equal. lia.
      * intros attr' _ _ _ Hattr' _. split; [lia|exact Hfirst].
    + (* the attribute is skipped *)
      destruct (IH (start + 1) mem out ltac:(lia) ltac:(lia) ltac:(lia) ltac:(lia))
        as (mem' & out' & -> & Hout' & Hlen' & Htake' & _).
      exists mem', out'. split; [reflexivity|]. split; [lia|]. split; [lia|].
      split; [exact Htake'|].
      intros attr' _ _ _ Hattr' Hkind.
      assert (attr' = attr) as -> by congruence.
      rewrite Hkind in Heligible. destruct only_16_bit; discriminate.
Qed.

(** A request that passes the validation of its handles, taken apart. *)
Lemma check_size_and_handle_range_true_inv (A B : Z) (input output : list byte) (out_size : Z)
    (starting_handle ending_handle : Z) :
  5 <= A -> 5 <= B ->
  server.check_size_and_handle_range services A B input output out_size
    = Some (check_true (starting_handle, ending_handle)) ->
  (server.in_size input = A \/ server.in_size input = B)
  /\ exists opcode s_lo s_hi e_lo e_hi rest,
       input = opcode :: s_lo :: s_hi :: e_lo :: e_hi :: rest
       /\ starting_handle = word16 s_lo s_hi
       /\ ending_handle = word16 e_lo e_hi
       /\ starting_handle <> 0
       /\ starting_handle <= ending_handle
       /\ starting_handle <= number_of_attributes.
Proof.
  intros HA HB. unfold server.check_size_and_handle_range,
    server.error_response_without_handle, server.error_response.
  destruct (negb (server.in_size input =? A) && negb (server.in_size input =? B)) eqn:Hsize.
  { destruct (load input 0); cbn [mbind option_bind]; [|discriminate].
    destruct (5 <=? out_size); [|discriminate].
    destruct (store output 0 _); discriminate. }
  assert (server.in_size input = A \/ server.in_size input = B) as Hin.
  { apply andb_false_iff in Hsize as [H|H]; apply negb_false_iff, Z.eqb_eq in H; auto. }
  assert (5 <= server.in_size input) as Hlen by lia.
  unfold server.in_size in Hlen.
  destruct input as [|opcode [|s_lo [|s_hi [|e_lo [|e_hi rest]]]]]; cbn [length] in Hlen; try lia.
  unfold read_handle. rewrite read_16bit_at_1, read_16bit_at_3. cbn [mbind option_bind].
  change (load (opcode :: ?l) 0) with (Some opcode). cbn [mbind option_bind].
  destruct (Z.eqb_spec (word16 s_lo s_hi) 0).
  { cbn [orb]. destruct (5 <=? out_size); [|discriminate].
    destruct (store output 0 _); discriminate. }
  destruct (Z.ltb_spec (word16 e_lo e_hi) (word16 s_lo s_hi)).
  { cbn [orb]. destruct (5 <=? out_size); [|discriminate].
    destruct (store output 0 _); discriminate. }
  cbn [orb].
  destruct (Z.ltb_spec number_of_attributes (word16 s_lo s_hi)).
  { destruct (5 <=? out_size); [|discriminate].
    destruct (store output 0 _); discriminate. }
  intros [= <- <-]. split; [exact Hin|].
  exists opcode, s_lo, s_hi, e_lo, e_hi, rest. repeat split; auto.
Qed.

(** A request whose handles passed validation is answered with the
    tuple of the starting handle. *)
Lemma find_information_validated (input output : list byte) (out_size : Z)
    (starting_handle ending_handle : Z) :
  20 <= out_size <= Z.of_nat (length output) -> out_size < 2 ^ 64 ->
  number_of_attributes < 65535 ->
  long_uuids_declared services internal_128bit_uuid ->
  server.check_size_and_handle_range services 5 5 input output out_size
    = Some (check_true (starting_handle, ending_handle)) ->
  exists attr,
    server.attribute_at services (starting_handle - 1) = Some attr /\
    let only_16_bit := has_16bit_uuid internal_128bit_uuid attr in
    let size_per_tuple := if only_16_bit then 4 else 18 in
    let format := if only_16_bit then x01 else x02 in
    eligible services internal_128bit_uuid only_16_bit starting_handle ending_handle
      starting_handle
    /\ exists output' size,
         server.handle_find_information_request services internal_128bit_uuid
           input output out_size = Some (output', size)
         /\ 2 + size_per_tuple <= size <= out_size
         /\ take 4 output' = x05 :: format :: handle_octets starting_handle.
Proof.
  intros Hout Hmax HN Hwf Hcheck.
  destruct (check_size_and_handle_range_true_inv 5 5 input output out_size
              starting_handle ending_handle ltac:(lia) ltac:(lia) Hcheck)
    as (_ & opcode & s_lo & s_hi & e_lo & e_hi & rest & -> & Hs & He & H0 & Hle & HleN).
  pose proof (word16_range s_lo s_hi) as Hrange. rewrite <- Hs in Hrange.
  destruct (attribute_at_Some (starting_handle - 1) ltac:(lia)) as [attr Hattr].
  exists attr. split; [exact Hattr|]. cbv zeta.
  split.
  { split; [lia|]. exists attr. split; [exact Hattr|reflexivity]. }
  unfold server.handle_find_information_request. rewrite Hcheck. cbn [mbind option_bind].
  rewrite size_t_small by lia. rewrite Hattr. cbn [mbind option_bind].
  fold (has_16bit_uuid internal_128bit_uuid attr).
  set (only_16_bit := has_16bit_uuid internal_128bit_uuid attr).
  rewrite store_Some by list_len. cbn [mbind option_bind].
  change (0 + 1) with 1. change (0 + out_size) with out_size.
  destruct (Z.eqb_spec 1 out_size); [lia|]. cbn [negb].
  rewrite store_Some by list_len. cbn [mbind option_bind].
  change (1 + 1) with 2.
  set (mem := take (Z.to_nat 1) _ ++ _ ++ _).
  assert (length mem = length output) as Hlen by (subst mem; list_len).
  assert (take 2 mem
          = [x05; if only_16_bit then x01 else x02]) as Hhead.
  { subst mem. change (Z.to_nat 0) with 0%nat. change (Z.to_nat 1) with 1%nat.
    rewrite take_0. cbn [app]. cbn [take].
    change (to_byte (bits att_opcodes.find_information_response)) with x05.
    destruct only_16_bit; reflexivity. }
  unfold server.collect_handle_uuid_tuples.
  destruct (collect_handle_uuid_tuples_loop_Some only_16_bit ending_handle out_size HN Hwf Hmax
              (Z.to_nat (number_of_attributes + 1 - starting_handle)) starting_handle mem 2
              ltac:(lia) ltac:(lia) ltac:(lia) ltac:(lia))
    as (mem' & out' & -> & Hout' & Hlen' & Htake' & Hfirst).
  cbn [mbind option_bind].
  destruct (Hfirst attr Hle HleN ltac:(destruct only_16_bit; lia) Hattr eq_refl)
    as [Hsize Htuple].
  exists mem', (size_t (out' - 0)). split; [reflexivity|].
  rewrite size_t_small by lia. split.
  - destruct only_16_bit; lia.
  - change (Z.to_nat (2 + 2)) with 4%nat in Htuple. change (Z.to_nat 2) with 2%nat in Htuple.
    rewrite Htuple, Hhead. reflexivity.
Qed.

(** ** Read By Type *)

Lemma read_accepted_decide (rc : attribute_access_result.t) (read_size : Z) :
  (bool_decide (rc = attribute_access_result.success)
   || bool_decide (rc = attribute_access_result.read_truncated)
      && (read_size =? collect_attributes.maximum_pdu_size)) = true
  <-> read_accepted rc read_size.
Proof.
  unfold read_accepted, collect_attributes.maximum_pdu_size.
  rewrite orb_true_iff, andb_true_iff, !bool_decide_eq_true, Z.eqb_eq. reflexivity.
Qed.

Lemma accepted_read_accepted (rc : attribute_access_result.t) (read_size : Z) :
  accepted rc read_size = true <-> read_accepted rc read_size.
Proof. apply read_accepted_decide. Qed.

(** One attribute offered to [collect_attributes]. *)
Lemma collect_attributes_call_cases (it : collect_attributes.t) (mem : list byte)
    (handle : Z) (attr : attribute) :
  well_packed it -> 0 <= collect_attributes.begin_ it ->
  collect_attributes.end_ it <= Z.of_nat (length mem) ->
  collect_attributes.end_ it < 2 ^ 64 ->
  read_within_buffer attr ->
  let current := collect_attributes.current_ it in
  let room := collect_attributes.end_ it - current in
  (room < 2 -> collect_attributes.call it mem handle attr = Some (it, mem))
  /\
  (2 <= room ->
   let max_data_size := Z.min room 255 - 2 in
   let result := access attr (read mem (current + 2) (current + 2 + max_data_size) 0) handle in
   let read_size := buffer_size result.2 in
   0 <= read_size <= max_data_size /\
   exists mem',
     length mem' = length mem /\
     take (Z.to_nat current) mem' = take (Z.to_nat current) mem /\
     ((read_accepted result.1 read_size
       /\ (collect_attributes.first_ it = true
           \/ 2 + read_size = collect_attributes.size_ it)
       /\ collect_attributes.call it mem handle attr
          = Some ({| collect_attributes.begin_ := collect_attributes.begin_ it;
                     collect_attributes.current_ := current + 2 + read_size;
                     collect_attributes.end_ := collect_attributes.end_ it;
                     collect_attributes.size_ := 2 + read_size;
                     collect_attributes.first_ := false |}, mem')
       /\ take (Z.to_nat (current + 2)) mem'
          = take (Z.to_nat current) mem ++ handle_octets handle)
      \/ (read_accepted result.1 read_size
          /\ collect_attributes.first_ it = false
          /\ 2 + read_size <> collect_attributes.size_ it
          /\ collect_attributes.call it mem handle attr = Some (it, mem'))
      \/ (~ read_accepted result.1 read_size
          /\ collect_attributes.call it mem handle attr = Some (it, mem')))).
Proof.
  intros Hpacked Hbegin Hend Hmax Hcontract current room.
  destruct Hpacked as [Hcur Hshape]. fold current in Hcur, Hshape.
  unfold collect_attributes.call, collect_attributes.header_size,
    collect_attributes.maximum_pdu_size.
  fold current. fold room.
  rewrite (size_t_small room) by (subst room; lia).
  split.
  - intros Hroom. destruct (Z.leb_spec 2 room); [lia|]. reflexivity.
  - intros Hroom. destruct (Z.leb_spec 2 room); [|lia]. cbv zeta.
    change (253 + 2) with 255.
    set (max_data_size := Z.min room 255 - 2).
    rewrite (size_t_small max_data_size) by (subst max_data_size; lia).
    set (args := read mem (current + 2) (current + 2 + max_data_size) 0).
    assert (buffer_size args = max_data_size) as Hargs.
    { subst args. unfold read. cbn [buffer_size].
      replace (current + 2 + max_data_size - (current + 2)) with max_data_size by lia.
      apply size_t_small. subst max_data_size. lia. }
    pose proof (Hcontract args handle eq_refl) as Hsize. rewrite Hargs in Hsize.
    specialize (Hsize ltac:(subst max_data_size; lia)).
    destruct (access attr args handle) as [rc read'] eqn:Hacc. cbn [fst snd] in *.
    set (n := buffer_size read') in *.
    split; [exact Hsize|].
    rewrite commit_Some by (subst max_data_size room; lia). cbn [mbind option_bind].
    set (mem1 := take (Z.to_nat (current + 2)) mem ++ _ ++ _).
    assert (length mem1 = length mem) as Hlen1
      by (subst mem1 max_data_size room; list_len).
    assert (take (Z.to_nat current) mem1 = take (Z.to_nat current) mem) as Htake1.
    { subst mem1. rewrite take_app_le by list_len. rewrite take_take. f_equal. lia. }
    destruct (bool_decide (rc = attribute_access_result.success)
              || bool_decide (rc = attribute_access_result.read_truncated) && (n =? 253))
      eqn:Haccepted.
    + apply read_accepted_decide in Haccepted.
      rewrite option_guard_True by (subst max_data_size; lia). cbn [mbind option_bind].
      assert (uint8 (n + 2) = 2 + n) as Hu8
        by (unfold uint8; rewrite Z.mod_small; subst max_data_size; lia).
      assert (size_t (n + 2) = 2 + n) as Hst
        by (rewrite size_t_small; subst max_data_size; lia).
      assert (uint8 n = n) as Hn8
        by (unfold uint8; rewrite Z.mod_small; subst max_data_size; lia).
      assert (exists mem2,
                write_handle mem1 current handle = Some (mem2, current + 2)
                /\ length mem2 = length mem
                /\ take (Z.to_nat current) mem2 = take (Z.to_nat current) mem
                /\ take (Z.to_nat (current + 2)) mem2
                   = take (Z.to_nat current) mem ++ handle_octets handle)
        as (mem2 & Hwrite & Hlen2 & Htake2 & Htuple).
      { rewrite write_handle_Some by (subst room; lia).
        eexists. split; [reflexivity|]. split; [list_len|]. split.
        - rewrite take_app_le by list_len. rewrite take_take, <- Htake1. f_equal. lia.
        - rewrite <- Htake1. rewrite app_assoc. apply take_app_length'.
          subst room. list_len. }
      destruct (collect_attributes.first_ it) eqn:Hfirst.
      * cbn [collect_attributes.size_ collect_attributes.current_ collect_attributes.begin_
               collect_attributes.end_ collect_attributes.first_].
        rewrite Hst, Hu8, Z.eqb_refl. fold current. rewrite Hwrite. cbn [mbind option_bind].
        rewrite Hn8. exists mem2. split; [exact Hlen2|]. split; [exact Htake2|].
        left. split; [exact Haccepted|]. split; [left; reflexivity|].
        split; [reflexivity|exact Htuple].
      * rewrite Hst.
        destruct (Z.eqb_spec (2 + n) (collect_attributes.size_ it)) as [Hsame|Hother].
        -- fold current. rewrite Hwrite. cbn [mbind option_bind].
           rewrite Hn8, <- Hsame, ?Hfirst. exists mem2.
           split; [exact Hlen2|]. split; [exact Htake2|].
           left. split; [exact Haccepted|]. split; [right; reflexivity|].
           split; [reflexivity|exact Htuple].
        -- exists mem1. split; [exact Hlen1|]. split; [exact Htake1|].
           right. left. auto.
    + exists mem1. split; [exact Hlen1|]. split; [exact Htake1|].
      right. right. split; [|reflexivity].
      intros Hacc'. apply read_accepted_decide in Hacc'.
      unfold collect_attributes.maximum_pdu_size in Hacc'. congruence.
Qed.

Lemma collect_attributes_call_packed (it : collect_attributes.t) (mem : list byte)
    (handle : Z) (attr : attribute) :
  well_packed it -> 0 <= collect_attributes.begin_ it ->
  collect_attributes.end_ it <= Z.of_nat (length mem) ->
  collect_attributes.end_ it < 2 ^ 64 ->
  read_within_buffer attr ->
  exists it' mem',
    collect_attributes.call it mem handle attr = Some (it', mem')
    /\ well_packed it'
    /\ collect_attributes.begin_ it' = collect_attributes.begin_ it
    /\ collect_attributes.end_ it' = collect_attributes.end_ it
    /\ length mem' = length mem.
Proof.
  intros Hpacked Hbegin Hend Hmax Hcontract.
  destruct (collect_attributes_call_cases it mem handle attr Hpacked Hbegin Hend Hmax Hcontract)
    as [Hfull Hroom].
  destruct (Z.lt_ge_cases (collect_attributes.end_ it - collect_attributes.current_ it) 2)
    as [Hlt|Hge].
  - rewrite (Hfull Hlt). exists it, mem. auto.
  - destruct (Hroom ltac:(lia)) as (Hsize & mem' & Hlen & _ & Hcases). clear Hfull Hroom.
    cbv zeta in Hsize.
    set (n := buffer_size _) in *.
    destruct Hcases as [(_ & Hwhich & -> & _) | [(_ & _ & _ & ->) | (_ & ->)]].
    + eexists _, mem'. split; [reflexivity|]. split; [|auto].
      destruct Hpacked as [Hcur Hshape].
      unfold well_packed.
      cbn [collect_attributes.begin_ collect_attributes.current_ collect_attributes.end_
             collect_attributes.size_ collect_attributes.first_].
      split; [lia|]. split; [lia|].
      destruct (collect_attributes.first_ it).
      * exists 1. lia.
      * destruct Hwhich as [Hwhich|Hwhich]; [discriminate|].
        destruct Hshape as (_ & k & Hk & Hcurrent).
        exists (k + 1). rewrite Hwhich. lia.
    + exists it, mem'. auto.
    + exists it, mem'. auto.
Qed.

Lemma all_attributes_collects (filter : Z -> attribute -> bool) (ending_handle : Z) :
  number_of_attributes < 65535 ->
  reads_within_buffer services ->
  forall (fuel : nat) (starting_handle : Z) (it : collect_attributes.t) (mem : list byte),
  1 <= starting_handle -> number_of_attributes + 1 - starting_handle <= Z.of_nat fuel ->
  well_packed it -> 0 <= collect_attributes.begin_ it ->
  collect_attributes.end_ it <= Z.of_nat (length mem) ->
  collect_attributes.end_ it < 2 ^ 64 ->
  exists it' mem',
    server.all_attributes_loop services collect_attributes.call filter fuel
      starting_handle ending_handle it mem = Some (it', mem')
    /\ well_packed it'
    /\ collect_attributes.begin_ it' = collect_attributes.begin_ it
    /\ collect_attributes.end_ it' = collect_attributes.end_ it
    /\ length mem' = length mem.
Proof.
  intros HN Hcontract.
  induction fuel as [|fuel IH];
    intros starting_handle it mem Hstart Hfuel Hpacked Hbegin Hend Hmax.
  - cbn [server.all_attributes_loop].
    destruct (Z.leb_spec starting_handle number_of_attributes); [lia|].
    rewrite andb_false_r. exists it, mem. auto.
  - cbn [server.all_attributes_loop].
    destruct ((starting_handle <=? ending_handle) && (starting_handle <=? number_of_attributes))
      eqn:Hcond; [|exists it, mem; auto].
    apply andb_true_iff in Hcond as [Hle HleN]. apply Z.leb_le in Hle, HleN.
    rewrite size_t_small by lia.
    destruct (attribute_at_Some (starting_handle - 1) ltac:(lia)) as [attr Hattr].
    rewrite Hattr. cbn [mbind option_bind].
    assert (uint16 (starting_handle + 1) = starting_handle + 1) as ->
      by (unfold uint16; apply Z.mod_small; lia).
    destruct (filter starting_handle attr).
    + destruct (collect_attributes_call_packed it mem starting_handle attr Hpacked Hbegin
                  Hend Hmax (Hcontract _ _ Hattr))
        as (it1 & mem1 & -> & Hpacked1 & Hbegin1 & Hend1 & Hlen1).
      cbn [mbind option_bind].
      destruct (IH (starting_handle + 1) it1 mem1 ltac:(lia) ltac:(lia) Hpacked1
                  ltac:(lia) ltac:(lia) ltac:(lia))
        as (it' & mem' & -> & Hpacked' & Hbegin' & Hend' & Hlen').
      exists it', mem'. split; [reflexivity|]. split; [exact Hpacked'|].
      split; [congruence|]. split; [congruence|lia].
    + cbn [mbind option_bind].
      apply IH; auto; lia.
Qed.











(** A request that passed the whole of the range validation, which also
    refuses a starting handle above the last attribute, has an eligible
    attribute: the attribute with the starting handle fixes the format of
    a Find Information Response and so is itself eligible.  Such a request
    is answered by a Find Information Response, 0x05 and the format, that
    holds at least the tuple of the starting handle, never by an Error
    Response. *)
Theorem find_information_validated_response (input output : list byte) (out_size : Z)
    (starting_handle ending_handle : Z) :
  20 <= out_size <= Z.of_nat (length output) -> out_size < 2 ^ 64 ->
  number_of_attributes < 65535 ->
  long_uuids_declared services internal_128bit_uuid ->
  server.check_size_and_handle_range services 5 5 input output out_size
    = Some (check_true (starting_handle, ending_handle)) ->
  exists attr,
    server.attribute_at services (starting_handle - 1) = Some attr /\
    let only_16_bit := has_16bit_uuid internal_128bit_uuid attr in
    let size_per_tuple := if only_16_bit then 4 else 18 in
    let format := if only_16_bit then x01 else x02 in
    eligible services internal_128bit_uuid only_16_bit starting_handle ending_handle
      starting_handle
    /\ exists output' size,
         server.handle_find_information_request services internal_128bit_uuid
           input output out_size = Some (output', size)
         /\ 2 + size_per_tuple <= size <= out_size
         /\ take 4 output' = x05 :: format :: handle_octets starting_handle
         /\ forall opcode lo hi error_code,
              pdu output' size <> error_pdu opcode lo hi error_code.
Proof.
  intros Hout Hmax HN Hwf Hcheck.
  destruct (find_information_validated input output out_size starting_handle ending_handle
              Hout Hmax HN Hwf Hcheck)
    as (attr & Hattr & Heligible & output' & size & Hrun & Hsize & Htake).
  exists attr. split; [exact Hattr|]. cbv zeta. split; [exact Heligible|].
  exists output', size. split; [exact Hrun|]. split; [exact Hsize|]. split; [exact Htake|].
  intros opcode lo hi error_code Hpdu.
  assert (take 1 (pdu output' size) = take 1 (take 4 output')) as Hhead.
  { unfold pdu. rewrite !take_take. f_equal.
    destruct (has_16bit_uuid internal_128bit_uuid attr); lia. }
  rewrite Hpdu, Htake in Hhead. discriminate Hhead.
Qed.

(** With fewer than 65535 attributes the 16 bit index of the handlers
    does not wrap: they count the handles of the declarations as the
    attribute table numbers them. *)
Lemma service_handles_declaration_handles (Services : list service) :
  forall index : Z,
  0 <= index ->
  index + Z.of_nat (length (concat (attributes <$> Services))) < 65536 ->
  service_handles index Services = declaration_handles index Services.
Proof.
  induction Services as [|Service Services IH]; intros index Hindex Hbound; [reflexivity|].
  cbn [service_handles declaration_handles]. f_equal.
  rewrite fmap_cons in Hbound. cbn [concat] in Hbound. rewrite length_app in Hbound.
  unfold details.number_of_attributes.
  assert (uint16 (index + Z.of_nat (length (attributes Service)))
          = index + Z.of_nat (length (attributes Service))) as ->
    by (unfold uint16; apply Z.mod_small; lia).
  apply IH; lia.
Qed.

(** ** The bound on the iterations *)

(** A loop of [all_attributes] that came to its end within [fuel]
    iterations gives the same result with more: the result of
    [all_attributes] is that of the loop of the source. *)
Lemma all_attributes_loop_fuel {Iterator : Type}
    (iter_call : Iterator -> list byte -> Z -> attribute -> option (Iterator * list byte))
    (filter : Z -> attribute -> bool) (ending_handle : Z) (fuel : nat) :
  forall (starting_handle : Z) (iter : Iterator) (mem : list byte)
         (result : Iterator * list byte),
  server.all_attributes_loop services iter_call filter fuel
    starting_handle ending_handle iter mem = Some result ->
  server.all_attributes_loop services iter_call filter (S fuel)
    starting_handle ending_handle iter mem = Some result.
Proof.
  induction fuel as [|fuel IH]; intros starting_handle iter mem result.
  - cbn [server.all_attributes_loop].
    destruct ((starting_handle <=? ending_handle) && (starting_handle <=? number_of_attributes));
      [discriminate|auto].
  - intros Hrun.
    change (server.all_attributes_loop services iter_call filter (S (S fuel))
              starting_handle ending_handle iter mem)
      with (if (starting_handle <=? ending_handle) && (starting_handle <=? number_of_attributes)
            then attr ← server.attribute_at services (size_t (starting_handle - 1));
                 '(iter, mem) ←
                   (if filter starting_handle attr
                    then iter_call iter mem starting_handle attr
                    else Some (iter, mem));
                 server.all_attributes_loop services iter_call filter (S fuel)
                   (uint16 (starting_handle + 1)) ending_handle iter mem
            else Some (iter, mem)).
    cbn [server.all_attributes_loop] in Hrun.
    destruct ((starting_handle <=? ending_handle) && (starting_handle <=? number_of_attributes));
      [|exact Hrun].
    destruct (server.attribute_at services (size_t (starting_handle - 1))) as [attr|];
      [|discriminate Hrun].
    cbn [mbind option_bind] in Hrun |- *.
    destruct (if filter starting_handle attr
              then iter_call iter mem starting_handle attr
              else Some (iter, mem)) as [[iter' mem']|]; [|discriminate Hrun].
    cbn [mbind option_bind] in Hrun |- *. apply IH. exact Hrun.
Qed.

(** The same for the loop of [collect_handle_uuid_tuples]. *)
Lemma collect_handle_uuid_tuples_loop_fuel (end_ : Z) (only_16_bit : bool) (out_end : Z)
    (fuel : nat) :
  forall (start : Z) (mem : list byte) (out : Z) (result : list byte * Z),
  server.collect_handle_uuid_tuples_loop services internal_128bit_uuid fuel
    start end_ only_16_bit mem out out_end = Some result ->
  server.collect_handle_uuid_tuples_loop services internal_128bit_uuid (S fuel)
    start end_ only_16_bit mem out out_end = Some result.
Proof.
  induction fuel as [|fuel IH]; intros start mem out result.
  - cbn [server.collect_handle_uuid_tuples_loop].
    destruct ((start <=? end_) && (start <=? number_of_attributes)
              && ((if only_16_bit then 2 + 2 else 2 + 16) <=? size_t (out_end - out)));
      [discriminate|auto].
  - intros Hrun.
    remember (S fuel) as fuel' eqn:Hfuel.
    cbn [server.collect_handle_uuid_tuples_loop]. subst fuel'.
    cbn [server.collect_handle_uuid_tuples_loop] in Hrun.
    destruct ((start <=? end_) && (start <=? number_of_attributes)
              && ((if only_16_bit then 2 + 2 else 2 + 16) <=? size_t (out_end - out)));
      [|exact Hrun].
    destruct (server.attribute_at services (size_t (start - 1))) as [attr|];
      [|discriminate Hrun].
    cbn [mbind option_bind] in Hrun |- *.
    destruct (eqb only_16_bit (negb (uuid attr =? internal_128bit_uuid)));
      [|apply IH; exact Hrun].
    destruct (write_handle mem out start) as [[mem1 out1]|]; [|discriminate Hrun].
    cbn [mbind option_bind] in Hrun |- *.
    match type of Hrun with
    | (?written ≫= _) = _ => destruct written as [mem2|]; [|discriminate Hrun]
    end.
    cbn [mbind option_bind] in Hrun |- *. apply IH. exact Hrun.
Qed.

(** ** The size of the response *)

Lemma responds_within_error (opcode : byte) (error_code : att_error_codes.t) (handle : Z)
    (output : list byte) (out_size : Z) :
  5 <= out_size <= Z.of_nat (length output) ->
  responds_within out_size (server.error_response opcode error_code handle output out_size).
Proof.
  intros Hout. rewrite error_response_Some by lia.
  eexists _, _. split; [reflexivity|lia].
Qed.

(** The checks of a request with two handles pass, or leave an Error
    Response. *)
Lemma check_size_and_handle_range_total (A B : Z) (input output : list byte) (out_size : Z)
    (opcode : byte) :
  5 <= A -> 5 <= B -> 5 <= out_size <= Z.of_nat (length output) ->
  load input 0 = Some opcode ->
  (exists handles,
     server.check_size_and_handle_range services A B input output out_size
       = Some (check_true handles))
  \/ (exists output',
        server.check_size_and_handle_range services A B input output out_size
          = Some (check_false output' 5)).
Proof.
  intros HA HB Hout Hop.
  destruct (Z.eq_dec (server.in_size input) A) as [HinA|HinA];
    [|destruct (Z.eq_dec (server.in_size input) B) as [HinB|HinB]].
  3: { right. rewrite (check_size_and_handle_range_missized A B opcode) by assumption. eauto. }
  all: destruct (range_request_inv input opcode Hop ltac:(lia))
         as (s_lo & s_hi & e_lo & e_hi & rest & ->);
       rewrite check_size_and_handle_range_sized by (auto || lia);
       destruct ((word16 s_lo s_hi =? 0) || (word16 e_lo e_hi <? word16 s_lo s_hi));
       [right; eauto|];
       destruct (number_of_attributes <? word16 s_lo s_hi); [right; eauto|left; eauto].
Qed.

(** The check of a request with one handle passes, or leaves an Error
    Response. *)
Lemma check_handle_total (input output : list byte) (out_size : Z) (opcode : byte) :
  3 <= server.in_size input -> 5 <= out_size <= Z.of_nat (length output) ->
  load input 0 = Some opcode ->
  (exists lo hi rest,
     input = opcode :: lo :: hi :: rest
     /\ word16 lo hi <> 0 /\ word16 lo hi <= number_of_attributes
     /\ server.check_handle services input output out_size = Some (check_true (word16 lo hi)))
  \/ (exists output',
        server.check_handle services input output out_size = Some (check_false output' 5)).
Proof.
  intros Hin Hout Hop. unfold server.in_size in Hin.
  destruct input as [|o [|lo [|hi rest]]]; cbn [length] in Hin; try lia.
  injection Hop as ->.
  rewrite check_handle_sized by assumption.
  destruct (Z.eqb_spec (word16 lo hi) 0); [right; eauto|].
  destruct (Z.ltb_spec number_of_attributes (word16 lo hi)); [right; eauto|].
  left. exists lo, hi, rest. auto.
Qed.

Lemma exchange_mtu_request_within (input output : list byte) (out_size : Z)
    (connection : connection_data.t) (opcode : byte) :
  5 <= out_size <= Z.of_nat (length output) ->
  load input 0 = Some opcode ->
  connection_valid connection ->
  exists output' size connection',
    server.handle_exchange_mtu_request input output out_size connection
      = Some (output', size, connection')
    /\ 1 <= size <= 5
    /\ connection_valid connection'.
Proof.
  intros Hout Hop Hvalid. unfold server.handle_exchange_mtu_request.
  unfold connection_valid in *.
  rewrite Hop. cbn [mbind option_bind].
  rewrite error_response_without_handle_Some by lia. cbn [mbind option_bind].
  destruct (negb (server.in_size input =? 3)) eqn:Hsize.
  { eexists _, _, _. split; [reflexivity|]. split; [lia|exact Hvalid]. }
  apply negb_false_iff, Z.eqb_eq in Hsize. unfold server.in_size in Hsize.
  destruct input as [|o [|lo [|hi [|]]]]; cbn [length] in Hsize; try lia.
  rewrite read_16bit_at_1. cbn [mbind option_bind].
  pose proof (word16_range lo hi) as Hrange.
  unfold default_att_mtu_size in *.
  destruct (Z.ltb_spec (word16 lo hi) 23).
  { eexists _, _, _. split; [reflexivity|]. split; [lia|exact Hvalid]. }
  unfold connection_data.set_client_mtu, default_att_mtu_size.
  rewrite option_guard_True by lia. cbn [mbind option_bind].
  rewrite store_Some by list_len. cbn [mbind option_bind].
  unfold write_16bit. rewrite store_Some by list_len. cbn [mbind option_bind].
  eexists _, _, _. split; [reflexivity|]. split; [lia|].
  destruct Hvalid as [Hserver Hclient].
  unfold connection_valid, default_att_mtu_size.
  cbn [connection_data.server_mtu_ connection_data.client_mtu_]. lia.
Qed.

Lemma find_information_within (input output : list byte) (out_size : Z) (opcode : byte) :
  20 <= out_size <= Z.of_nat (length output) -> out_size < 2 ^ 64 ->
  number_of_attributes < 65535 ->
  long_uuids_declared services internal_128bit_uuid ->
  load input 0 = Some opcode ->
  responds_within out_size
    (server.handle_find_information_request services internal_128bit_uuid input output out_size).
Proof.
  intros Hout Hmax HN Hwf Hop.
  destruct (check_size_and_handle_range_total 5 5 input output out_size opcode
              ltac:(lia) ltac:(lia) ltac:(lia) Hop) as [[[s e] Hcheck]|[output' Hcheck]].
  - destruct (find_information_validated input output out_size s e Hout Hmax HN Hwf Hcheck)
      as (attr & _ & _ & output' & size & Hrun & Hsize & _).
    exists output', size. split; [exact Hrun|].
    destruct (has_16bit_uuid internal_128bit_uuid attr); lia.
  - unfold server.handle_find_information_request. rewrite Hcheck. cbn [mbind option_bind].
    eexists _, _. split; [reflexivity|lia].
Qed.

Lemma find_by_type_value_within (input output : list byte) (out_size : Z) (opcode : byte) :
  5 <= out_size <= Z.of_nat (length output) ->
  load input 0 = Some opcode ->
  responds_within out_size
    (server.handle_find_by_type_value_request services input output out_size).
Proof.
  intros Hout Hop.
  destruct (Z.eq_dec (server.in_size input) 9) as [H9|H9];
    [|destruct (Z.eq_dec (server.in_size input) 23) as [H23|H23]].
  3: { unfold server.handle_find_by_type_value_request.
       rewrite (check_size_and_handle_range_missized 9 23 opcode) by assumption.
       cbn [mbind option_bind]. eexists _, _. split; [reflexivity|lia]. }
  all: assert (7 <= server.in_size input) as Hlen by lia;
       unfold server.in_size in Hlen;
       destruct input as [|o [|s_lo [|s_hi [|e_lo [|e_hi [|t_lo [|t_hi value]]]]]]];
         cbn [length] in Hlen; try lia;
       injection Hop as ->;
       destruct (find_by_type_value_sized opcode s_lo s_hi e_lo e_hi t_lo t_hi value output
                   out_size ltac:(auto) Hout) as (output' & size & Hrun & Hsize & _);
       exists output', size; auto.
Qed.

Lemma read_by_type_within (input output : list byte) (out_size : Z) (opcode : byte) :
  5 <= out_size <= Z.of_nat (length output) -> out_size < 2 ^ 64 ->
  number_of_attributes < 65535 ->
  reads_within_buffer services ->
  load input 0 = Some opcode ->
  responds_within out_size
    (server.handle_read_by_type_request services uuid_filter input output out_size).
Proof.
  intros Hout Hmax HN Hcontract Hop.
  unfold server.handle_read_by_type_request.
  destruct (check_size_and_handle_range_total (5 + 2) (5 + 16) input output out_size opcode
              ltac:(lia) ltac:(lia) ltac:(lia) Hop) as [[[s e] Hcheck]|[output' Hcheck]].
  2: { rewrite Hcheck. cbn [mbind option_bind]. eexists _, _. split; [reflexivity|lia]. }
  rewrite Hcheck. cbn [mbind option_bind].
  destruct (check_size_and_handle_range_true_inv (5 + 2) (5 + 16) input output out_size
              s e ltac:(lia) ltac:(lia) Hcheck)
    as (_ & opcode' & s_lo & s_hi & e_lo & e_hi & rest & -> & Hs & He & H0 & Hle & HleN).
  unfold server.all_attributes.
  change (0 + 2) with 2. change (0 + out_size) with out_size.
  pose proof (word16_range s_lo s_hi) as Hrange. rewrite <- Hs in Hrange.
  assert (well_packed (collect_attributes.make 2 out_size)) as Hpacked0
    by (unfold well_packed, collect_attributes.make; cbn; lia).
  match goal with |- context [server.all_attributes_loop _ _ ?f _ _ _ _ _] =>
    destruct (all_attributes_collects f e HN Hcontract
                (Z.to_nat (number_of_attributes + 1 - s)) s
                (collect_attributes.make 2 out_size) output
                ltac:(lia) ltac:(lia) Hpacked0 ltac:(cbn; lia) ltac:(cbn; lia)
                ltac:(cbn; lia))
      as (it' & mem' & -> & [Hcur Hshape] & Hbegin & Hend & Hlen)
  end.
  cbn [mbind option_bind]. cbn [collect_attributes.make collect_attributes.begin_
                                  collect_attributes.end_] in Hbegin, Hend.
  unfold collect_attributes.empty, collect_attributes.data_size, collect_attributes.size.
  rewrite Hbegin in *. rewrite Hend in *.
  change (load (opcode' :: ?l) 0) with (Some opcode').
  destruct (negb (collect_attributes.current_ it' =? 2)).
  - rewrite store_Some by list_len. cbn [mbind option_bind].
    rewrite store_Some by list_len. cbn [mbind option_bind].
    pose proof (uint8_range (collect_attributes.current_ it' - 2)) as Hu8.
    assert (uint8 (collect_attributes.current_ it' - 2) <= collect_attributes.current_ it' - 2)
      as Hle8 by (unfold uint8; apply Z.mod_le; lia).
    rewrite size_t_small by lia.
    eexists _, _. split; [reflexivity|lia].
  - cbn [mbind option_bind]. apply responds_within_error. lia.
Qed.

(** The check of a Read or Read Blob Request passes, or leaves an Error
    Response. *)
Lemma check_size_and_handle_total (A : Z) (input output : list byte) (out_size : Z)
    (opcode : byte) :
  3 <= A -> 5 <= out_size <= Z.of_nat (length output) ->
  load input 0 = Some opcode ->
  (exists lo hi rest,
     input = opcode :: lo :: hi :: rest
     /\ word16 lo hi <> 0 /\ word16 lo hi <= number_of_attributes
     /\ server.check_size_and_handle services A A input output out_size
        = Some (check_true (word16 lo hi)))
  \/ (exists output',
        server.check_size_and_handle services A A input output out_size
          = Some (check_false output' 5)).
Proof.
  intros HA Hout Hop. unfold server.check_size_and_handle.
  destruct (Z.eqb_spec (server.in_size input) A) as [Hin|Hin]; cbn [negb andb].
  - apply check_handle_total; auto; lia.
  - right. rewrite Hop. cbn [mbind option_bind].
    rewrite error_response_without_handle_Some by lia. cbn [mbind option_bind]. eauto.
Qed.

(** What follows the read access in the Read and Read Blob handlers. *)
Lemma read_outcome_within (output : list byte) (out_size : Z) (attr : attribute)
    (args : attribute_access_arguments) (handle : Z) (response : byte)
    (fallback : attribute_access_result.t -> list byte -> option (list byte * Z)) :
  5 <= out_size <= Z.of_nat (length output) -> out_size < 2 ^ 64 ->
  read_within_buffer attr ->
  type args = read_access -> buffer_size args = out_size - 1 ->
  (forall rc mem, length mem = length output -> responds_within out_size (fallback rc mem)) ->
  responds_within out_size
    (let '(rc, read) := access attr args handle in
     output ← commit output 1 out_size read;
     if bool_decide (rc = attribute_access_result.success)
        || bool_decide (rc = attribute_access_result.read_truncated)
     then output ← store output 0 [response]; Some (output, size_t (1 + buffer_size read))
     else fallback rc output).
Proof.
  intros Hout Hmax Hcontract Htype Hsize Hfallback.
  pose proof (Hcontract args handle Htype) as Hread. rewrite Hsize in Hread.
  specialize (Hread ltac:(lia)).
  destruct (access attr args handle) as [rc read']. cbn [snd] in Hread.
  rewrite commit_Some by lia. cbn [mbind option_bind].
  destruct (bool_decide (rc = attribute_access_result.success)
            || bool_decide (rc = attribute_access_result.read_truncated)).
  - rewrite store_Some by list_len. cbn [mbind option_bind].
    rewrite size_t_small by lia.
    eexists _, _. split; [reflexivity|lia].
  - apply Hfallback. list_len.
Qed.

Lemma read_args_size (mem : list byte) (out_size offset : Z) :
  1 <= out_size < 2 ^ 64 ->
  type (read mem 1 out_size offset) = read_access
  /\ buffer_size (read mem 1 out_size offset) = out_size - 1.
Proof. intros H. unfold read. cbn. split; [reflexivity|]. apply size_t_small. lia. Qed.

Lemma read_request_within (input output : list byte) (out_size : Z) (opcode : byte) :
  5 <= out_size <= Z.of_nat (length output) -> out_size < 2 ^ 64 ->
  reads_within_buffer services ->
  load input 0 = Some opcode ->
  responds_within out_size (server.handle_read_request services input output out_size).
Proof.
  intros Hout Hmax Hcontract Hop. unfold server.handle_read_request.
  destruct (check_size_and_handle_total 3 input output out_size opcode ltac:(lia) Hout Hop)
    as [(lo & hi & rest & -> & H0 & HleN & ->)|[output' ->]]; cbn [mbind option_bind].
  2: { eexists _, _. split; [reflexivity|lia]. }
  rewrite word16_size_t by assumption.
  pose proof (word16_range lo hi) as Hrange.
  destruct (attribute_at_Some (word16 lo hi - 1) ltac:(lia)) as [attr Hattr].
  rewrite Hattr. cbn [mbind option_bind].
  change (0 + 1) with 1. change (0 + out_size) with out_size.
  change (to_byte (bits att_opcodes.read_response)) with x0b.
  destruct (read_args_size output out_size 0 ltac:(lia)) as [Htype Hsize].
  apply (read_outcome_within output out_size attr (read output 1 out_size 0) (word16 lo hi) x0b
           (fun _ mem =>
              opcode ← load (opcode :: lo :: hi :: rest) 0;
              server.error_response opcode att_error_codes.read_not_permitted (word16 lo hi)
                mem out_size)
           Hout Hmax (Hcontract _ _ Hattr) Htype Hsize).
  intros rc mem Hlen. change (load (opcode :: ?l) 0) with (Some opcode).
  cbn [mbind option_bind]. apply responds_within_error. lia.
Qed.

Lemma read_blob_request_within (input output : list byte) (out_size : Z) (opcode : byte) :
  5 <= out_size <= Z.of_nat (length output) -> out_size < 2 ^ 64 ->
  reads_within_buffer services ->
  load input 0 = Some opcode ->
  responds_within out_size (server.handle_read_blob_request services input output out_size).
Proof.
  intros Hout Hmax Hcontract Hop. unfold server.handle_read_blob_request.
  destruct (check_size_and_handle_total 5 input output out_size opcode ltac:(lia) Hout Hop)
    as [(lo & hi & rest & -> & H0 & HleN & Hcheck)|[output' ->]]; cbn [mbind option_bind].
  2: { eexists _, _. split; [reflexivity|lia]. }
  rewrite Hcheck. cbn [mbind option_bind].
  assert (server.in_size (opcode :: lo :: hi :: rest) = 5) as Hin.
  { unfold server.check_size_and_handle in Hcheck.
    destruct (Z.eqb_spec (server.in_size (opcode :: lo :: hi :: rest)) 5); [assumption|].
    cbn [negb andb] in Hcheck. change (load (opcode :: ?l) 0) with (Some opcode) in Hcheck.
    cbn [mbind option_bind] in Hcheck.
    rewrite error_response_without_handle_Some in Hcheck by lia. discriminate. }
  unfold server.in_size in Hin.
  destruct rest as [|o_lo [|o_hi [|]]]; cbn [length] in Hin; try lia.
  rewrite read_16bit_at_3. cbn [mbind option_bind].
  rewrite word16_size_t by assumption.
  pose proof (word16_range lo hi) as Hrange.
  destruct (attribute_at_Some (word16 lo hi - 1) ltac:(lia)) as [attr Hattr].
  rewrite Hattr. cbn [mbind option_bind].
  change (0 + 1) with 1. change (0 + out_size) with out_size.
  change (to_byte (bits att_opcodes.read_blob_response)) with x0d.
  destruct (read_args_size output out_size (word16 o_lo o_hi) ltac:(lia)) as [Htype Hsize].
  apply (read_outcome_within output out_size attr (read output 1 out_size (word16 o_lo o_hi))
           (word16 lo hi) x0d
           (fun rc mem =>
              if bool_decide (rc = attribute_access_result.invalid_offset) then
                opcode ← load [opcode; lo; hi; o_lo; o_hi] 0;
                server.error_response opcode att_error_codes.invalid_offset (word16 lo hi)
                  mem out_size
              else
                opcode ← load [opcode; lo; hi; o_lo; o_hi] 0;
                server.error_response opcode att_error_codes.read_not_permitted (word16 lo hi)
                  mem out_size)
           Hout Hmax (Hcontract _ _ Hattr) Htype Hsize).
  intros rc mem Hlen. change (load (opcode :: ?l) 0) with (Some opcode).
  destruct (bool_decide (rc = attribute_access_result.invalid_offset));
    cbn [mbind option_bind]; apply responds_within_error; lia.
Qed.

Lemma write_request_within (input output : list byte) (out_size : Z) (opcode : byte) :
  5 <= out_size <= Z.of_nat (length output) ->
  load input 0 = Some opcode ->
  responds_within out_size (server.handle_write_request services input output out_size).
Proof.
  intros Hout Hop. unfold server.handle_write_request.
  destruct (Z.ltb_spec (server.in_size input) 3).
  { rewrite Hop. cbn [mbind option_bind].
    unfold server.error_response_without_handle. apply responds_within_error. exact Hout. }
  destruct (check_handle_total input output out_size opcode ltac:(lia) Hout Hop)
    as [(lo & hi & rest & -> & H0 & HleN & ->)|[output' ->]]; cbn [mbind option_bind].
  2: { eexists _, _. split; [reflexivity|lia]. }
  rewrite word16_size_t by assumption.
  pose proof (word16_range lo hi) as Hrange.
  destruct (attribute_at_Some (word16 lo hi - 1) ltac:(lia)) as [attr Hattr].
  rewrite Hattr. cbn [mbind option_bind].
  destruct (access attr _ (word16 lo hi)) as [rc write'].
  change (load (opcode :: ?l) 0) with (Some opcode).
  destruct (bool_decide (rc = attribute_access_result.success)).
  - rewrite store_Some by list_len. cbn [mbind option_bind].
    eexists _, _. split; [reflexivity|lia].
  - destruct (bool_decide (rc = attribute_access_result.write_overflow));
      cbn [mbind option_bind]; apply responds_within_error; exact Hout.
Qed.

Lemma collect_primary_services_each_within (Service : service)
    (f : collect_primary_services.t) (mem : list byte) :
  response_within_buffer Service ->
  2 <= collect_primary_services.output_ f <= collect_primary_services.end_ f ->
  collect_primary_services.end_ f <= Z.of_nat (length mem) ->
  collect_primary_services.attribute_data_size_ f = 1 ->
  exists f' mem',
    collect_primary_services.each Service (f, mem) = Some (f', mem')
    /\ collect_primary_services.output_ f <= collect_primary_services.output_ f'
       <= collect_primary_services.end_ f
    /\ collect_primary_services.end_ f' = collect_primary_services.end_ f
    /\ collect_primary_services.attribute_data_size_ f' = 1
    /\ length mem' = length mem.
Proof.
  intros Hservice Hout Hend Hsize. unfold collect_primary_services.each.
  destruct ((collect_primary_services.starting_handle_ f <=? collect_primary_services.index_ f)
            && (collect_primary_services.index_ f <=? collect_primary_services.ending_handle_ f)).
  2: { cbn [mbind option_bind]. eexists _, _. split; [reflexivity|]. cbn. repeat split; lia. }
  destruct (collect_primary_services.first_ f).
  - cbv zeta. rewrite Hsize. rewrite store_Some by list_len. cbn [mbind option_bind].
    cbn [collect_primary_services.output_ collect_primary_services.end_
           collect_primary_services.index_ collect_primary_services.is_128bit_uuid_].
    match goal with |- context [read_primary_service_response Service ?m ?o ?e ?i ?b] =>
      pose proof (Hservice m o e i b ltac:(lia) ltac:(list_len)) as Hresponse;
      destruct (read_primary_service_response Service m o e i b) as [mem1 output1]
    end.
    destruct Hresponse as [Hout1 Hlen1]. cbn [mbind option_bind].
    eexists _, _. split; [reflexivity|]. cbn. rewrite Hlen1. repeat split; list_len.
  - cbn [mbind option_bind].
    pose proof (Hservice mem (collect_primary_services.output_ f)
                  (collect_primary_services.end_ f) (collect_primary_services.index_ f)
                  (collect_primary_services.is_128bit_uuid_ f) ltac:(lia) ltac:(lia))
      as Hresponse.
    destruct (read_primary_service_response Service mem _ _ _ _) as [mem1 output1].
    destruct Hresponse as [Hout1 Hlen1]. cbn [mbind option_bind].
    eexists _, _. split; [reflexivity|]. cbn. repeat split; lia.
Qed.

(** The walk of Read By Group Type keeps [output_] between the two
    octets of the header and the end of the buffer. *)
Lemma collect_primary_services_walk_within (Services : list service) :
  Forall response_within_buffer Services ->
  forall (f : collect_primary_services.t) (mem : list byte),
  2 <= collect_primary_services.output_ f <= collect_primary_services.end_ f ->
  collect_primary_services.end_ f <= Z.of_nat (length mem) ->
  collect_primary_services.attribute_data_size_ f = 1 ->
  exists f' mem',
    for_each collect_primary_services.each Services (f, mem) = Some (f', mem')
    /\ collect_primary_services.output_ f <= collect_primary_services.output_ f'
       <= collect_primary_services.end_ f
    /\ length mem' = length mem.
Proof.
  induction 1 as [|Service Services Hservice _ IH]; intros f mem Hout Hend Hsize.
  - exists f, mem. split; [reflexivity|]. split; lia.
  - cbn [for_each].
    destruct (collect_primary_services_each_within Service f mem Hservice Hout Hend Hsize)
      as (f1 & mem1 & -> & Hout1 & Hend1 & Hsize1 & Hlen1).
    cbn [mbind option_bind].
    destruct (IH f1 mem1 ltac:(lia) ltac:(lia) Hsize1) as (f' & mem' & -> & Hout' & Hlen').
    exists f', mem'. split; [reflexivity|]. split; lia.
Qed.

Lemma read_by_group_type_within (input output : list byte) (out_size : Z) (opcode : byte) :
  5 <= out_size <= Z.of_nat (length output) -> out_size < 2 ^ 64 ->
  Forall response_within_buffer services ->
  load input 0 = Some opcode ->
  responds_within out_size
    (server.handle_read_by_group_type_request services input output out_size).
Proof.
  intros Hout Hmax Hcontract Hop.
  unfold server.handle_read_by_group_type_request.
  destruct (check_size_and_handle_range_total (5 + 2) (5 + 16) input output out_size opcode
              ltac:(lia) ltac:(lia) ltac:(lia) Hop) as [[[s e] Hcheck]|[output' Hcheck]].
  2: { rewrite Hcheck. cbn [mbind option_bind]. eexists _, _. split; [reflexivity|lia]. }
  rewrite Hcheck. cbn [mbind option_bind].
  destruct (check_size_and_handle_range_true_inv (5 + 2) (5 + 16) input output out_size
              s e ltac:(lia) ltac:(lia) Hcheck)
    as (Hin & opcode' & s_lo & s_hi & e_lo & e_hi & rest & -> & Hs & He & H0 & Hle & HleN).
  change (load (opcode' :: ?l) 0) with (Some opcode').
  assert (exists unsupported : bool,
            (if server.in_size (opcode' :: s_lo :: s_hi :: e_lo :: e_hi :: rest) =? 5 + 16
             then Some true
             else requested_type ←
                    read_handle (opcode' :: s_lo :: s_hi :: e_lo :: e_hi :: rest) 5;
                  Some (negb (requested_type =? gatt_uuids.primary_service)))
            = Some unsupported) as [unsupported ->].
  { destruct (Z.eqb_spec (server.in_size (opcode' :: s_lo :: s_hi :: e_lo :: e_hi :: rest))
                (5 + 16)) as [H21|H21]; [eauto|].
    assert (Z.of_nat (length rest) = 2) as Hrest
      by (unfold server.in_size in *; cbn [length] in *; lia).
    destruct rest as [|t_lo [|t_hi [|]]]; cbn [length] in Hrest; try lia.
    unfold read_handle. rewrite read_16bit_at_5. cbn [mbind option_bind]. eauto. }
  cbn [mbind option_bind].
  destruct unsupported.
  { cbn [mbind option_bind]. apply responds_within_error. lia. }
  unfold write_opcode. rewrite store_Some by list_len. cbn [mbind option_bind].
  unfold collect_primary_services.make. change (0 + 1 + 1) with 2.
  change (0 + out_size) with out_size. change (2 - 1) with 1.
  match goal with |- context [for_each _ _ (?f, ?mem)] =>
    destruct (collect_primary_services_walk_within services Hcontract f mem
                ltac:(cbn; lia) ltac:(cbn; list_len) eq_refl)
      as (f' & mem' & -> & Hout' & Hlen')
  end.
  cbn in Hout'. cbn [mbind option_bind].
  destruct (Z.eqb_spec (collect_primary_services.output_ f') 2).
  - cbn [mbind option_bind]. apply responds_within_error. revert Hlen'. list_len.
  - rewrite size_t_small by lia. eexists _, _. split; [reflexivity|lia].
Qed.

(** C1: for every PDU of at least one octet and every output of at
    least 23 octets, on a connection whose two MTUs are at least 23, the
    dispatcher returns, with a size that is at most the given size and at
    most the negotiated MTU, before and after the request, and at least
    the one octet of the opcode, so in particular 0 or at least 1. *)
Theorem l2cap_input_out_size (input output : list byte) (out_size : Z)
    (connection : connection_data.t) :
  1 <= server.in_size input ->
  23 <= out_size <= Z.of_nat (length output) ->
  connection_valid connection ->
  number_of_attributes < 65535 ->
  long_uuids_declared services internal_128bit_uuid ->
  reads_within_buffer services ->
  Forall response_within_buffer services ->
  exists output' out_size' connection',
    server.l2cap_input services internal_128bit_uuid uuid_filter input output out_size connection
      = Some (output', out_size', connection')
    /\ out_size' <= Z.min out_size (connection_data.negotiated_mtu connection)
    /\ out_size' <= connection_data.negotiated_mtu connection'
    /\ (out_size' = 0 \/ 1 <= out_size')
    /\ 1 <= out_size'
    /\ connection_valid connection'.
Proof.
  intros Hin Hout Hvalid HN Hwf Hreads Hresponses.
  unfold server.l2cap_input.
  set (clipped := Z.min out_size (connection_data.negotiated_mtu connection)).
  assert (23 <= clipped <= Z.of_nat (length output) /\ clipped < 2 ^ 64
          /\ clipped <= connection_data.negotiated_mtu connection) as (Hclipped & Hmax & Hmtu).
  { subst clipped. destruct Hvalid as [Hserver Hclient].
    unfold connection_data.negotiated_mtu, default_att_mtu_size in *. lia. }
  assert (23 <= connection_data.negotiated_mtu connection) as Hnegotiated by lia.
  rewrite option_guard_True by lia. cbn [mbind option_bind].
  unfold default_att_mtu_size. rewrite option_guard_True by lia. cbn [mbind option_bind].
  unfold server.in_size in Hin.
  destruct input as [|opcode rest]; [cbn [length] in Hin; lia|].
  set (input := opcode :: rest).
  assert (load input 0 = Some opcode) as Hop by reflexivity.
  rewrite Hop. cbn [mbind option_bind].
  assert (forall response,
            responds_within clipped response ->
            exists output' out_size' connection',
              (r ← response; Some (r, connection)) = Some (output', out_size', connection')
              /\ out_size' <= clipped
              /\ out_size' <= connection_data.negotiated_mtu connection'
              /\ (out_size' = 0 \/ 1 <= out_size')
              /\ 1 <= out_size'
              /\ connection_valid connection') as Hwithin.
  { intros response (output' & size & -> & Hsize). cbn [mbind option_bind].
    exists output', size, connection. split; [reflexivity|].
    split; [lia|]. split; [lia|]. split; [right; lia|]. split; [lia|exact Hvalid]. }
  destruct (att_opcodes_of (byte_val opcode)) as [[]|].
  all: try (apply Hwithin; unfold server.error_response_without_handle;
            apply responds_within_error; lia).
  - destruct (exchange_mtu_request_within input output clipped connection opcode
                ltac:(lia) Hop Hvalid)
      as (output' & size & connection' & -> & Hsize & Hvalid').
    exists output', size, connection'. split; [reflexivity|].
    split; [lia|]. split; [|split; [right; lia|split; [lia|exact Hvalid']]].
    destruct Hvalid' as [Hserver' Hclient'].
    unfold connection_data.negotiated_mtu, default_att_mtu_size in *. lia.
  - apply Hwithin. apply (find_information_within input output clipped opcode); auto; lia.
  - apply Hwithin. apply (find_by_type_value_within input output clipped opcode); auto; lia.
  - apply Hwithin. apply (read_by_type_within input output clipped opcode); auto; lia.
  - apply Hwithin. apply (read_request_within input output clipped opcode); auto; lia.
  - apply Hwithin. apply (read_blob_request_within input output clipped opcode); auto; lia.
  - apply Hwithin. apply (read_by_group_type_within input output clipped opcode); auto; lia.
  - apply Hwithin. apply (write_request_within input output clipped opcode); auto; lia.
Qed.

End server_properties.

(** * The advertising data *)

(** A store changes the octets it was given and no others. *)
Lemma store_step (mem : list byte) (pos : Z) (bytes : list byte) :
  0 <= pos -> pos + Z.of_nat (length bytes) <= Z.of_nat (length mem) ->
  exists mem',
    store mem pos bytes = Some mem'
    /\ length mem' = length mem
    /\ take (Z.to_nat (pos + Z.of_nat (length bytes))) mem' = take (Z.to_nat pos) mem ++ bytes
    /\ forall n : nat, pos + Z.of_nat (length bytes) <= Z.of_nat n -> drop n mem' = drop n mem.
Proof.
  intros Hpos Hend. rewrite store_Some by assumption. eexists. split; [reflexivity|].
  split; [list_len|]. split.
  - rewrite app_assoc. rewrite take_app_length'; [reflexivity|list_len].
  - intros n Hn. rewrite app_assoc, drop_app_ge by list_len. rewrite drop_drop. f_equal.
    list_len.
Qed.

(** The three octets of the flags. *)
Lemma advertising_flags (buffer : list byte) :
  3 <= Z.of_nat (length buffer) ->
  exists buffer',
    (buffer ← store buffer 0 [to_byte 2];
     buffer ← store buffer 1 [to_byte (bits gap_types.flags)];
     store buffer 2 [to_byte 6]) = Some buffer'
    /\ length buffer' = length buffer
    /\ take 3 buffer' = [x02; x01; x06]
    /\ forall n : nat, 3 <= Z.of_nat n -> drop n buffer' = drop n buffer.
Proof.
  intros Hlen.
  destruct (store_step buffer 0 [to_byte 2] ltac:(lia) ltac:(cbn [length]; lia))
    as (b1 & -> & Hlen1 & Htake1 & Hdrop1).
  cbn [mbind option_bind].
  destruct (store_step b1 1 [to_byte (bits gap_types.flags)] ltac:(lia)
              ltac:(cbn [length]; lia)) as (b2 & -> & Hlen2 & Htake2 & Hdrop2).
  cbn [mbind option_bind].
  destruct (store_step b2 2 [to_byte 6] ltac:(lia) ltac:(cbn [length]; lia))
    as (b3 & -> & Hlen3 & Htake3 & Hdrop3).
  exists b3. split; [reflexivity|]. split; [congruence|]. split.
  - cbn [length] in Htake1, Htake2, Htake3.
    change (Z.to_nat (2 + Z.of_nat 1)) with 3%nat in Htake3.
    change (Z.to_nat (1 + Z.of_nat 1)) with 2%nat in Htake2.
    change (Z.to_nat (0 + Z.of_nat 1)) with 1%nat in Htake1.
    change (Z.to_nat 2) with 2%nat in Htake3. change (Z.to_nat 1) with 1%nat in Htake2.
    change (Z.to_nat 0) with 0%nat in Htake1.
    rewrite Htake3, Htake2, Htake1. reflexivity.
  - intros n Hn. rewrite Hdrop3, Hdrop2, Hdrop1 by (cbn [length]; lia). reflexivity.
Qed.

(** The structure of the local name, written at [begin]. *)
Lemma advertising_name (buffer : list byte) (begin : Z) (length_octet type : byte)
    (shown : list byte) :
  0 <= begin -> begin + 2 + Z.of_nat (length shown) <= Z.of_nat (length buffer) ->
  exists buffer',
    (buffer ← store buffer begin [length_octet];
     buffer ← store buffer (begin + 1) [type];
     store buffer (begin + 2) shown) = Some buffer'
    /\ length buffer' = length buffer
    /\ take (Z.to_nat (begin + 2 + Z.of_nat (length shown))) buffer'
       = take (Z.to_nat begin) buffer ++ length_octet :: type :: shown
    /\ forall n : nat,
         begin + 2 + Z.of_nat (length shown) <= Z.of_nat n -> drop n buffer' = drop n buffer.
Proof.
  intros Hbegin Hlen.
  destruct (store_step buffer begin [length_octet] ltac:(lia) ltac:(cbn [length]; lia))
    as (b1 & -> & Hlen1 & Htake1 & Hdrop1).
  cbn [mbind option_bind].
  destruct (store_step b1 (begin + 1) [type] ltac:(lia) ltac:(cbn [length]; lia))
    as (b2 & -> & Hlen2 & Htake2 & Hdrop2).
  cbn [mbind option_bind].
  destruct (store_step b2 (begin + 2) shown ltac:(lia) ltac:(lia))
    as (b3 & -> & Hlen3 & Htake3 & Hdrop3).
  exists b3. split; [reflexivity|]. split; [congruence|]. split.
  - cbn [length] in Htake1, Htake2. change (Z.of_nat 1) with 1 in Htake1, Htake2.
    rewrite Htake3.
    replace (Z.to_nat (begin + 2)) with (Z.to_nat (begin + 1 + 1)) by lia.
    rewrite Htake2. rewrite Htake1. rewrite <- !app_assoc. reflexivity.
  - intros n Hn. rewrite Hdrop3, Hdrop2, Hdrop1 by (cbn [length]; lia). reflexivity.
Qed.


(** The name as far as it fits into [room] octets is as long as the
    source computes [max_name_len]. *)
Lemma shown_name (name : list byte) (room : Z) :
  0 <= room ->
  let shown := take (Z.to_nat room) name in
  Z.min (Z.of_nat (length name)) room = Z.of_nat (length shown)
  /\ take (Z.to_nat (Z.min (Z.of_nat (length name)) room)) name = shown.
Proof.
  intros Hroom shown. subst shown. split; [list_len|].
  destruct (Z.le_gt_cases (Z.of_nat (length name)) room).
  - rewrite Z.min_l by lia. rewrite !take_ge by lia. reflexivity.
  - rewrite Z.min_r by lia. reflexivity.
Qed.

(** The three outcomes of [advertising_data]: nothing, the flags, the
    flags and the name. *)
Lemma advertising_data_cases (name : option (list byte)) (buffer : list byte)
    (buffer_size : Z) :
  0 <= buffer_size <= Z.of_nat (length buffer) -> buffer_size < 2 ^ 64 ->
  (buffer_size < 3 /\ server.advertising_data name buffer buffer_size = Some (buffer, 0))
  \/ (3 <= buffer_size
      /\ (name = None \/ name = Some [] \/ buffer_size < 6)
      /\ exists buffer',
           server.advertising_data name buffer buffer_size = Some (buffer', 3)
           /\ length buffer' = length buffer
           /\ take 3 buffer' = [x02; x01; x06]
           /\ drop 3 buffer' = drop 3 buffer)
  \/ (6 <= buffer_size
      /\ exists characters,
           name = Some characters /\ characters <> []
           /\ let shown := take (Z.to_nat (buffer_size - 5)) characters in
              let size := 5 + Z.of_nat (length shown) in
              exists buffer',
                server.advertising_data name buffer buffer_size = Some (buffer', size)
                /\ length buffer' = length buffer
                /\ take (Z.to_nat size) buffer'
                   = [x02; x01; x06; to_byte (Z.of_nat (length shown) + 1);
                      if Z.of_nat (length characters) <=? buffer_size - 5 then x09 else x08]
                     ++ shown
                /\ drop (Z.to_nat size) buffer' = drop (Z.to_nat size) buffer).
Proof.
  intros Hsize Hmax. unfold server.advertising_data. cbv zeta.
  rewrite !Z.add_0_l.
  destruct (Z.leb_spec 3 buffer_size) as [Hflags|Hnone].
  2: { left. split; [lia|]. cbn [mbind option_bind].
       assert ((2 <? buffer_size - 0) = false) as Hroom by (apply Z.ltb_ge; lia).
       assert (size_t (buffer_size - size_t (buffer_size - 0)) = 0) as Hresult.
       { rewrite (size_t_small (buffer_size - 0)) by lia. rewrite size_t_small by lia. lia. }
       destruct name as [characters|]; [rewrite Hroom|]; cbn [mbind option_bind];
         rewrite Hresult; reflexivity. }
  right.
  destruct (advertising_flags buffer ltac:(lia)) as (b1 & Hstore & Hlen1 & Htake1 & Hdrop1).
  assert (forall k : list byte * Z -> option (list byte * Z),
            (x ← (buffer ← store buffer 0 [to_byte 2];
                  buffer ← store buffer 1 [to_byte (bits gap_types.flags)];
                  buffer ← store buffer 2 [to_byte 6];
                  Some (buffer, 3)); k x) = k (b1, 3)) as Hfirst.
  { intros k. destruct (store buffer 0 [to_byte 2]) as [m1|]; [|discriminate Hstore].
    cbn [mbind option_bind] in Hstore |- *.
    destruct (store m1 1 _) as [m2|]; [|discriminate Hstore].
    cbn [mbind option_bind] in Hstore |- *. rewrite Hstore. reflexivity. }
  rewrite Hfirst. clear Hfirst Hstore.
  assert (size_t (buffer_size - size_t (buffer_size - 3)) = 3) as Hresult.
  { rewrite (size_t_small (buffer_size - 3)) by lia. rewrite size_t_small by lia. lia. }
  assert (name = None \/ name = Some [] \/ buffer_size < 6 ->
          3 <= buffer_size
          /\ (name = None \/ name = Some [] \/ buffer_size < 6)
          /\ exists buffer',
               Some (b1, size_t (buffer_size - size_t (buffer_size - 3))) = Some (buffer', 3)
               /\ length buffer' = length buffer
               /\ take 3 buffer' = [x02; x01; x06]
               /\ drop 3 buffer' = drop 3 buffer) as Honly.
  { intros Hwhy. split; [exact Hflags|]. split; [exact Hwhy|]. exists b1.
    rewrite Hresult. split; [reflexivity|]. split; [exact Hlen1|]. split; [exact Htake1|].
    apply Hdrop1. lia. }
  destruct name as [characters|]; [|left; apply Honly; auto].
  destruct (Z.ltb_spec 2 (buffer_size - 3)) as [Hroom|Hroom];
    [|left; apply Honly; right; right; lia].
  destruct characters as [|c characters]; [left; apply Honly; auto|].
  set (name := c :: characters) in *.
  right. split; [lia|]. exists name. split; [reflexivity|]. split; [discriminate|].
  cbv zeta.
  assert ((0 <? Z.of_nat (length name)) = true) as -> by (apply Z.ltb_lt; cbn [length name]; lia).
  rewrite (size_t_small (buffer_size - 3 - 2)) by lia.
  replace (buffer_size - 3 - 2) with (buffer_size - 5) by lia.
  destruct (shown_name name (buffer_size - 5) ltac:(lia)) as [Hshown Htaken].
  cbv zeta in Hshown, Htaken. rewrite Htaken.
  set (shown := take (Z.to_nat (buffer_size - 5)) name) in *.
  assert (Z.of_nat (length shown) <= buffer_size - 5) as Hfits by (subst shown; list_len).
  assert ((Z.min (Z.of_nat (length name)) (buffer_size - 5) =? Z.of_nat (length name))
          = (Z.of_nat (length name) <=? buffer_size - 5)) as ->.
  { destruct (Z.leb_spec (Z.of_nat (length name)) (buffer_size - 5)).
    - apply Z.eqb_eq. lia.
    - apply Z.eqb_neq. lia. }
  rewrite Hshown.
  destruct (advertising_name b1 3 (to_byte (Z.of_nat (length shown) + 1))
              (to_byte (bits (if Z.of_nat (length name) <=? buffer_size - 5
                              then gap_types.complete_local_name
                              else gap_types.shortened_local_name))) shown
              ltac:(lia) ltac:(lia)) as (b2 & Hstore & Hlen2 & Htake2 & Hdrop2).
  change (3 + 1) with 4. change (3 + 2) with 5 in Hstore, Htake2, Hdrop2 |- *.
  change (3 + 1) with 4 in Hstore.
  destruct (store b1 3 _) as [m1|]; [|discriminate Hstore].
  cbn [mbind option_bind] in Hstore |- *.
  destruct (store m1 4 _) as [m2|]; [|discriminate Hstore].
  cbn [mbind option_bind] in Hstore |- *. rewrite Hstore. cbn [mbind option_bind].
  exists b2.
  assert (size_t (buffer_size - size_t (buffer_size - (3 + (Z.of_nat (length shown) + 2))))
          = 5 + Z.of_nat (length shown)) as ->.
  { rewrite (size_t_small (buffer_size - (3 + (Z.of_nat (length shown) + 2)))) by lia.
    rewrite size_t_small by lia. lia. }
  split; [reflexivity|]. split; [congruence|]. split.
  - rewrite Htake2. change (Z.to_nat 3) with 3%nat. rewrite Htake1.
    destruct (Z.of_nat (length name) <=? buffer_size - 5); reflexivity.
  - rewrite Hdrop2 by lia. apply Hdrop1. lia.
Qed.

(** X1: the advertising data stays within the buffer: [advertising_data]
    returns for every buffer, the size it returns is at most
    [buffer_size], and the octets of the buffer behind that size are
    left as they were. *)
Theorem advertising_data_within_buffer (name : option (list byte)) (buffer : list byte)
    (buffer_size : Z) :
  0 <= buffer_size <= Z.of_nat (length buffer) -> buffer_size < 2 ^ 64 ->
  exists buffer' size,
    server.advertising_data name buffer buffer_size = Some (buffer', size)
    /\ 0 <= size <= buffer_size
    /\ length buffer' = length buffer
    /\ drop (Z.to_nat size) buffer' = drop (Z.to_nat size) buffer.
Proof.
  intros Hsize Hmax.
  destruct (advertising_data_cases name buffer buffer_size Hsize Hmax)
    as [[Hsmall Hrun] | [(Hflags & _ & buffer' & Hrun & Hlen & _ & Hdrop)
                        | (Hroom & characters & _ & _ & Hname)]].
  - exists buffer, 0. split; [exact Hrun|]. split; [lia|]. split; reflexivity.
  - exists buffer', 3. split; [exact Hrun|]. split; [lia|]. split; [exact Hlen|exact Hdrop].
  - cbv zeta in Hname. destruct Hname as (buffer' & Hrun & Hlen & _ & Hdrop).
    eexists buffer', _. split; [exact Hrun|].
    split; [|split; [exact Hlen|exact Hdrop]].
    rewrite length_take. lia.
Qed.

(** X2: a server without a name, with an empty name, or with a buffer of less
    than 6 octets advertises the flags alone, 02 01 06, and nothing at
    all when the buffer has less than 3 octets. *)
Theorem advertising_data_flags_alone (name : option (list byte)) (buffer : list byte)
    (buffer_size : Z) :
  0 <= buffer_size <= Z.of_nat (length buffer) -> buffer_size < 2 ^ 64 ->
  name = None \/ name = Some [] \/ buffer_size < 6 ->
  (buffer_size < 3 -> server.advertising_data name buffer buffer_size = Some (buffer, 0))
  /\ (3 <= buffer_size ->
      exists buffer',
        server.advertising_data name buffer buffer_size = Some (buffer', 3)
        /\ pdu buffer' 3 = [x02; x01; x06]).
Proof.
  intros Hsize Hmax Hwhy.
  destruct (advertising_data_cases name buffer buffer_size Hsize Hmax)
    as [[Hsmall Hrun] | [(Hflags & _ & buffer' & Hrun & _ & Htake & _)
                        | (Hroom & characters & Hname & Hsome & _)]].
  - split; [intros _; exact Hrun|lia].
  - split; [lia|]. intros _. exists buffer'. split; [exact Hrun|exact Htake].
  - destruct Hwhy as [->|[->|Hshort]]; [discriminate Hname| |lia].
    injection Hname as <-. contradiction.
Qed.

(** X3: with a name of at least one character and a buffer of at least 6
    octets, the advertising data is the flags and the local name: the
    whole name with the type 0x09 when it fits behind the five octets in
    front of it, and otherwise its first [buffer_size - 5] characters
    with the type 0x08, which fill the buffer; the length octet is the
    number of characters and one, modulo 256. *)
Theorem advertising_data_local_name (characters buffer : list byte) (buffer_size : Z) :
  characters <> [] ->
  6 <= buffer_size <= Z.of_nat (length buffer) -> buffer_size < 2 ^ 64 ->
  let shown := take (Z.to_nat (buffer_size - 5)) characters in
  let size := 5 + Z.of_nat (length shown) in
  exists buffer',
    server.advertising_data (Some characters) buffer buffer_size = Some (buffer', size)
    /\ pdu buffer' size
       = [x02; x01; x06; to_byte (Z.of_nat (length shown) + 1);
          if Z.of_nat (length characters) <=? buffer_size - 5 then x09 else x08] ++ shown
    /\ (Z.of_nat (length characters) <= buffer_size - 5 -> shown = characters)
    /\ (buffer_size - 5 < Z.of_nat (length characters) -> size = buffer_size).
Proof.
  intros Hsome Hsize Hmax shown size.
  destruct (advertising_data_cases (Some characters) buffer buffer_size ltac:(lia) Hmax)
    as [[Hsmall _] | [(_ & Hwhy & _) | (_ & characters' & Hname & _ & Hrun)]].
  - lia.
  - destruct Hwhy as [Hnone|[Hempty|Hshort]]; [discriminate Hnone| |lia].
    injection Hempty as ->. contradiction.
  - injection Hname as <-. cbv zeta in Hrun.
    destruct Hrun as (buffer' & Hrun & _ & Htake & _).
    exists buffer'. split; [exact Hrun|]. split; [exact Htake|]. split.
    + intros Hfits. subst shown. apply take_ge. lia.
    + intros Hlong. subst size shown. rewrite length_take. lia.
Qed.

(** * Further properties of the requests *)

Section request_properties.

Variable services : list service.
Variable internal_128bit_uuid : Z.
Variable uuid_filter : list byte -> Z -> bool -> Z -> attribute -> bool.

Local Abbreviation number_of_attributes := (server.number_of_attributes services).

(** ** Error responses *)

Lemma read_16bit_at_2 (a b lo hi : byte) (mem : list byte) :
  read_16bit (a :: b :: lo :: hi :: mem) 2 = Some (word16 lo hi).
Proof. unfold read_16bit. simpl. rewrite lor_shiftl_word16. reflexivity. Qed.

(** X4: an Error Response has five octets or none: with room for five octets
    it is 01, the opcode of the request, the handle, least significant
    octet first, and the error code, the handle can be read back from it,
    and the octets behind it are left as they were; with less room the
    size is 0 and nothing is written. *)
Theorem error_response_five_octets_or_none (opcode : byte) (error_code : att_error_codes.t)
    (handle : Z) (output : list byte) (out_size : Z) :
  0 <= handle < 2 ^ 16 ->
  out_size <= Z.of_nat (length output) ->
  (out_size < 5 ->
   server.error_response opcode error_code handle output out_size = Some (output, 0))
  /\
  (5 <= out_size ->
   exists output',
     server.error_response opcode error_code handle output out_size = Some (output', 5)
     /\ pdu output' 5 = [x01; opcode; to_byte (handle mod 256); to_byte (handle / 256);
                         to_byte (bits error_code)]
     /\ read_handle output' 2 = Some handle
     /\ length output' = length output
     /\ drop 5 output' = drop 5 output).
Proof.
  intros Hhandle Hlen. split.
  - intros Hsmall. unfold server.error_response.
    destruct (Z.leb_spec 5 out_size); [lia|reflexivity].
  - intros Hroom. rewrite error_response_Some by lia. eexists. split; [reflexivity|].
    assert (Z.land handle 255 = handle mod 256) as Hlo
      by (change 255 with (Z.ones 8); rewrite Z.land_ones by lia; reflexivity).
    assert (Z.shiftr handle 8 = handle / 256) as Hhi
      by (rewrite Z.shiftr_div_pow2 by lia; reflexivity).
    rewrite Hlo, Hhi.
    assert (0 <= handle mod 256 < 256) as Hlo_range by (apply Z.mod_pos_bound; lia).
    assert (0 <= handle / 256 < 256) as Hhi_range.
    { split; [apply Z.div_pos; lia|]. apply Z.div_lt_upper_bound; lia. }
    split; [reflexivity|]. split.
    + unfold read_handle. cbn [app]. rewrite read_16bit_at_2. f_equal.
      unfold word16. rewrite !byte_val_to_byte.
      rewrite (Z.mod_small (handle mod 256)) by lia.
      rewrite (Z.mod_small (handle / 256)) by lia.
      pose proof (Z.div_mod handle 256 ltac:(lia)). lia.
    + split; [list_len|]. rewrite drop_app_length'; reflexivity.
Qed.

(** ** Requests that are not supported *)

(** X5: the dispatcher answers every opcode other than those of the eight
    requests it serves with the Error Response request_not_supported,
    which names the opcode and the handle 0, and leaves the connection as
    it was. *)
Theorem l2cap_input_request_not_supported (opcode : byte) (rest output : list byte)
    (out_size : Z) (connection : connection_data.t) :
  ~ In (byte_val opcode) [0x02; 0x04; 0x06; 0x08; 0x0A; 0x0C; 0x10; 0x12] ->
  23 <= Z.min out_size (connection_data.negotiated_mtu connection) ->
  Z.min out_size (connection_data.negotiated_mtu connection) <= Z.of_nat (length output) ->
  exists output',
    server.l2cap_input services internal_128bit_uuid uuid_filter (opcode :: rest) output
      out_size connection = Some (output', 5, connection)
    /\ pdu output' 5 = error_pdu opcode x00 x00 att_error_codes.request_not_supported.
Proof.
  intros Hother Hclipped Hlen. unfold server.l2cap_input.
  rewrite option_guard_True by (unfold server.in_size; cbn [length]; lia).
  cbn [mbind option_bind].
  unfold default_att_mtu_size. rewrite option_guard_True by lia.
  cbn [mbind option_bind]. change (load (opcode :: rest) 0) with (Some opcode).
  cbn [mbind option_bind].
  assert (att_opcodes_of (byte_val opcode) = None) as ->.
  { unfold att_opcodes_of.
    repeat match goal with
           | |- context [byte_val opcode =? ?z] =>
             destruct (Z.eqb_spec (byte_val opcode) z) as [Heq|_];
               [exfalso; apply Hother; rewrite Heq; cbn; tauto|]
           end.
    reflexivity. }
  rewrite error_response_without_handle_Some by lia. cbn [mbind option_bind].
  eexists. split; reflexivity.
Qed.

(** ** Requests without a result *)

(** A walk of [all_attributes] whose filter refuses every attribute of
    the range leaves the iterator and the memory as they were. *)
Lemma all_attributes_loop_refused {Iterator : Type}
    (iter_call : Iterator -> list byte -> Z -> attribute -> option (Iterator * list byte))
    (filter : Z -> attribute -> bool) (ending_handle : Z) (iter : Iterator) (mem : list byte) :
  number_of_attributes < 65535 ->
  forall (fuel : nat) (starting_handle : Z),
  1 <= starting_handle -> number_of_attributes + 1 - starting_handle <= Z.of_nat fuel ->
  (forall handle attr,
     starting_handle <= handle <= ending_handle ->
     server.attribute_at services (handle - 1) = Some attr ->
     filter handle attr = false) ->
  server.all_attributes_loop services iter_call filter fuel starting_handle ending_handle
    iter mem = Some (iter, mem).
Proof.
  intros HN. induction fuel as [|fuel IH]; intros starting_handle Hstart Hfuel Hrefused.
  - cbn [server.all_attributes_loop].
    destruct (Z.leb_spec starting_handle number_of_attributes); [lia|].
    rewrite andb_false_r. reflexivity.
  - cbn [server.all_attributes_loop].
    destruct ((starting_handle <=? ending_handle) && (starting_handle <=? number_of_attributes))
      eqn:Hcond; [|reflexivity].
    apply andb_true_iff in Hcond as [Hle HleN]. apply Z.leb_le in Hle, HleN.
    rewrite size_t_small by lia.
    destruct (attribute_at_Some services (starting_handle - 1) ltac:(lia)) as [attr Hattr].
    rewrite Hattr. cbn [mbind option_bind].
    rewrite (Hrefused starting_handle attr ltac:(lia) Hattr). cbn [mbind option_bind].
    assert (uint16 (starting_handle + 1) = starting_handle + 1) as ->
      by (unfold uint16; apply Z.mod_small; lia).
    apply IH; [lia|lia|].
    intros handle attr' Hrange. apply Hrefused. lia.
Qed.

(** X6: a Read By Type Request whose handles passed validation and whose
    type no attribute of the range has is answered with the Error
    Response attribute_not_found, which names the starting handle. *)
Theorem read_by_type_without_match (input output : list byte) (out_size : Z)
    (starting_handle ending_handle : Z) :
  5 <= out_size <= Z.of_nat (length output) ->
  number_of_attributes < 65535 ->
  server.check_size_and_handle_range services (5 + 2) (5 + 16) input output out_size
    = Some (check_true (starting_handle, ending_handle)) ->
  (forall handle attr,
     starting_handle <= handle <= ending_handle ->
     server.attribute_at services (handle - 1) = Some attr ->
     uuid_filter input 5 (server.in_size input =? 5 + 16) handle attr = false) ->
  exists opcode s_lo s_hi output',
    load input 0 = Some opcode
    /\ starting_handle = word16 s_lo s_hi
    /\ server.handle_read_by_type_request services uuid_filter input output out_size
       = Some (output', 5)
    /\ pdu output' 5 = error_pdu opcode s_lo s_hi att_error_codes.attribute_not_found.
Proof.
  intros Hout HN Hcheck Hrefused.
  destruct (check_size_and_handle_range_true_inv services (5 + 2) (5 + 16) input output
              out_size starting_handle ending_handle ltac:(lia) ltac:(lia) Hcheck)
    as (_ & opcode & s_lo & s_hi & e_lo & e_hi & rest & Hinput & Hs & He & H0 & Hle & HleN).
  exists opcode, s_lo, s_hi.
  unfold server.handle_read_by_type_request. rewrite Hcheck. cbn [mbind option_bind].
  unfold server.all_attributes.
  pose proof (word16_range s_lo s_hi) as Hrange. rewrite <- Hs in Hrange.
  rewrite (all_attributes_loop_refused collect_attributes.call _ ending_handle _ output HN)
    by (try exact Hrefused; lia).
  cbn [mbind option_bind].
  assert (load input 0 = Some opcode) as Hopcode by (rewrite Hinput; reflexivity).
  rewrite Hopcode. cbn [mbind option_bind].
  unfold collect_attributes.empty, collect_attributes.make.
  cbn [collect_attributes.current_ collect_attributes.begin_]. rewrite Z.eqb_refl.
  cbn [negb]. rewrite Hs, error_response_word16 by lia.
  eexists. split; [reflexivity|]. split; [reflexivity|]. split; reflexivity.
Qed.

(** X7: a Find By Type Value Request whose handles passed validation and
    whose type is not the UUID of a Primary Service declaration, 0x2800,
    is answered with the Error Response unsupported_group_type, which
    names the starting handle: no service is looked at. *)
Theorem find_by_type_value_other_type (opcode s_lo s_hi e_lo e_hi t_lo t_hi : byte)
    (value output : list byte) (out_size : Z) :
  let input := opcode :: s_lo :: s_hi :: e_lo :: e_hi :: t_lo :: t_hi :: value in
  server.in_size input = 9 \/ server.in_size input = 23 ->
  5 <= out_size <= Z.of_nat (length output) ->
  word16 s_lo s_hi <> 0 -> word16 s_lo s_hi <= word16 e_lo e_hi ->
  word16 s_lo s_hi <= number_of_attributes ->
  word16 t_lo t_hi <> 0x2800 ->
  exists output',
    server.handle_find_by_type_value_request services input output out_size
      = Some (output', 5)
    /\ pdu output' 5 = error_pdu opcode s_lo s_hi att_error_codes.unsupported_group_type.
Proof.
  intros input Hsize Hout H0 Hle HleN Htype. subst input.
  unfold server.handle_find_by_type_value_request.
  rewrite check_size_and_handle_range_sized by assumption.
  destruct (Z.eqb_spec (word16 s_lo s_hi) 0); [contradiction|].
  destruct (Z.ltb_spec (word16 e_lo e_hi) (word16 s_lo s_hi)); [lia|].
  destruct (Z.ltb_spec number_of_attributes (word16 s_lo s_hi)); [lia|].
  cbn [orb mbind option_bind].
  unfold read_handle. rewrite read_16bit_at_5. cbn [mbind option_bind].
  destruct (Z.eqb_spec (word16 t_lo t_hi) gatt_uuids.primary_service) as [Heq|_];
    [contradiction|].
  cbn [negb]. change (load (opcode :: ?l) 0) with (Some opcode). cbn [mbind option_bind].
  rewrite error_response_word16 by lia.
  eexists. split; reflexivity.
Qed.

(** ** Read and Read Blob *)

(** X8: a Read Blob Request with the offset 0 reads what a Read Request
    reads: when the Read Request for a handle is answered with a Read
    Response, the Read Blob Request for the same handle and the offset 0
    is answered with a Read Blob Response of the same size that differs
    in the opcode only. *)
Theorem read_blob_at_offset_0 (opcode_read opcode_blob lo hi : byte) (output : list byte)
    (out_size : Z) (output' : list byte) (size : Z) :
  5 <= out_size <= Z.of_nat (length output) ->
  server.handle_read_request services [opcode_read; lo; hi] output out_size
    = Some (output', size) ->
  load output' 0 = Some x0b ->
  exists output'',
    server.handle_read_blob_request services [opcode_blob; lo; hi; x00; x00] output out_size
      = Some (output'', size)
    /\ load output'' 0 = Some x0d
    /\ drop 1 output'' = drop 1 output'.
Proof.
  intros Hout Hread Hresponse.
  unfold server.handle_read_request in Hread. unfold server.handle_read_blob_request.
  rewrite check_size_and_handle_sized in Hread by (try reflexivity; lia).
  rewrite check_size_and_handle_sized by (try reflexivity; lia).
  destruct (word16 lo hi =? 0).
  { cbn [mbind option_bind] in Hread. injection Hread as <- <-. discriminate Hresponse. }
  destruct (number_of_attributes <? word16 lo hi).
  { cbn [mbind option_bind] in Hread. injection Hread as <- <-. discriminate Hresponse. }
  cbn [mbind option_bind] in Hread |- *.
  rewrite read_16bit_at_3. cbn [mbind option_bind].
  change (word16 x00 x00) with 0.
  destruct (server.attribute_at services (size_t (word16 lo hi - 1))) as [attr|];
    [|discriminate Hread].
  cbn [mbind option_bind] in Hread |- *.
  destruct (access attr (read output (0 + 1) (0 + out_size) 0) (word16 lo hi)) as [rc read'].
  destruct (commit output (0 + 1) (0 + out_size) read') as [output1|] eqn:Hcommit;
    [|discriminate Hread].
  cbn [mbind option_bind] in Hread |- *.
  pose proof (length_commit _ _ _ _ _ Hcommit) as Hlen1.
  destruct (bool_decide (rc = attribute_access_result.success)
            || bool_decide (rc = attribute_access_result.read_truncated)).
  - rewrite store_Some in Hread by (cbn [length]; lia).
    rewrite store_Some by (cbn [length]; lia).
    cbn [mbind option_bind] in Hread |- *. injection Hread as <- <-.
    eexists. split; [reflexivity|]. split; reflexivity.
  - change (load [opcode_read; lo; hi] 0) with (Some opcode_read) in Hread.
    cbn [mbind option_bind] in Hread.
    rewrite error_response_word16 in Hread by lia.
    injection Hread as <- <-. discriminate Hresponse.
Qed.

(** ** The tuples of a Find Information Response *)

(** [write_128bit_uuid] stores the 16 octets of the UUID. *)
Lemma write_128bit_uuid_octets (mem : list byte) (out : Z) (char_declaration : attribute) :
  uuid char_declaration = gatt_uuids.characteristic ->
  buffer_size (access char_declaration (read (replicate (3 + 16) x00) 0 (3 + 16) 0) 1).2 = 3 + 16 ->
  length (long_uuid_octets char_declaration) = 16%nat
  /\ server.write_128bit_uuid mem out char_declaration
     = store mem out (long_uuid_octets char_declaration).
Proof.
  intros Huuid Hsize. unfold server.write_128bit_uuid, long_uuid_octets.
  rewrite option_guard_True by exact Huuid. cbn [mbind option_bind].
  destruct (access char_declaration (read (replicate (3 + 16) x00) 0 (3 + 16) 0) 1)
    as [rc read'] eqn:Hacc.
  cbn [snd] in Hsize.
  rewrite option_guard_True by exact Hsize. cbn [mbind option_bind].
  rewrite commit_Some by list_len. cbn [mbind option_bind].
  split; [|reflexivity].
  unfold region. list_len.
Qed.

Lemma information_tuples_nil (only_16_bit : bool) (starting_handle ending_handle : Z) :
  ending_handle < starting_handle \/ number_of_attributes < starting_handle ->
  information_tuples services internal_128bit_uuid only_16_bit starting_handle ending_handle
    = [].
Proof. intros H. unfold information_tuples. rewrite seqZ_nil by lia. reflexivity. Qed.

Lemma information_tuples_cons (only_16_bit : bool) (starting_handle ending_handle : Z) :
  starting_handle <= ending_handle -> starting_handle <= number_of_attributes ->
  information_tuples services internal_128bit_uuid only_16_bit starting_handle ending_handle
    = match information_tuple services internal_128bit_uuid only_16_bit starting_handle with
      | Some tuple => [tuple]
      | None => []
      end
      ++ information_tuples services internal_128bit_uuid only_16_bit (starting_handle + 1)
           ending_handle.
Proof.
  intros Hle HleN. unfold information_tuples. rewrite seqZ_cons by lia.
  cbn [omap list_omap].
  replace (Z.pred (Z.min ending_handle number_of_attributes + 1 - starting_handle))
    with (Z.min ending_handle number_of_attributes + 1 - (starting_handle + 1)) by lia.
  replace (Z.succ starting_handle) with (starting_handle + 1) by lia.
  destruct (information_tuple services internal_128bit_uuid only_16_bit starting_handle);
    reflexivity.
Qed.

(** The loop of [collect_handle_uuid_tuples] writes the tuples of the
    range one behind the other, as many as fit in front of [out_end]. *)
Lemma collect_handle_uuid_tuples_loop_tuples (only_16_bit : bool) (end_ out_end : Z) :
  number_of_attributes < 65535 ->
  long_uuids_declared services internal_128bit_uuid ->
  out_end < 2 ^ 64 ->
  let size_per_tuple := if only_16_bit then 4 else 18 in
  forall (fuel : nat) (start : Z) (mem : list byte) (out : Z),
  1 <= start -> number_of_attributes + 1 - start <= Z.of_nat fuel ->
  0 <= out <= out_end -> out_end <= Z.of_nat (length mem) ->
  let tuples :=
    take (Z.to_nat ((out_end - out) / size_per_tuple))
      (information_tuples services internal_128bit_uuid only_16_bit start end_) in
  let out' := out + size_per_tuple * Z.of_nat (length tuples) in
  exists mem',
    server.collect_handle_uuid_tuples_loop services internal_128bit_uuid fuel start end_
      only_16_bit mem out out_end = Some (mem', out')
    /\ out' <= out_end
    /\ length mem' = length mem
    /\ take (Z.to_nat out') mem' = take (Z.to_nat out) mem ++ concat tuples.
Proof.
  intros HN Hwf Hmax size_per_tuple.
  assert (size_per_tuple = 4 \/ size_per_tuple = 18) as Hsize
    by (subst size_per_tuple; destruct only_16_bit; lia).
  assert ((if only_16_bit then 2 + 2 else 2 + 16) = size_per_tuple) as Hsame
    by (subst size_per_tuple; destruct only_16_bit; reflexivity).
  induction fuel as [|fuel IH]; intros start mem out Hstart Hfuel Hout Hend; cbv zeta.
  - cbn [server.collect_handle_uuid_tuples_loop].
    destruct (Z.leb_spec start number_of_attributes); [lia|].
    rewrite andb_false_r. cbn [andb].
    rewrite information_tuples_nil by lia. rewrite take_nil. cbn [length concat].
    rewrite Z.mul_0_r, Z.add_0_r, app_nil_r.
    exists mem. split; [reflexivity|]. split; [lia|]. split; reflexivity.
  - cbn [server.collect_handle_uuid_tuples_loop]. rewrite Hsame.
    rewrite (size_t_small (out_end - out)) by lia.
    assert (0 <= (out_end - out) / size_per_tuple) as Hquot by (apply Z.div_pos; lia).
    destruct ((start <=? end_) && (start <=? number_of_attributes)
              && (size_per_tuple <=? out_end - out)) eqn:Hcond.
    2: { assert (take (Z.to_nat ((out_end - out) / size_per_tuple))
                   (information_tuples services internal_128bit_uuid only_16_bit start end_)
                 = []) as ->.
         { destruct (Z.leb_spec start end_) as [Hle|Hgt];
             [|rewrite information_tuples_nil by lia; apply take_nil].
           destruct (Z.leb_spec start number_of_attributes) as [HleN|HgtN];
             [|rewrite information_tuples_nil by lia; apply take_nil].
           destruct (Z.leb_spec size_per_tuple (out_end - out)) as [Hroom|Hfull];
             [discriminate Hcond|].
           rewrite Z.div_small by lia. reflexivity. }
         cbn [length concat]. rewrite Z.mul_0_r, Z.add_0_r, app_nil_r.
         exists mem. split; [reflexivity|]. split; [lia|]. split; reflexivity. }
    apply andb_true_iff in Hcond as [Hcond Hroom].
    apply andb_true_iff in Hcond as [Hle HleN].
    apply Z.leb_le in Hle, HleN, Hroom.
    rewrite (size_t_small (start - 1)) by lia.
    destruct (attribute_at_Some services (start - 1) ltac:(lia)) as [attr Hattr].
    rewrite Hattr. cbn [mbind option_bind].
    assert (uint16 (start + 1) = start + 1) as Hnext
      by (unfold uint16; apply Z.mod_small; lia).
    rewrite Hnext.
    fold (has_16bit_uuid internal_128bit_uuid attr).
    rewrite (information_tuples_cons only_16_bit start end_ Hle HleN).
    assert (information_tuple services internal_128bit_uuid only_16_bit start
            = if Bool.eqb only_16_bit (has_16bit_uuid internal_128bit_uuid attr) then
                if only_16_bit
                then Some (handle_octets start ++ handle_octets (uuid attr))
                else char_declaration ← server.attribute_at services (start - 2);
                     Some (handle_octets start ++ long_uuid_octets char_declaration)
              else None) as ->
      by (unfold information_tuple; rewrite Hattr; reflexivity).
    destruct (Bool.eqb only_16_bit (has_16bit_uuid internal_128bit_uuid attr)) eqn:Heligible.
    2: { cbn [app].
         destruct (IH (start + 1) mem out ltac:(lia) ltac:(lia) ltac:(lia) ltac:(lia))
           as (mem' & Hrun & Hresult). cbv zeta in Hrun, Hresult.
         exists mem'. split; [exact Hrun|exact Hresult]. }
    apply Bool.eqb_prop in Heligible.
    assert (exists tuple_uuid,
              length tuple_uuid = Z.to_nat (size_per_tuple - 2)
              /\ (if only_16_bit
                  then Some (handle_octets start ++ handle_octets (uuid attr))
                  else char_declaration ← server.attribute_at services (start - 2);
                       Some (handle_octets start ++ long_uuid_octets char_declaration))
                 = Some (handle_octets start ++ tuple_uuid)
              /\ forall mem1 : list byte,
                   (if has_16bit_uuid internal_128bit_uuid attr
                    then '(mem, _) ← write_16bit_uuid mem1 (out + 2) (uuid attr); Some mem
                    else char_declaration ←
                           server.attribute_at services (size_t (start - 2));
                         server.write_128bit_uuid mem1 (out + 2) char_declaration)
                   = store mem1 (out + 2) tuple_uuid)
      as (tuple_uuid & Hlength & -> & Hwrite).
    { rewrite <- Heligible. subst size_per_tuple. destruct only_16_bit eqn:H16.
      - exists (handle_octets (uuid attr)). split; [reflexivity|]. split; [reflexivity|].
        intros mem1. unfold write_16bit_uuid, write_16bit.
        fold (handle_octets (uuid attr)).
        destruct (store mem1 (out + 2) (handle_octets (uuid attr))); reflexivity.
      - symmetry in Heligible. unfold has_16bit_uuid in Heligible.
        apply negb_false_iff, Z.eqb_eq in Heligible.
        destruct (Hwf (start - 1) attr Hattr Heligible) as (decl & Hdecl & Huuid & Hread).
        replace (start - 1 - 1) with (start - 2) in Hdecl by lia.
        pose proof (attribute_at_inv services _ _ Hdecl) as Hrange.
        rewrite size_t_small by lia. rewrite Hdecl. cbn [mbind option_bind].
        exists (long_uuid_octets decl).
        destruct (write_128bit_uuid_octets [] 0 decl Huuid Hread) as [Hsixteen _].
        split; [rewrite Hsixteen; reflexivity|]. split; [reflexivity|].
        intros mem1. apply write_128bit_uuid_octets; assumption. }
    rewrite write_handle_Some by lia. cbn [mbind option_bind].
    set (mem1 := take (Z.to_nat out) mem ++ handle_octets start
                 ++ drop (Z.to_nat out + 2) mem).
    assert (length mem1 = length mem) as Hlen1 by (subst mem1; list_len).
    assert (take (Z.to_nat (out + 2)) mem1 = take (Z.to_nat out) mem ++ handle_octets start)
      as Htake1.
    { subst mem1. rewrite app_assoc. apply take_app_length'. list_len. }
    rewrite Hwrite.
    destruct (store_step mem1 (out + 2) tuple_uuid ltac:(lia) ltac:(lia))
      as (mem2 & -> & Hlen2 & Htake2 & _).
    cbn [mbind option_bind].
    replace (out + 2 + Z.of_nat (length tuple_uuid)) with (out + size_per_tuple)
      in Htake2 by lia.
    rewrite Htake1 in Htake2.
    destruct (IH (start + 1) mem2 (out + size_per_tuple) ltac:(lia) ltac:(lia) ltac:(lia)
                ltac:(lia)) as (mem' & Hrun & Hout' & Hlen' & Htake').
    cbv zeta in Hrun, Hout', Htake'.
    assert ((out_end - out) / size_per_tuple
            = (out_end - (out + size_per_tuple)) / size_per_tuple + 1) as Hone.
    { replace (out_end - out) with (out_end - (out + size_per_tuple) + 1 * size_per_tuple)
        by lia.
      rewrite Z.div_add by lia. reflexivity. }
    assert (0 <= (out_end - (out + size_per_tuple)) / size_per_tuple) as Hquot'
      by (apply Z.div_pos; lia).
    rewrite Hone.
    replace (Z.to_nat ((out_end - (out + size_per_tuple)) / size_per_tuple + 1))
      with (S (Z.to_nat ((out_end - (out + size_per_tuple)) / size_per_tuple))) by lia.
    cbn [app take concat length].
    set (rest := take (Z.to_nat ((out_end - (out + size_per_tuple)) / size_per_tuple))
                   (information_tuples services internal_128bit_uuid only_16_bit (start + 1)
                      end_)) in *.
    replace (out + size_per_tuple * Z.of_nat (S (length rest)))
      with (out + size_per_tuple + size_per_tuple * Z.of_nat (length rest)) by lia.
    exists mem'. split; [exact Hrun|]. split; [exact Hout'|]. split; [lia|].
    rewrite Htake', Htake2. rewrite <- !app_assoc. reflexivity.
Qed.

(** A tuple has the size of the format. *)
Lemma information_tuple_length (only_16_bit : bool) (handle : Z) (tuple : list byte) :
  long_uuids_declared services internal_128bit_uuid ->
  information_tuple services internal_128bit_uuid only_16_bit handle = Some tuple ->
  Z.of_nat (length tuple) = if only_16_bit then 4 else 18.
Proof.
  intros Hwf. unfold information_tuple.
  destruct (server.attribute_at services (handle - 1)) as [attr|] eqn:Hattr; [|discriminate].
  cbn [mbind option_bind].
  destruct (Bool.eqb only_16_bit (has_16bit_uuid internal_128bit_uuid attr)) eqn:Heligible;
    [|discriminate].
  apply Bool.eqb_prop in Heligible.
  destruct only_16_bit.
  - intros [= <-]. reflexivity.
  - symmetry in Heligible. unfold has_16bit_uuid in Heligible.
    apply negb_false_iff, Z.eqb_eq in Heligible.
    destruct (Hwf (handle - 1) attr Hattr Heligible) as (decl & Hdecl & Huuid & Hread).
    replace (handle - 1 - 1) with (handle - 2) in Hdecl by lia.
    rewrite Hdecl. cbn [mbind option_bind]. intros Htuple.
    assert (tuple = handle_octets handle ++ long_uuid_octets decl) as -> by congruence.
    destruct (write_128bit_uuid_octets [] 0 decl Huuid Hread) as [Hsixteen _].
    rewrite length_app, length_handle_octets, Hsixteen. reflexivity.
Qed.

(** X9: a Find Information Request whose handles passed validation is
    answered with 0x05, the format that the UUID of the attribute with
    the starting handle has, and the tuples of the attributes of the
    range whose UUID has that format, in the order of their handles, as
    many as fit into the output: attributes with a UUID of the other
    format are left out, and the formats are never mixed. *)
Theorem find_information_response_tuples (input output : list byte) (out_size : Z)
    (starting_handle ending_handle : Z) :
  2 <= out_size <= Z.of_nat (length output) -> out_size < 2 ^ 64 ->
  number_of_attributes < 65535 ->
  long_uuids_declared services internal_128bit_uuid ->
  server.check_size_and_handle_range services 5 5 input output out_size
    = Some (check_true (starting_handle, ending_handle)) ->
  exists attr,
    server.attribute_at services (starting_handle - 1) = Some attr /\
    let only_16_bit := has_16bit_uuid internal_128bit_uuid attr in
    let size_per_tuple := if only_16_bit then 4 else 18 in
    let format := if only_16_bit then x01 else x02 in
    let tuples :=
      take (Z.to_nat ((out_size - 2) / size_per_tuple))
        (information_tuples services internal_128bit_uuid only_16_bit
           starting_handle ending_handle) in
    let size := 2 + size_per_tuple * Z.of_nat (length tuples) in
    exists output',
      server.handle_find_information_request services internal_128bit_uuid
        input output out_size = Some (output', size)
      /\ size <= out_size
      /\ pdu output' size = x05 :: format :: concat tuples
      /\ Forall (fun tuple => Z.of_nat (length tuple) = size_per_tuple) tuples.
Proof.
  intros Hout Hmax HN Hwf Hcheck.
  destruct (check_size_and_handle_range_true_inv services 5 5 input output out_size
              starting_handle ending_handle ltac:(lia) ltac:(lia) Hcheck)
    as (_ & opcode & s_lo & s_hi & e_lo & e_hi & rest & -> & Hs & He & H0 & Hle & HleN).
  pose proof (word16_range s_lo s_hi) as Hrange. rewrite <- Hs in Hrange.
  destruct (attribute_at_Some services (starting_handle - 1) ltac:(lia)) as [attr Hattr].
  exists attr. split; [exact Hattr|]. cbv zeta.
  unfold server.handle_find_information_request. rewrite Hcheck. cbn [mbind option_bind].
  rewrite size_t_small by lia. rewrite Hattr. cbn [mbind option_bind].
  fold (has_16bit_uuid internal_128bit_uuid attr).
  set (only_16_bit := has_16bit_uuid internal_128bit_uuid attr).
  rewrite store_Some by list_len. cbn [mbind option_bind].
  change (0 + 1) with 1. change (0 + out_size) with out_size.
  destruct (Z.eqb_spec 1 out_size); [lia|]. cbn [negb].
  rewrite store_Some by list_len. cbn [mbind option_bind].
  change (1 + 1) with 2.
  set (mem := take (Z.to_nat 1) _ ++ _ ++ _).
  assert (length mem = length output) as Hlen by (subst mem; list_len).
  assert (take 2 mem = [x05; if only_16_bit then x01 else x02]) as Hhead.
  { subst mem. change (Z.to_nat 0) with 0%nat. change (Z.to_nat 1) with 1%nat.
    rewrite take_0. cbn [app]. cbn [take].
    change (to_byte (bits att_opcodes.find_information_response)) with x05.
    destruct only_16_bit; reflexivity. }
  unfold server.collect_handle_uuid_tuples.
  destruct (collect_handle_uuid_tuples_loop_tuples only_16_bit ending_handle out_size HN Hwf
              Hmax (Z.to_nat (number_of_attributes + 1 - starting_handle)) starting_handle
              mem 2 ltac:(lia) ltac:(lia) ltac:(lia) ltac:(lia))
    as (mem' & Hrun & Hout' & Hlen' & Htake').
  cbv zeta in Hrun, Hout', Htake'. rewrite Hrun. cbn [mbind option_bind].
  set (tuples := take _ (information_tuples _ _ _ _ _)) in *.
  assert (4 <= (if only_16_bit then 4 else 18) <= 18) as Hwidth
    by (destruct only_16_bit; lia).
  exists mem'. rewrite Z.sub_0_r. rewrite size_t_small by (split; [nia|lia]).
  split; [reflexivity|]. split; [exact Hout'|]. split.
  - unfold pdu. rewrite Htake'. change (Z.to_nat 2) with 2%nat. rewrite Hhead. reflexivity.
  - subst tuples. apply Forall_take. unfold information_tuples.
    apply Forall_forall. intros tuple Hin.
    apply list_elem_of_omap in Hin as (handle & _ & Htuple).
    exact (information_tuple_length only_16_bit handle tuple Hwf Htuple).
Qed.

(** ** What a request leaves in the output *)

Lemma same_behind_refl (n : Z) (mem : list byte) : same_behind n mem mem.
Proof. split; reflexivity. Qed.

Lemma same_behind_trans (n : Z) (mem1 mem2 mem3 : list byte) :
  same_behind n mem1 mem2 -> same_behind n mem2 mem3 -> same_behind n mem1 mem3.
Proof. intros [H1 H2] [H3 H4]. split; congruence. Qed.

Lemma store_same_behind (mem : list byte) (pos : Z) (bytes mem' : list byte) (n : Z) :
  store mem pos bytes = Some mem' -> pos + Z.of_nat (length bytes) <= n ->
  same_behind n mem mem'.
Proof.
  intros Hstore Hn. destruct (store_inv _ _ _ _ Hstore) as (Hpos & Hend & _).
  destruct (store_step mem pos bytes Hpos Hend) as (mem'' & Hstore' & Hlen & _ & Hdrop).
  assert (mem'' = mem') as -> by congruence.
  split; [exact Hlen|]. apply Hdrop. lia.
Qed.

Lemma store_load_0 (mem : list byte) (b : byte) (bytes mem' : list byte) :
  store mem 0 (b :: bytes) = Some mem' -> load mem' 0 = Some b.
Proof.
  intros Hstore. destruct (store_inv _ _ _ _ Hstore) as (_ & _ & ->). reflexivity.
Qed.

Lemma load_0_take (mem mem' : list byte) (n : nat) :
  (1 <= n)%nat -> take n mem' = take n mem -> load mem' 0 = load mem 0.
Proof.
  intros Hn Htake. destruct n as [|n]; [lia|].
  destruct mem' as [|b' mem'], mem as [|b mem]; cbn [take] in Htake;
    try discriminate Htake; [reflexivity|].
  injection Htake as -> _. reflexivity.
Qed.

Lemma commit_same_behind (mem mem' : list byte) (begin end_ : Z)
    (args : attribute_access_arguments) (n : Z) :
  commit mem begin end_ args = Some mem' -> begin <= end_ <= n -> same_behind n mem mem'.
Proof.
  unfold commit. intros Hstore Hn. eapply store_same_behind; [exact Hstore|list_len].
Qed.

Lemma write_16bit_same_behind (mem mem' : list byte) (p p' value n : Z) :
  write_16bit mem p value = Some (mem', p') -> p + 2 <= n -> same_behind n mem mem'.
Proof.
  unfold write_16bit. intros Hwrite Hn.
  destruct (store mem p _) as [mem1|] eqn:Hstore; [|discriminate Hwrite].
  cbn [mbind option_bind] in Hwrite. injection Hwrite as <- <-.
  eapply store_same_behind; [exact Hstore|cbn [length]; lia].
Qed.

Lemma write_16bit_take (mem mem' : list byte) (p p' value : Z) (n : nat) :
  write_16bit mem p value = Some (mem', p') -> Z.of_nat n <= p ->
  take n mem' = take n mem /\ p' = p + 2.
Proof.
  unfold write_16bit. intros Hwrite Hn.
  destruct (store mem p _) as [mem1|] eqn:Hstore; [|discriminate Hwrite].
  cbn [mbind option_bind] in Hwrite. injection Hwrite as <- <-.
  split; [|reflexivity]. eapply take_store; [exact Hstore|lia].
Qed.

(** An Error Response in an output of at least five octets. *)
Lemma error_response_opens (opcode : byte) (error_code : att_error_codes.t) (handle : Z)
    (output : list byte) (out_size : Z) (output' : list byte) (size : Z) (response : byte) :
  5 <= out_size <= Z.of_nat (length output) ->
  server.error_response opcode error_code handle output out_size = Some (output', size) ->
  same_behind out_size output output' /\ opens_with opcode response output' size.
Proof.
  intros Hout. rewrite error_response_Some by lia. intros Heq.
  assert (output' = [x01; opcode; to_byte (Z.land handle 255); to_byte (Z.shiftr handle 8);
                     to_byte (bits error_code)] ++ drop 5 output /\ size = 5) as [-> ->]
    by (split; congruence).
  split.
  - split; [list_len|].
    rewrite drop_app_ge by (cbn [length]; lia). rewrite drop_drop. f_equal.
    cbn [length]. lia.
  - right. split; reflexivity.
Qed.

Lemma check_size_and_handle_range_opens (A B : Z) (input output : list byte) (out_size : Z)
    (opcode : byte) (output' : list byte) (size : Z) (response : byte) :
  5 <= A -> 5 <= B -> 5 <= out_size <= Z.of_nat (length output) ->
  load input 0 = Some opcode ->
  server.check_size_and_handle_range services A B input output out_size
    = Some (check_false output' size) ->
  same_behind out_size output output' /\ opens_with opcode response output' size.
Proof.
  intros HA HB Hout Hop Hcheck.
  assert (forall code handle,
            (opcode ← load input 0;
             '(output, out_size) ← server.error_response opcode code handle output out_size;
             Some (@check_false (Z * Z) output out_size)) = Some (check_false output' size) ->
            same_behind out_size output output' /\ opens_with opcode response output' size)
    as Herror.
  { intros code handle. rewrite Hop. cbn [mbind option_bind].
    destruct (server.error_response opcode code handle output out_size) as [[o s]|] eqn:He;
      [|discriminate].
    cbn [mbind option_bind]. intros [= <- <-].
    exact (error_response_opens opcode code handle output out_size o s response Hout He). }
  unfold server.check_size_and_handle_range in Hcheck.
  destruct (negb (server.in_size input =? A) && negb (server.in_size input =? B)).
  { exact (Herror _ _ Hcheck). }
  destruct (read_handle input 1) as [s|]; [|discriminate Hcheck].
  cbn [mbind option_bind] in Hcheck.
  destruct (read_handle input 3) as [e|]; [|discriminate Hcheck].
  cbn [mbind option_bind] in Hcheck.
  destruct ((s =? 0) || (e <? s)); [exact (Herror _ _ Hcheck)|].
  destruct (number_of_attributes <? s); [exact (Herror _ _ Hcheck)|discriminate Hcheck].
Qed.

Lemma check_handle_opens (input output : list byte) (out_size : Z)
    (opcode : byte) (output' : list byte) (size : Z) (response : byte) :
  5 <= out_size <= Z.of_nat (length output) ->
  load input 0 = Some opcode ->
  server.check_handle services input output out_size = Some (check_false output' size) ->
  same_behind out_size output output' /\ opens_with opcode response output' size.
Proof.
  intros Hout Hop Hcheck.
  assert (forall code handle,
            (opcode ← load input 0;
             '(output, out_size) ← server.error_response opcode code handle output out_size;
             Some (@check_false Z output out_size)) = Some (check_false output' size) ->
            same_behind out_size output output' /\ opens_with opcode response output' size)
    as Herror.
  { intros code handle. rewrite Hop. cbn [mbind option_bind].
    destruct (server.error_response opcode code handle output out_size) as [[o s]|] eqn:He;
      [|discriminate].
    cbn [mbind option_bind]. intros [= <- <-].
    exact (error_response_opens opcode code handle output out_size o s response Hout He). }
  unfold server.check_handle in Hcheck.
  destruct (read_handle input 1) as [h|]; [|discriminate Hcheck].
  cbn [mbind option_bind] in Hcheck.
  destruct (h =? 0); [exact (Herror _ _ Hcheck)|].
  destruct (number_of_attributes <? h); [exact (Herror _ _ Hcheck)|discriminate Hcheck].
Qed.

Lemma check_size_and_handle_opens (A B : Z) (input output : list byte) (out_size : Z)
    (opcode : byte) (output' : list byte) (size : Z) (response : byte) :
  5 <= out_size <= Z.of_nat (length output) ->
  load input 0 = Some opcode ->
  server.check_size_and_handle services A B input output out_size
    = Some (check_false output' size) ->
  same_behind out_size output output' /\ opens_with opcode response output' size.
Proof.
  intros Hout Hop Hcheck. unfold server.check_size_and_handle in Hcheck.
  destruct (negb (server.in_size input =? A) && negb (server.in_size input =? B)).
  - rewrite Hop in Hcheck. cbn [mbind option_bind] in Hcheck.
    unfold server.error_response_without_handle in Hcheck.
    destruct (server.error_response opcode att_error_codes.invalid_pdu 0 output out_size)
      as [[o s]|] eqn:He; [|discriminate Hcheck].
    cbn [mbind option_bind] in Hcheck. injection Hcheck as <- <-.
    exact (error_response_opens opcode _ 0 output out_size o s response Hout He).
  - exact (check_handle_opens input output out_size opcode output' size response Hout Hop
             Hcheck).
Qed.

Lemma exchange_mtu_request_leaves (input output : list byte) (out_size : Z)
    (connection : connection_data.t) (opcode : byte) (output' : list byte) (size : Z)
    (connection' : connection_data.t) :
  5 <= out_size <= Z.of_nat (length output) ->
  load input 0 = Some opcode ->
  server.handle_exchange_mtu_request input output out_size connection
    = Some (output', size, connection') ->
  same_behind out_size output output' /\ opens_with opcode x03 output' size
  /\ connection_data.server_mtu connection' = connection_data.server_mtu connection.
Proof.
  intros Hout Hop Hrun. unfold server.handle_exchange_mtu_request in Hrun.
  rewrite Hop in Hrun. cbn [mbind option_bind] in Hrun.
  unfold server.error_response_without_handle in Hrun.
  assert (forall r : option (list byte * Z),
            r = server.error_response opcode att_error_codes.invalid_pdu 0 output out_size ->
            (r ← r; Some (r, connection)) = Some (output', size, connection') ->
            same_behind out_size output output' /\ opens_with opcode x03 output' size
            /\ connection_data.server_mtu connection'
               = connection_data.server_mtu connection) as Herror.
  { intros r -> Heq.
    destruct (server.error_response opcode att_error_codes.invalid_pdu 0 output out_size)
      as [[o s]|] eqn:He; [|discriminate Heq].
    cbn [mbind option_bind] in Heq.
    assert (o = output' /\ s = size /\ connection = connection') as (-> & -> & ->)
      by (repeat split; congruence).
    destruct (error_response_opens opcode _ 0 output out_size output' size x03 Hout He).
    auto. }
  destruct (negb (server.in_size input =? 3)); [exact (Herror _ eq_refl Hrun)|].
  destruct (read_16bit input 1) as [mtu|]; [|discriminate Hrun].
  cbn [mbind option_bind] in Hrun.
  destruct (mtu <? default_att_mtu_size); [exact (Herror _ eq_refl Hrun)|].
  unfold connection_data.set_client_mtu in Hrun.
  destruct (decide (default_att_mtu_size <= mtu)) as [Hmtu|Hmtu].
  2: { rewrite option_guard_False in Hrun by exact Hmtu. discriminate Hrun. }
  rewrite option_guard_True in Hrun by exact Hmtu. cbn [mbind option_bind] in Hrun.
  destruct (store output 0 _) as [output1|] eqn:Hstore1; [|discriminate Hrun].
  cbn [mbind option_bind] in Hrun.
  destruct (write_16bit output1 1 _) as [[output2 p]|] eqn:Hwrite; [|discriminate Hrun].
  cbn [mbind option_bind] in Hrun.
  assert (output2 = output' /\ 3 = size) as [-> <-] by (split; congruence).
  assert (connection' = {| connection_data.server_mtu_ := connection_data.server_mtu_ connection;
                           connection_data.client_mtu_ := mtu |}) as -> by congruence.
  split; [|split; [|reflexivity]].
  - eapply same_behind_trans.
    + eapply store_same_behind; [exact Hstore1|cbn [length]; lia].
    + eapply write_16bit_same_behind; [exact Hwrite|lia].
  - left. destruct (write_16bit_take _ _ _ _ _ 1 Hwrite ltac:(lia)) as [Htake _].
    rewrite (load_0_take output1 output' 1 ltac:(lia) Htake).
    exact (store_load_0 _ _ _ _ Hstore1).
Qed.

Lemma write_request_leaves (input output : list byte) (out_size : Z) (opcode : byte)
    (output' : list byte) (size : Z) :
  5 <= out_size <= Z.of_nat (length output) ->
  load input 0 = Some opcode ->
  server.handle_write_request services input output out_size = Some (output', size) ->
  same_behind out_size output output' /\ opens_with opcode x13 output' size.
Proof.
  intros Hout Hop Hrun. unfold server.handle_write_request in Hrun.
  rewrite Hop in Hrun. cbn [mbind option_bind] in Hrun.
  unfold server.error_response_without_handle in Hrun.
  destruct (server.in_size input <? 3).
  { exact (error_response_opens opcode _ 0 output out_size output' size x13 Hout Hrun). }
  destruct (server.check_handle services input output out_size) as [[handle|o s]|] eqn:Hcheck;
    [| |discriminate Hrun]; cbn [mbind option_bind] in Hrun.
  2: { injection Hrun as <- <-.
       exact (check_handle_opens input output out_size opcode o s x13 Hout Hop Hcheck). }
  destruct (server.attribute_at services (size_t (handle - 1))) as [attr|];
    [|discriminate Hrun].
  cbn [mbind option_bind] in Hrun.
  destruct (access attr (write input 3 (0 + server.in_size input)) handle) as [rc args].
  destruct (bool_decide (rc = attribute_access_result.success)).
  - destruct (store output 0 _) as [output1|] eqn:Hstore; [|discriminate Hrun].
    cbn [mbind option_bind] in Hrun. injection Hrun as <- <-. split.
    + eapply store_same_behind; [exact Hstore|cbn [length]; lia].
    + left. exact (store_load_0 _ _ _ _ Hstore).
  - destruct (bool_decide (rc = attribute_access_result.write_overflow));
      exact (error_response_opens opcode _ handle output out_size output' size x13 Hout Hrun).
Qed.

(** The common part of Read and Read Blob. *)
Lemma read_outcome_leaves (output : list byte) (out_size : Z) (attr : attribute)
    (args : attribute_access_arguments) (handle : Z) (opcode response : byte)
    (fallback : attribute_access_result.t -> list byte -> option (list byte * Z))
    (output' : list byte) (size : Z) :
  5 <= out_size <= Z.of_nat (length output) ->
  (forall rc mem o s,
     length mem = length output -> fallback rc mem = Some (o, s) ->
     same_behind out_size mem o /\ opens_with opcode response o s) ->
  (let '(rc, read) := access attr args handle in
   output ← commit output (0 + 1) (0 + out_size) read;
   if bool_decide (rc = attribute_access_result.success)
      || bool_decide (rc = attribute_access_result.read_truncated)
   then output ← store output 0 [response]; Some (output, size_t (1 + buffer_size read))
   else fallback rc output) = Some (output', size) ->
  same_behind out_size output output' /\ opens_with opcode response output' size.
Proof.
  intros Hout Hfallback Hrun.
  destruct (access attr args handle) as [rc read'].
  destruct (commit output (0 + 1) (0 + out_size) read') as [output1|] eqn:Hcommit;
    [|discriminate Hrun].
  cbn [mbind option_bind] in Hrun.
  pose proof (commit_same_behind _ _ _ _ _ out_size Hcommit ltac:(lia)) as Hsame1.
  destruct (bool_decide (rc = attribute_access_result.success)
            || bool_decide (rc = attribute_access_result.read_truncated)).
  - destruct (store output1 0 [response]) as [output2|] eqn:Hstore; [|discriminate Hrun].
    cbn [mbind option_bind] in Hrun. injection Hrun as <- <-. split.
    + eapply same_behind_trans; [exact Hsame1|].
      eapply store_same_behind; [exact Hstore|cbn [length]; lia].
    + left. exact (store_load_0 _ _ _ _ Hstore).
  - destruct (Hfallback rc output1 output' size (proj1 Hsame1) Hrun) as [Hsame2 Hopens].
    split; [|exact Hopens]. eapply same_behind_trans; eassumption.
Qed.

Lemma read_request_leaves (input output : list byte) (out_size : Z) (opcode : byte)
    (output' : list byte) (size : Z) :
  5 <= out_size <= Z.of_nat (length output) ->
  load input 0 = Some opcode ->
  server.handle_read_request services input output out_size = Some (output', size) ->
  same_behind out_size output output' /\ opens_with opcode x0b output' size.
Proof.
  intros Hout Hop Hrun. unfold server.handle_read_request in Hrun.
  destruct (server.check_size_and_handle services 3 3 input output out_size)
    as [[handle|o s]|] eqn:Hcheck; [| |discriminate Hrun]; cbn [mbind option_bind] in Hrun.
  2: { injection Hrun as <- <-.
       exact (check_size_and_handle_opens 3 3 input output out_size opcode o s x0b Hout Hop
                Hcheck). }
  destruct (server.attribute_at services (size_t (handle - 1))) as [attr|];
    [|discriminate Hrun].
  cbn [mbind option_bind] in Hrun.
  refine (read_outcome_leaves output out_size attr _ handle opcode x0b
            (fun rc mem =>
               opcode ← load input 0;
               server.error_response opcode att_error_codes.read_not_permitted handle mem
                 out_size) output' size Hout _ Hrun).
  intros rc mem o s Hlen. rewrite Hop. cbn [mbind option_bind].
  apply error_response_opens. lia.
Qed.

Lemma read_blob_request_leaves (input output : list byte) (out_size : Z) (opcode : byte)
    (output' : list byte) (size : Z) :
  5 <= out_size <= Z.of_nat (length output) ->
  load input 0 = Some opcode ->
  server.handle_read_blob_request services input output out_size = Some (output', size) ->
  same_behind out_size output output' /\ opens_with opcode x0d output' size.
Proof.
  intros Hout Hop Hrun. unfold server.handle_read_blob_request in Hrun.
  destruct (server.check_size_and_handle services 5 5 input output out_size)
    as [[handle|o s]|] eqn:Hcheck; [| |discriminate Hrun]; cbn [mbind option_bind] in Hrun.
  2: { injection Hrun as <- <-.
       exact (check_size_and_handle_opens 5 5 input output out_size opcode o s x0d Hout Hop
                Hcheck). }
  destruct (read_16bit input 3) as [offset|]; [|discriminate Hrun].
  cbn [mbind option_bind] in Hrun.
  destruct (server.attribute_at services (size_t (handle - 1))) as [attr|];
    [|discriminate Hrun].
  cbn [mbind option_bind] in Hrun.
  refine (read_outcome_leaves output out_size attr _ handle opcode x0d
            (fun rc mem =>
               if bool_decide (rc = attribute_access_result.invalid_offset) then
                 opcode ← load input 0;
                 server.error_response opcode att_error_codes.invalid_offset handle mem
                   out_size
               else
                 opcode ← load input 0;
                 server.error_response opcode att_error_codes.read_not_permitted handle mem
                   out_size) output' size Hout _ Hrun).
  intros rc mem o s Hlen. rewrite Hop. cbn [mbind option_bind].
  destruct (bool_decide (rc = attribute_access_result.invalid_offset));
    apply error_response_opens; lia.
Qed.

Lemma find_by_type_groups_call_leaves (Service : service)
    (it : collect_find_by_type_groups.t) (mem : list byte) (handle : Z) (attr : attribute)
    (it' : collect_find_by_type_groups.t) (mem' : list byte) (found : bool) (n : Z) :
  collect_find_by_type_groups.call Service it mem handle attr = Some (it', mem', found) ->
  collect_find_by_type_groups.end_ it <= n ->
  same_behind n mem mem'
  /\ collect_find_by_type_groups.end_ it' = collect_find_by_type_groups.end_ it.
Proof.
  unfold collect_find_by_type_groups.call. intros Hcall Hend.
  destruct (Z.leb_spec 4 (collect_find_by_type_groups.end_ it
                          - collect_find_by_type_groups.current_ it)) as [Hroom|Hfull].
  2: { injection Hcall as <- <- <-. split; [apply same_behind_refl|reflexivity]. }
  unfold write_handle in Hcall.
  destruct (write_16bit mem _ handle) as [[mem1 current1]|] eqn:Hfirst; [|discriminate Hcall].
  cbn [mbind option_bind] in Hcall.
  destruct (write_16bit mem1 current1 _) as [[mem2 current2]|] eqn:Hsecond;
    [|discriminate Hcall].
  cbn [mbind option_bind] in Hcall. injection Hcall as <- <- <-.
  assert (current1 = collect_find_by_type_groups.current_ it + 2) as Hcurrent1.
  { unfold write_16bit in Hfirst. destruct (store mem _ _); [|discriminate Hfirst].
    cbn [mbind option_bind] in Hfirst. congruence. }
  split; [|reflexivity].
  eapply same_behind_trans.
  - eapply write_16bit_same_behind; [exact Hfirst|lia].
  - eapply write_16bit_same_behind; [exact Hsecond|lia].
Qed.

(** The walk of Find By Type Value writes in front of the end of the
    output only. *)
Lemma find_by_type_groups_walk_leaves (filter : Z -> attribute -> bool) (n : Z)
    (Services : list service) :
  forall (f f' : services_by_group.t) (mem mem' : list byte),
  for_each (services_by_group.each collect_find_by_type_groups.call filter) Services (f, mem)
    = Some (f', mem') ->
  collect_find_by_type_groups.end_ (services_by_group.iterator_ f) <= n ->
  same_behind n mem mem'.
Proof.
  induction Services as [|Service Services IH]; intros f f' mem mem' Hwalk Hend.
  - cbn [for_each] in Hwalk. injection Hwalk as <- <-. apply same_behind_refl.
  - cbn [for_each] in Hwalk.
    destruct (services_by_group.each collect_find_by_type_groups.call filter Service (f, mem))
      as [[f1 mem1]|] eqn:Heach; [|discriminate Hwalk].
    cbn [mbind option_bind] in Hwalk.
    assert (same_behind n mem mem1
            /\ collect_find_by_type_groups.end_ (services_by_group.iterator_ f1)
               = collect_find_by_type_groups.end_ (services_by_group.iterator_ f))
      as [Hsame1 Hend1].
    { rewrite services_by_group_each_unfold in Heach.
      destruct ((services_by_group.starting_handle_ f <=? services_by_group.index_ f)
                && (services_by_group.index_ f <=? services_by_group.ending_handle_ f)).
      2: { cbn [mbind option_bind] in Heach. injection Heach as <- <-.
           split; [apply same_behind_refl|reflexivity]. }
      cbv zeta in Heach.
      destruct (filter (services_by_group.index_ f)
                  (characteristic_declaration_attribute Service)).
      2: { cbn [mbind option_bind] in Heach. injection Heach as <- <-.
           split; [apply same_behind_refl|reflexivity]. }
      destruct (collect_find_by_type_groups.call Service (services_by_group.iterator_ f) mem
                  (services_by_group.index_ f) (characteristic_declaration_attribute Service))
        as [[[it1 m1] r]|] eqn:Hcall; [|discriminate Heach].
      cbn [mbind option_bind] in Heach. injection Heach as <- <-.
      destruct (find_by_type_groups_call_leaves _ _ _ _ _ _ _ _ n Hcall Hend)
        as [Hsame Hend1].
      split; [exact Hsame|exact Hend1]. }
    eapply same_behind_trans; [exact Hsame1|].
    eapply IH; [exact Hwalk|]. rewrite Hend1. exact Hend.
Qed.

Lemma find_by_type_value_request_leaves (input output : list byte) (out_size : Z)
    (opcode : byte) (output' : list byte) (size : Z) :
  5 <= out_size <= Z.of_nat (length output) ->
  load input 0 = Some opcode ->
  server.handle_find_by_type_value_request services input output out_size
    = Some (output', size) ->
  same_behind out_size output output' /\ opens_with opcode x07 output' size.
Proof.
  intros Hout Hop Hrun. unfold server.handle_find_by_type_value_request in Hrun.
  destruct (server.check_size_and_handle_range services 9 23 input output out_size)
    as [[[s e]|o1 s1]|] eqn:Hcheck; [| |discriminate Hrun]; cbn [mbind option_bind] in Hrun.
  2: { injection Hrun as <- <-.
       exact (check_size_and_handle_range_opens 9 23 input output out_size opcode o1 s1 x07
                ltac:(lia) ltac:(lia) Hout Hop Hcheck). }
  destruct (read_handle input 5) as [requested_type|]; [|discriminate Hrun].
  cbn [mbind option_bind] in Hrun. rewrite Hop in Hrun. cbn [mbind option_bind] in Hrun.
  destruct (negb (requested_type =? gatt_uuids.primary_service)).
  { exact (error_response_opens opcode _ s output out_size output' size x07 Hout Hrun). }
  unfold server.all_services_by_group in Hrun.
  match type of Hrun with
  | context [for_each ?each services (?f, output)] =>
    destruct (for_each each services (f, output)) as [[f' mem']|] eqn:Hwalk;
      [|discriminate Hrun];
    pose proof (find_by_type_groups_walk_leaves _ out_size services f f' output mem' Hwalk
                  ltac:(cbn; lia)) as Hsame
  end.
  cbn [mbind option_bind] in Hrun.
  destruct (services_by_group.found_ f').
  - destruct (store mem' 0 _) as [output1|] eqn:Hstore; [|discriminate Hrun].
    cbn [mbind option_bind] in Hrun. injection Hrun as <- <-. split.
    + eapply same_behind_trans; [exact Hsame|].
      eapply store_same_behind; [exact Hstore|cbn [length]; lia].
    + left. exact (store_load_0 _ _ _ _ Hstore).
  - destruct (error_response_opens opcode _ s mem' out_size output' size x07
                ltac:(destruct Hsame as [Hlen _]; lia) Hrun) as [Hsame2 Hopens].
    split; [|exact Hopens]. eapply same_behind_trans; eassumption.
Qed.

Lemma collect_attributes_call_leaves (it : collect_attributes.t) (mem : list byte)
    (handle : Z) (attr : attribute) (it' : collect_attributes.t) (mem' : list byte) (n : Z) :
  collect_attributes.call it mem handle attr = Some (it', mem') ->
  collect_attributes.current_ it <= collect_attributes.end_ it ->
  collect_attributes.end_ it <= n -> collect_attributes.end_ it < 2 ^ 64 ->
  0 <= collect_attributes.current_ it ->
  same_behind n mem mem'.
Proof.
  unfold collect_attributes.call, collect_attributes.header_size,
    collect_attributes.maximum_pdu_size.
  intros Hcall Hcurrent Hend Hmax H0.
  rewrite (size_t_small (collect_attributes.end_ it - collect_attributes.current_ it))
    in Hcall by lia.
  destruct (Z.leb_spec 2 (collect_attributes.end_ it - collect_attributes.current_ it))
    as [Hroom|Hfull]; [|injection Hcall as <- <-; apply same_behind_refl].
  rewrite size_t_small in Hcall by lia.
  destruct (access attr _ handle) as [rc read'].
  destruct (commit mem _ _ read') as [mem1|] eqn:Hcommit; [|discriminate Hcall].
  cbn [mbind option_bind] in Hcall.
  pose proof (commit_same_behind _ _ _ _ _ n Hcommit ltac:(lia)) as Hsame1.
  destruct (bool_decide (rc = attribute_access_result.success)
            || bool_decide (rc = attribute_access_result.read_truncated)
               && (buffer_size read' =? 253));
    [|injection Hcall as <- <-; exact Hsame1].
  destruct (decide (buffer_size read' <= 253)) as [Hsize|Hsize].
  2: { rewrite option_guard_False in Hcall by exact Hsize. discriminate Hcall. }
  rewrite option_guard_True in Hcall by exact Hsize. cbn [mbind option_bind] in Hcall.
  match type of Hcall with
  | (if ?c then _ else _) = _ => destruct c; [|injection Hcall as <- <-; exact Hsame1]
  end.
  unfold write_handle in Hcall.
  match type of Hcall with
  | context [write_16bit mem1 ?p handle] =>
    destruct (write_16bit mem1 p handle) as [[mem2 current2]|] eqn:Hwrite;
      [|discriminate Hcall];
    assert (p = collect_attributes.current_ it) as Hp by (destruct (collect_attributes.first_ it); reflexivity)
  end.
  cbn [mbind option_bind] in Hcall. injection Hcall as <- <-.
  eapply same_behind_trans; [exact Hsame1|].
  eapply write_16bit_same_behind; [exact Hwrite|lia].
Qed.

(** The walk of Read By Type writes in front of the end of the output
    only. *)
Lemma all_attributes_leaves (filter : Z -> attribute -> bool) (ending_handle : Z) (n : Z) :
  number_of_attributes < 65535 ->
  reads_within_buffer services ->
  forall (fuel : nat) (starting_handle : Z) (it it' : collect_attributes.t)
         (mem mem' : list byte),
  server.all_attributes_loop services collect_attributes.call filter fuel
    starting_handle ending_handle it mem = Some (it', mem') ->
  1 <= starting_handle ->
  well_packed it -> 0 <= collect_attributes.begin_ it ->
  collect_attributes.end_ it <= Z.of_nat (length mem) ->
  collect_attributes.end_ it <= n ->
  collect_attributes.end_ it < 2 ^ 64 ->
  same_behind n mem mem'.
Proof.
  intros HN Hcontract.
  induction fuel as [|fuel IH];
    intros starting_handle it it' mem mem' Hrun Hstart Hpacked Hbegin Hlen Hend Hmax;
    cbn [server.all_attributes_loop] in Hrun;
    destruct ((starting_handle <=? ending_handle)
              && (starting_handle <=? number_of_attributes)) eqn:Hcond;
    try discriminate Hrun;
    try (injection Hrun as <- <-; apply same_behind_refl).
  apply andb_true_iff in Hcond as [Hle HleN]. apply Z.leb_le in Hle, HleN.
  rewrite size_t_small in Hrun by lia.
  destruct (server.attribute_at services (starting_handle - 1)) as [attr|] eqn:Hattr;
    [|discriminate Hrun].
  cbn [mbind option_bind] in Hrun.
  assert (uint16 (starting_handle + 1) = starting_handle + 1) as Hnext
    by (unfold uint16; apply Z.mod_small; lia).
  rewrite Hnext in Hrun.
  destruct (filter starting_handle attr).
  - destruct (collect_attributes_call_packed it mem starting_handle attr Hpacked Hbegin Hlen
                Hmax (Hcontract _ _ Hattr))
      as (it1 & mem1 & Hcall & Hpacked1 & Hbegin1 & Hend1 & Hlen1).
    rewrite Hcall in Hrun. cbn [mbind option_bind] in Hrun.
    destruct Hpacked as [Hcurrent _].
    pose proof (collect_attributes_call_leaves it mem starting_handle attr it1 mem1 n Hcall
                  ltac:(lia) Hend Hmax ltac:(lia)) as Hsame1.
    eapply same_behind_trans; [exact Hsame1|].
    eapply (IH (starting_handle + 1) it1 it' mem1 mem' Hrun); lia || assumption.
  - cbn [mbind option_bind] in Hrun.
    eapply (IH (starting_handle + 1) it it' mem mem' Hrun); lia || assumption.
Qed.

Lemma read_by_type_request_leaves (input output : list byte) (out_size : Z)
    (opcode : byte) (output' : list byte) (size : Z) :
  5 <= out_size <= Z.of_nat (length output) -> out_size < 2 ^ 64 ->
  number_of_attributes < 65535 ->
  reads_within_buffer services ->
  load input 0 = Some opcode ->
  server.handle_read_by_type_request services uuid_filter input output out_size
    = Some (output', size) ->
  same_behind out_size output output' /\ opens_with opcode x09 output' size.
Proof.
  intros Hout Hmax HN Hcontract Hop Hrun.
  unfold server.handle_read_by_type_request in Hrun.
  destruct (server.check_size_and_handle_range services (5 + 2) (5 + 16) input output out_size)
    as [[[s e]|o1 s1]|] eqn:Hcheck; [| |discriminate Hrun]; cbn [mbind option_bind] in Hrun.
  2: { injection Hrun as <- <-.
       exact (check_size_and_handle_range_opens (5 + 2) (5 + 16) input output out_size
                opcode o1 s1 x09 ltac:(lia) ltac:(lia) Hout Hop Hcheck). }
  destruct (check_size_and_handle_range_true_inv services (5 + 2) (5 + 16) input output
              out_size s e ltac:(lia) ltac:(lia) Hcheck)
    as (_ & opcode' & s_lo & s_hi & e_lo & e_hi & rest & Hinput & Hs & He & H0 & Hle & HleN).
  pose proof (word16_range s_lo s_hi) as Hrange. rewrite <- Hs in Hrange.
  unfold server.all_attributes in Hrun.
  change (0 + 2) with 2 in Hrun. change (0 + out_size) with out_size in Hrun.
  assert (well_packed (collect_attributes.make 2 out_size)) as Hpacked0
    by (unfold well_packed, collect_attributes.make; cbn; lia).
  match type of Hrun with
  | context [server.all_attributes_loop _ _ ?f ?fuel _ _ _ _] =>
    destruct (server.all_attributes_loop services collect_attributes.call f fuel s e
                (collect_attributes.make 2 out_size) output) as [[it' mem']|] eqn:Hloop;
      [|discriminate Hrun];
    pose proof (all_attributes_leaves f e out_size HN Hcontract fuel s
                  (collect_attributes.make 2 out_size) it' output mem'
                  Hloop ltac:(lia) Hpacked0 ltac:(cbn; lia) ltac:(cbn; lia)
                  ltac:(cbn; lia) ltac:(cbn; lia)) as Hsame
  end.
  cbn [mbind option_bind] in Hrun. rewrite Hop in Hrun.
  destruct (negb (collect_attributes.empty it')).
  - destruct (store mem' 0 _) as [output1|] eqn:Hstore1; [|discriminate Hrun].
    cbn [mbind option_bind] in Hrun.
    destruct (store output1 1 _) as [output2|] eqn:Hstore2; [|discriminate Hrun].
    cbn [mbind option_bind] in Hrun. injection Hrun as <- <-. split.
    + eapply same_behind_trans; [exact Hsame|].
      eapply same_behind_trans.
      * eapply store_same_behind; [exact Hstore1|cbn [length]; lia].
      * eapply store_same_behind; [exact Hstore2|cbn [length]; lia].
    + left.
      rewrite (load_0_take output1 output2 1 ltac:(lia)
                 (take_store _ _ _ _ 1 Hstore2 ltac:(lia))).
      exact (store_load_0 _ _ _ _ Hstore1).
  - cbn [mbind option_bind] in Hrun.
    destruct (error_response_opens opcode _ s mem' out_size output' size x09
                ltac:(destruct Hsame as [Hlen _]; lia) Hrun) as [Hsame2 Hopens].
    split; [|exact Hopens]. eapply same_behind_trans; eassumption.
Qed.

Lemma write_128bit_uuid_leaves (mem : list byte) (out : Z) (char_declaration : attribute)
    (mem' : list byte) (n : Z) :
  server.write_128bit_uuid mem out char_declaration = Some mem' ->
  out + 16 <= n ->
  same_behind n mem mem'
  /\ forall k : nat, Z.of_nat k <= out -> take k mem' = take k mem.
Proof.
  unfold server.write_128bit_uuid. intros Hwrite Hn.
  destruct (decide (uuid char_declaration = gatt_uuids.characteristic)) as [Huuid|Huuid].
  2: { rewrite option_guard_False in Hwrite by exact Huuid. discriminate Hwrite. }
  rewrite option_guard_True in Hwrite by exact Huuid. cbn [mbind option_bind] in Hwrite.
  destruct (access char_declaration _ 1) as [rc read'].
  destruct (decide (buffer_size read' = 3 + 16)) as [Hsize|Hsize].
  2: { rewrite option_guard_False in Hwrite by exact Hsize. discriminate Hwrite. }
  rewrite option_guard_True in Hwrite by exact Hsize. cbn [mbind option_bind] in Hwrite.
  destruct (commit _ 0 (3 + 16) read') as [buffer|]; [|discriminate Hwrite].
  cbn [mbind option_bind] in Hwrite.
  pose proof (length_region_le buffer 3 (3 + 16)) as Hregion.
  split.
  - eapply store_same_behind; [exact Hwrite|lia].
  - intros k Hk. eapply take_store; [exact Hwrite|lia].
Qed.

(** The loop of Find Information writes between [out] and [out_end]
    only. *)
Lemma collect_handle_uuid_tuples_loop_leaves (only_16_bit : bool) (end_ out_end n : Z) :
  out_end <= n -> out_end < 2 ^ 64 ->
  forall (fuel : nat) (start : Z) (mem : list byte) (out : Z) (mem' : list byte) (out' : Z),
  server.collect_handle_uuid_tuples_loop services internal_128bit_uuid fuel start end_
    only_16_bit mem out out_end = Some (mem', out') ->
  0 <= out <= out_end ->
  same_behind n mem mem' /\ take (Z.to_nat out) mem' = take (Z.to_nat out) mem.
Proof.
  intros Hn Hmax.
  induction fuel as [|fuel IH]; intros start mem out mem' out' Hrun Hout;
    cbn [server.collect_handle_uuid_tuples_loop] in Hrun;
    rewrite (size_t_small (out_end - out)) in Hrun by lia;
    destruct ((start <=? end_) && (start <=? number_of_attributes)
              && ((if only_16_bit then 2 + 2 else 2 + 16) <=? out_end - out)) eqn:Hcond;
    try discriminate Hrun;
    try (injection Hrun as <- <-; split; [apply same_behind_refl|reflexivity]).
  apply andb_true_iff in Hcond as [_ Hroom]. apply Z.leb_le in Hroom.
  destruct (server.attribute_at services (size_t (start - 1))) as [attr|];
    [|discriminate Hrun].
  cbn [mbind option_bind] in Hrun.
  destruct (eqb only_16_bit (negb (uuid attr =? internal_128bit_uuid))) eqn:Heligible.
  2: { exact (IH _ mem out mem' out' Hrun Hout). }
  apply Bool.eqb_prop in Heligible.
  unfold write_handle in Hrun.
  destruct (write_16bit mem out start) as [[mem1 p1]|] eqn:Hhandle; [|discriminate Hrun].
  cbn [mbind option_bind] in Hrun.
  assert (4 <= (if only_16_bit then 2 + 2 else 2 + 16)) as Hwidth
    by (destruct only_16_bit; lia).
  pose proof (write_16bit_same_behind _ _ _ _ _ n Hhandle ltac:(lia)) as Hsame1.
  destruct (write_16bit_take _ _ _ _ _ (Z.to_nat out) Hhandle ltac:(lia)) as [Htake1 _].
  match type of Hrun with
  | (?written ≫= _) = _ => destruct written as [mem2|] eqn:Huuid; [|discriminate Hrun]
  end.
  cbn [mbind option_bind] in Hrun.
  assert (same_behind n mem1 mem2
          /\ take (Z.to_nat out) mem2 = take (Z.to_nat out) mem1) as [Hsame2 Htake2].
  { rewrite <- Heligible in Huuid. destruct only_16_bit.
    - unfold write_16bit_uuid in Huuid.
      destruct (write_16bit mem1 (out + 2) (uuid attr)) as [[m p]|] eqn:Hwrite;
        [|discriminate Huuid].
      cbn [mbind option_bind] in Huuid. injection Huuid as ->. split.
      + eapply write_16bit_same_behind; [exact Hwrite|lia].
      + eapply write_16bit_take; [exact Hwrite|lia].
    - destruct (server.attribute_at services (size_t (start - 2))) as [decl|];
        [|discriminate Huuid].
      cbn [mbind option_bind] in Huuid.
      destruct (write_128bit_uuid_leaves mem1 (out + 2) decl mem2 n Huuid ltac:(lia))
        as [Hsame Htake].
      split; [exact Hsame|]. apply Htake. lia. }
  destruct (IH _ mem2 _ mem' out' Hrun ltac:(lia)) as [Hsame3 Htake3].
  split.
  - eapply same_behind_trans; [exact Hsame1|].
    eapply same_behind_trans; [exact Hsame2|exact Hsame3].
  - rewrite <- Htake1, <- Htake2.
    transitivity (take (Z.to_nat out)
                    (take (Z.to_nat (out + (if only_16_bit then 2 + 2 else 2 + 16))) mem')).
    + rewrite take_take. f_equal. lia.
    + rewrite Htake3, take_take. f_equal. lia.
Qed.

Lemma find_information_request_leaves (input output : list byte) (out_size : Z)
    (opcode : byte) (output' : list byte) (size : Z) :
  5 <= out_size <= Z.of_nat (length output) -> out_size < 2 ^ 64 ->
  load input 0 = Some opcode ->
  server.handle_find_information_request services internal_128bit_uuid input output out_size
    = Some (output', size) ->
  same_behind out_size output output' /\ opens_with opcode x05 output' size.
Proof.
  intros Hout Hmax Hop Hrun. unfold server.handle_find_information_request in Hrun.
  destruct (server.check_size_and_handle_range services 5 5 input output out_size)
    as [[[s e]|o1 s1]|] eqn:Hcheck; [| |discriminate Hrun]; cbn [mbind option_bind] in Hrun.
  2: { injection Hrun as <- <-.
       exact (check_size_and_handle_range_opens 5 5 input output out_size opcode o1 s1 x05
                ltac:(lia) ltac:(lia) Hout Hop Hcheck). }
  destruct (server.attribute_at services (size_t (s - 1))) as [attr|]; [|discriminate Hrun].
  cbn [mbind option_bind] in Hrun.
  destruct (store output 0 _) as [output1|] eqn:Hstore1; [|discriminate Hrun].
  cbn [mbind option_bind] in Hrun.
  change (0 + 1) with 1 in Hrun. change (0 + out_size) with out_size in Hrun.
  destruct (Z.eqb_spec 1 out_size); [lia|]. cbn [negb] in Hrun.
  destruct (store output1 1 _) as [output2|] eqn:Hstore2; [|discriminate Hrun].
  cbn [mbind option_bind] in Hrun. change (1 + 1) with 2 in Hrun.
  unfold server.collect_handle_uuid_tuples in Hrun.
  match type of Hrun with
  | (?loop ≫= _) = _ => destruct loop as [[mem' out']|] eqn:Hloop; [|discriminate Hrun]
  end.
  cbn [mbind option_bind] in Hrun. injection Hrun as <- <-.
  destruct (collect_handle_uuid_tuples_loop_leaves _ _ out_size out_size ltac:(lia) Hmax
              _ _ _ _ _ _ Hloop ltac:(lia)) as [Hsame3 Htake3].
  split.
  - eapply same_behind_trans.
    + eapply store_same_behind; [exact Hstore1|cbn [length]; lia].
    + eapply same_behind_trans; [|exact Hsame3].
      eapply store_same_behind; [exact Hstore2|cbn [length]; lia].
  - left. change (Z.to_nat 2) with 2%nat in Htake3.
    rewrite (load_0_take output2 mem' 2 ltac:(lia) Htake3).
    rewrite (load_0_take output1 output2 1 ltac:(lia)
               (take_store _ _ _ _ 1 Hstore2 ltac:(lia))).
    exact (store_load_0 _ _ _ _ Hstore1).
Qed.

Lemma collect_primary_services_each_leaves (Service : service)
    (f f' : collect_primary_services.t) (mem mem' : list byte) :
  collect_primary_services.each Service (f, mem) = Some (f', mem') ->
  response_within_buffer Service -> response_writes_within Service ->
  2 <= collect_primary_services.output_ f <= collect_primary_services.end_ f ->
  collect_primary_services.end_ f <= Z.of_nat (length mem) ->
  collect_primary_services.attribute_data_size_ f = 1 ->
  same_behind (collect_primary_services.end_ f) mem mem' /\ take 1 mem' = take 1 mem.
Proof.
  intros Heach Hwithin Hwrites Hout Hend Hsize.
  assert (forall (m1 : list byte) (is_128bit : bool) (m2 : list byte) (out2 : Z),
            length m1 = length mem ->
            read_primary_service_response Service m1 (collect_primary_services.output_ f)
              (collect_primary_services.end_ f) (collect_primary_services.index_ f) is_128bit
            = (m2, out2) ->
            same_behind (collect_primary_services.end_ f) m1 m2 /\ take 1 m2 = take 1 m1)
    as Hresponse.
  { intros m1 is_128bit m2 out2 Hlen1 Hcall.
    pose proof (Hwithin m1 (collect_primary_services.output_ f)
                  (collect_primary_services.end_ f) (collect_primary_services.index_ f)
                  is_128bit ltac:(lia) ltac:(lia)) as H1.
    pose proof (Hwrites m1 (collect_primary_services.output_ f)
                  (collect_primary_services.end_ f) (collect_primary_services.index_ f)
                  is_128bit ltac:(lia) ltac:(lia)) as H2.
    rewrite Hcall in H1, H2. destruct H1 as [_ Hlen2]. destruct H2 as [Htake Hdrop].
    split; [split; assumption|].
    transitivity (take 1 (take (Z.to_nat (collect_primary_services.output_ f)) m2)).
    - rewrite take_take. f_equal. lia.
    - rewrite Htake, take_take. f_equal. lia. }
  unfold collect_primary_services.each in Heach.
  destruct ((collect_primary_services.starting_handle_ f <=? collect_primary_services.index_ f)
            && (collect_primary_services.index_ f <=? collect_primary_services.ending_handle_ f)).
  2: { cbn [mbind option_bind] in Heach. injection Heach as _ <-.
       split; [apply same_behind_refl|reflexivity]. }
  destruct (collect_primary_services.first_ f).
  - cbv zeta in Heach. rewrite Hsize in Heach.
    destruct (store mem 1 _) as [m1|] eqn:Hstore; [|discriminate Heach].
    cbn [mbind option_bind] in Heach.
    cbn [collect_primary_services.output_ collect_primary_services.end_
           collect_primary_services.index_ collect_primary_services.is_128bit_uuid_]
      in Heach.
    destruct (read_primary_service_response Service m1 _ _ _ _) as [m2 out2] eqn:Hcall.
    cbn [mbind option_bind] in Heach. injection Heach as _ <-.
    pose proof (store_same_behind _ _ _ _ (collect_primary_services.end_ f) Hstore
                  ltac:(cbn [length]; lia)) as Hsame1.
    destruct (Hresponse m1 _ m2 out2 (proj1 Hsame1) Hcall) as [Hsame2 Htake2].
    split; [eapply same_behind_trans; eassumption|].
    rewrite Htake2. eapply take_store; [exact Hstore|lia].
  - cbn [mbind option_bind] in Heach.
    destruct (read_primary_service_response Service mem _ _ _ _) as [m2 out2] eqn:Hcall.
    cbn [mbind option_bind] in Heach. injection Heach as _ <-.
    exact (Hresponse mem _ m2 out2 eq_refl Hcall).
Qed.

(** The walk of Read By Group Type writes between the opcode and the end
    of the output only. *)
Lemma collect_primary_services_walk_leaves (Services : list service) :
  Forall response_within_buffer Services -> Forall response_writes_within Services ->
  forall (f f' : collect_primary_services.t) (mem mem' : list byte),
  for_each collect_primary_services.each Services (f, mem) = Some (f', mem') ->
  2 <= collect_primary_services.output_ f <= collect_primary_services.end_ f ->
  collect_primary_services.end_ f <= Z.of_nat (length mem) ->
  collect_primary_services.attribute_data_size_ f = 1 ->
  same_behind (collect_primary_services.end_ f) mem mem' /\ take 1 mem' = take 1 mem.
Proof.
  intros Hwithin. induction Hwithin as [|Service Services Hservice _ IH];
    intros Hwrites f f' mem mem' Hwalk Hout Hend Hsize.
  - cbn [for_each] in Hwalk. injection Hwalk as _ <-.
    split; [apply same_behind_refl|reflexivity].
  - apply Forall_cons in Hwrites as [Hwrite Hwrites]. cbn [for_each] in Hwalk.
    destruct (collect_primary_services_each_within Service f mem Hservice Hout Hend Hsize)
      as (f1 & mem1 & Heach & Hout1 & Hend1 & Hsize1 & Hlen1).
    rewrite Heach in Hwalk. cbn [mbind option_bind] in Hwalk.
    destruct (collect_primary_services_each_leaves Service f f1 mem mem1 Heach Hservice
                Hwrite Hout Hend Hsize) as [Hsame1 Htake1].
    destruct (IH Hwrites f1 f' mem1 mem' Hwalk ltac:(lia) ltac:(lia) Hsize1)
      as [Hsame2 Htake2].
    rewrite Hend1 in Hsame2.
    split; [eapply same_behind_trans; eassumption|congruence].
Qed.

Lemma read_by_group_type_request_leaves (input output : list byte) (out_size : Z)
    (opcode : byte) (output' : list byte) (size : Z) :
  5 <= out_size <= Z.of_nat (length output) ->
  Forall response_within_buffer services -> Forall response_writes_within services ->
  load input 0 = Some opcode ->
  server.handle_read_by_group_type_request services input output out_size
    = Some (output', size) ->
  same_behind out_size output output' /\ opens_with opcode x11 output' size.
Proof.
  intros Hout Hwithin Hwrites Hop Hrun.
  unfold server.handle_read_by_group_type_request in Hrun.
  destruct (server.check_size_and_handle_range services (5 + 2) (5 + 16) input output out_size)
    as [[[s e]|o1 s1]|] eqn:Hcheck; [| |discriminate Hrun]; cbn [mbind option_bind] in Hrun.
  2: { injection Hrun as <- <-.
       exact (check_size_and_handle_range_opens (5 + 2) (5 + 16) input output out_size
                opcode o1 s1 x11 ltac:(lia) ltac:(lia) Hout Hop Hcheck). }
  match type of Hrun with
  | (?unsupported ≫= _) = _ => destruct unsupported as [[|]|]; [| |discriminate Hrun]
  end; cbn [mbind option_bind] in Hrun; rewrite Hop in Hrun; cbn [mbind option_bind] in Hrun.
  { exact (error_response_opens opcode _ s output out_size output' size x11 Hout Hrun). }
  unfold write_opcode in Hrun.
  destruct (store output 0 _) as [output1|] eqn:Hstore; [|discriminate Hrun].
  cbn [mbind option_bind] in Hrun.
  unfold collect_primary_services.make in Hrun. change (0 + 1 + 1) with 2 in Hrun.
  change (0 + out_size) with out_size in Hrun. change (2 - 1) with 1 in Hrun.
  pose proof (store_same_behind _ _ _ _ out_size Hstore ltac:(cbn [length]; lia)) as Hsame1.
  match type of Hrun with
  | context [for_each ?each services (?f, output1)] =>
    destruct (for_each each services (f, output1)) as [[f' mem']|] eqn:Hwalk;
      [|discriminate Hrun];
    destruct (collect_primary_services_walk_leaves services Hwithin Hwrites f f' output1 mem'
                Hwalk ltac:(cbn; lia) ltac:(cbn; destruct Hsame1; lia) eq_refl)
      as [Hsame2 Htake2]
  end.
  cbn [collect_primary_services.end_] in Hsame2.
  cbn [mbind option_bind] in Hrun.
  destruct (collect_primary_services.output_ f' =? 2).
  - destruct (error_response_opens opcode _ s mem' out_size output' size x11
                ltac:(destruct Hsame1, Hsame2; lia) Hrun) as [Hsame3 Hopens].
    split; [|exact Hopens].
    eapply same_behind_trans; [exact Hsame1|]. eapply same_behind_trans; eassumption.
  - injection Hrun as <- <-. split.
    + eapply same_behind_trans; eassumption.
    + left. rewrite (load_0_take output1 mem' 1 ltac:(lia) Htake2).
      exact (store_load_0 _ _ _ _ Hstore).
Qed.

(** ** The dispatcher *)

(** The opcodes that the dispatcher tells apart. *)
Lemma att_opcodes_of_bits (z : Z) (opcode : att_opcodes.t) :
  att_opcodes_of z = Some opcode -> z = bits opcode.
Proof.
  unfold att_opcodes_of.
  repeat match goal with
         | |- context [z =? ?c] => destruct (Z.eqb_spec z c) as [->|_]
         end; intros [= <-]; reflexivity.
Qed.

(** Every request is answered: with a response of at least one octet
    that lies in front of the clipped size of the output, that opens with
    the opcode of the request and one or is an Error Response to it, and
    that leaves the MTU of the server as it is and the connection too
    unless the opcode is that of an Exchange MTU Request. *)
Lemma l2cap_input_answers (opcode : byte) (rest output : list byte) (out_size : Z)
    (connection : connection_data.t) :
  23 <= out_size <= Z.of_nat (length output) ->
  connection_valid connection ->
  number_of_attributes < 65535 ->
  long_uuids_declared services internal_128bit_uuid ->
  reads_within_buffer services ->
  Forall response_within_buffer services ->
  Forall response_writes_within services ->
  let clipped := Z.min out_size (connection_data.negotiated_mtu connection) in
  exists output' size connection',
    server.l2cap_input services internal_128bit_uuid uuid_filter (opcode :: rest) output
      out_size connection = Some (output', size, connection')
    /\ 1 <= size <= clipped
    /\ same_behind clipped output output'
    /\ opens_with opcode (to_byte (byte_val opcode + 1)) output' size
    /\ connection_data.server_mtu connection' = connection_data.server_mtu connection
    /\ (byte_val opcode <> 0x02 -> connection' = connection)
    /\ connection_valid connection'.
Proof.
  intros Hout Hvalid HN Hwf Hreads Hwithin Hwrites clipped.
  unfold server.l2cap_input. fold clipped.
  assert (23 <= clipped <= Z.of_nat (length output) /\ clipped < 2 ^ 64)
    as (Hclipped & Hmax).
  { subst clipped. destruct Hvalid as [Hserver Hclient].
    unfold connection_data.negotiated_mtu, default_att_mtu_size in *. lia. }
  rewrite option_guard_True by (unfold server.in_size; cbn [length]; lia).
  cbn [mbind option_bind].
  unfold default_att_mtu_size. rewrite option_guard_True by lia. cbn [mbind option_bind].
  set (input := opcode :: rest).
  assert (load input 0 = Some opcode) as Hop by reflexivity.
  rewrite Hop. cbn [mbind option_bind].
  assert (forall (response : option (list byte * Z)) (first : byte),
            responds_within clipped response ->
            (forall output' size,
               response = Some (output', size) ->
               same_behind clipped output output' /\ opens_with opcode first output' size) ->
            first = to_byte (byte_val opcode + 1) ->
            exists output' size connection',
              (r ← response; Some (r, connection)) = Some (output', size, connection')
              /\ 1 <= size <= clipped
              /\ same_behind clipped output output'
              /\ opens_with opcode (to_byte (byte_val opcode + 1)) output' size
              /\ connection_data.server_mtu connection'
                 = connection_data.server_mtu connection
              /\ (byte_val opcode <> 0x02 -> connection' = connection)
              /\ connection_valid connection') as Hanswer.
  { intros response first (output' & size & -> & Hsize) Hleaves ->.
    destruct (Hleaves output' size eq_refl) as [Hsame Hopens].
    cbn [mbind option_bind]. exists output', size, connection. auto 10. }
  destruct (att_opcodes_of (byte_val opcode)) as [request|] eqn:Hrequest.
  2: { apply (Hanswer _ (to_byte (byte_val opcode + 1))); [| |reflexivity].
       - apply responds_within_error. lia.
       - intros output' size. apply error_response_opens. lia. }
  apply att_opcodes_of_bits in Hrequest.
  destruct request;
    try (apply (Hanswer _ (to_byte (byte_val opcode + 1))); [| |reflexivity];
         [apply responds_within_error; lia
         |intros output' size; apply error_response_opens; lia]).
  - destruct (exchange_mtu_request_within input output clipped connection opcode
                ltac:(lia) Hop Hvalid)
      as (output' & size & connection' & Hrun & Hsize & Hvalid').
    destruct (exchange_mtu_request_leaves input output clipped connection opcode output' size
                connection' ltac:(lia) Hop Hrun) as (Hsame & Hopens & Hserver).
    exists output', size, connection'. split; [exact Hrun|]. split; [lia|].
    split; [exact Hsame|]. rewrite Hrequest. split; [exact Hopens|].
    split; [exact Hserver|]. split; [|exact Hvalid'].
    intros Hother. exfalso. apply Hother. reflexivity.
  - apply (Hanswer _ x05); [| |rewrite Hrequest; reflexivity].
    + apply (find_information_within services internal_128bit_uuid input output clipped
               opcode); auto; lia.
    + intros output' size.
      apply find_information_request_leaves; [lia|exact Hmax|exact Hop].
  - apply (Hanswer _ x07); [| |rewrite Hrequest; reflexivity].
    + apply (find_by_type_value_within services input output clipped opcode); auto; lia.
    + intros output' size. apply find_by_type_value_request_leaves; [lia|exact Hop].
  - apply (Hanswer _ x09); [| |rewrite Hrequest; reflexivity].
    + apply (read_by_type_within services uuid_filter input output clipped opcode);
        auto; lia.
    + intros output' size. apply read_by_type_request_leaves; auto; lia.
  - apply (Hanswer _ x0b); [| |rewrite Hrequest; reflexivity].
    + apply (read_request_within services input output clipped opcode); auto; lia.
    + intros output' size. apply read_request_leaves; [lia|exact Hop].
  - apply (Hanswer _ x0d); [| |rewrite Hrequest; reflexivity].
    + apply (read_blob_request_within services input output clipped opcode); auto; lia.
    + intros output' size. apply read_blob_request_leaves; [lia|exact Hop].
  - apply (Hanswer _ x11); [| |rewrite Hrequest; reflexivity].
    + apply (read_by_group_type_within services input output clipped opcode); auto; lia.
    + intros output' size. apply read_by_group_type_request_leaves; auto; lia.
  - apply (Hanswer _ x13); [| |rewrite Hrequest; reflexivity].
    + apply (write_request_within services input output clipped opcode); auto; lia.
    + intros output' size. apply write_request_leaves; [lia|exact Hop].
Qed.

(** X10: the dispatcher writes in front of the clipped size only: it returns
    for every request, the response is at most as long as the smaller of
    the size of the output and the negotiated MTU, and the octets of the
    output from that size on are left as they were. *)
Theorem l2cap_input_writes_in_front_of_size (opcode : byte) (rest output : list byte)
    (out_size : Z) (connection : connection_data.t) :
  23 <= out_size <= Z.of_nat (length output) ->
  connection_valid connection ->
  database_valid services internal_128bit_uuid ->
  let clipped := Z.min out_size (connection_data.negotiated_mtu connection) in
  exists output' size connection',
    server.l2cap_input services internal_128bit_uuid uuid_filter (opcode :: rest) output
      out_size connection = Some (output', size, connection')
    /\ size <= clipped
    /\ length output' = length output
    /\ drop (Z.to_nat clipped) output' = drop (Z.to_nat clipped) output.
Proof.
  intros Hout Hvalid (HN & Hwf & Hreads & Hwithin & Hwrites) clipped.
  destruct (l2cap_input_answers opcode rest output out_size connection Hout Hvalid HN Hwf
              Hreads Hwithin Hwrites)
    as (output' & size & connection' & Hrun & Hsize & [Hlen Hdrop] & _).
  exists output', size, connection'. split; [exact Hrun|]. split; [lia|].
  split; [exact Hlen|exact Hdrop].
Qed.

(** X11: a response opens with the opcode of the request and one, or it is an
    Error Response: five octets that open with 0x01 and the opcode of the
    request. *)
Theorem l2cap_input_response_opcode (opcode : byte) (rest output : list byte)
    (out_size : Z) (connection : connection_data.t) :
  23 <= out_size <= Z.of_nat (length output) ->
  connection_valid connection ->
  database_valid services internal_128bit_uuid ->
  exists output' size connection',
    server.l2cap_input services internal_128bit_uuid uuid_filter (opcode :: rest) output
      out_size connection = Some (output', size, connection')
    /\ (load output' 0 = Some (to_byte (byte_val opcode + 1))
        \/ (size = 5 /\ take 2 output' = [x01; opcode])).
Proof.
  intros Hout Hvalid (HN & Hwf & Hreads & Hwithin & Hwrites).
  destruct (l2cap_input_answers opcode rest output out_size connection Hout Hvalid HN Hwf
              Hreads Hwithin Hwrites)
    as (output' & size & connection' & Hrun & _ & _ & Hopens & _).
  exists output', size, connection'. split; [exact Hrun|exact Hopens].
Qed.

(** X12: a request leaves the MTU of the server as it is, and every request
    other than an Exchange MTU Request leaves the whole connection as it
    is. *)
Theorem l2cap_input_keeps_connection (opcode : byte) (rest output : list byte)
    (out_size : Z) (connection : connection_data.t) :
  23 <= out_size <= Z.of_nat (length output) ->
  connection_valid connection ->
  database_valid services internal_128bit_uuid ->
  exists output' size connection',
    server.l2cap_input services internal_128bit_uuid uuid_filter (opcode :: rest) output
      out_size connection = Some (output', size, connection')
    /\ connection_data.server_mtu connection' = connection_data.server_mtu connection
    /\ (byte_val opcode <> 0x02 -> connection' = connection).
Proof.
  intros Hout Hvalid (HN & Hwf & Hreads & Hwithin & Hwrites).
  destruct (l2cap_input_answers opcode rest output out_size connection Hout Hvalid HN Hwf
              Hreads Hwithin Hwrites)
    as (output' & size & connection' & Hrun & _ & _ & _ & Hserver & Hsame & _).
  exists output', size, connection'. split; [exact Hrun|]. split; [exact Hserver|exact Hsame].
Qed.

(** X13: on a connection as its constructor leaves it, every response has at
    most 23 octets, however large the output and the MTU of the server
    are. *)
Theorem first_response_within_default_mtu (server_mtu : Z) (connection : connection_data.t)
    (opcode : byte) (rest output : list byte) (out_size : Z) :
  connection_data.make server_mtu = Some connection -> server_mtu < 2 ^ 16 ->
  23 <= out_size <= Z.of_nat (length output) ->
  database_valid services internal_128bit_uuid ->
  exists output' size connection',
    server.l2cap_input services internal_128bit_uuid uuid_filter (opcode :: rest) output
      out_size connection = Some (output', size, connection')
    /\ 1 <= size <= 23.
Proof.
  intros Hmake Hserver Hout (HN & Hwf & Hreads & Hwithin & Hwrites).
  unfold connection_data.make in Hmake.
  destruct (decide (default_att_mtu_size <= server_mtu)) as [Hmtu|Hmtu].
  2: { rewrite option_guard_False in Hmake by exact Hmtu. discriminate Hmake. }
  rewrite option_guard_True in Hmake by exact Hmtu. cbn [mbind option_bind] in Hmake.
  injection Hmake as <-. unfold default_att_mtu_size in Hmtu.
  match goal with
  | |- context [server.l2cap_input _ _ _ _ _ _ ?c] =>
    assert (connection_valid c) as Hvalid
      by (unfold connection_valid, default_att_mtu_size; cbn; lia);
    destruct (l2cap_input_answers opcode rest output out_size c Hout Hvalid HN Hwf
                Hreads Hwithin Hwrites)
      as (output' & size & connection' & Hrun & Hsize & _)
  end.
  exists output', size, connection'. split; [exact Hrun|].
  unfold connection_data.negotiated_mtu, default_att_mtu_size in Hsize. cbn in Hsize. lia.
Qed.

(** X14: an Exchange MTU Request with an MTU of at least 23 is answered with
    three octets, and the response to the request that follows it on the
    connection, whatever that request is, has at most as many octets as
    the smaller of the MTU of the server and the MTU of the request.  A
    request other than an Exchange MTU Request leaves the connection as
    the exchange left it, so the same holds for the request after it, up
    to the next Exchange MTU Request. *)
Theorem exchange_mtu_limits_next_response (lo hi : byte) (output : list byte) (out_size : Z)
    (connection : connection_data.t) :
  23 <= out_size <= Z.of_nat (length output) ->
  connection_valid connection ->
  database_valid services internal_128bit_uuid ->
  23 <= word16 lo hi ->
  exists output1 connection1,
    server.l2cap_input services internal_128bit_uuid uuid_filter [x02; lo; hi] output
      out_size connection = Some (output1, 3, connection1)
    /\ forall (opcode : byte) (rest buffer : list byte) (buffer_size : Z),
         23 <= buffer_size <= Z.of_nat (length buffer) ->
         exists output2 size2 connection2,
           server.l2cap_input services internal_128bit_uuid uuid_filter (opcode :: rest)
             buffer buffer_size connection1 = Some (output2, size2, connection2)
           /\ 1 <= size2
              <= Z.min buffer_size
                   (Z.min (connection_data.server_mtu connection) (word16 lo hi))
           /\ (byte_val opcode <> 0x02 -> connection2 = connection1).
Proof.
  intros Hout Hvalid Hdatabase Hmtu.
  pose proof Hdatabase as (HN & Hwf & Hreads & Hwithin & Hwrites).
  pose proof (word16_range lo hi) as Hrange.
  set (connection1 := {| connection_data.server_mtu_ := connection_data.server_mtu_ connection;
                         connection_data.client_mtu_ := word16 lo hi |}).
  assert (connection_valid connection1) as Hvalid1.
  { destruct Hvalid as [Hserver _]. unfold connection_valid, default_att_mtu_size in *.
    cbn. lia. }
  assert (exists output1,
            server.l2cap_input services internal_128bit_uuid uuid_filter [x02; lo; hi] output
              out_size connection = Some (output1, 3, connection1)) as [output1 Hrun].
  { unfold server.l2cap_input.
    assert (23 <= Z.min out_size (connection_data.negotiated_mtu connection)
            <= Z.of_nat (length output)) as Hclipped.
    { destruct Hvalid as [Hserver Hclient].
      unfold connection_data.negotiated_mtu, default_att_mtu_size in *. lia. }
    rewrite option_guard_True by (unfold server.in_size; cbn [length]; lia).
    cbn [mbind option_bind].
    unfold default_att_mtu_size. rewrite option_guard_True by lia.
    cbn [mbind option_bind].
    change (load [x02; lo; hi] 0) with (Some x02). cbn [mbind option_bind].
    change (att_opcodes_of (byte_val x02)) with (Some att_opcodes.exchange_mtu_request).
    unfold server.handle_exchange_mtu_request.
    change (server.in_size [x02; lo; hi] =? 3) with true. cbn [negb].
    rewrite read_16bit_at_1. cbn [mbind option_bind].
    unfold default_att_mtu_size.
    destruct (Z.ltb_spec (word16 lo hi) 23); [lia|].
    unfold connection_data.set_client_mtu, default_att_mtu_size.
    rewrite option_guard_True by lia. cbn [mbind option_bind].
    rewrite store_Some by list_len. cbn [mbind option_bind].
    unfold write_16bit. rewrite store_Some by list_len. cbn [mbind option_bind].
    eexists. reflexivity. }
  exists output1, connection1. split; [exact Hrun|].
  intros opcode rest buffer buffer_size Hbuffer.
  destruct (l2cap_input_answers opcode rest buffer buffer_size connection1 Hbuffer Hvalid1
              HN Hwf Hreads Hwithin Hwrites)
    as (output2 & size2 & connection2 & Hrun2 & Hsize2 & _ & _ & _ & Hkept & _).
  exists output2, size2, connection2. split; [exact Hrun2|]. split; [exact Hsize2|exact Hkept].
Qed.

(** ** The length octet of a Read By Group Type Response *)

Lemma load_1_take (mem mem' : list byte) (n : nat) :
  (2 <= n)%nat -> take n mem' = take n mem -> load mem' 1 = load mem 1.
Proof.
  intros Hn Htake. destruct n as [|[|n]]; [lia|lia|].
  destruct mem' as [|a' [|b' mem']], mem as [|a [|b mem]]; cbn [take] in Htake;
    try discriminate Htake; try reflexivity.
  injection Htake as _ -> _. reflexivity.
Qed.

(** One service of the walk: what [each] leaves in the object and in the
    memory. *)
Lemma collect_primary_services_each_length (Service : service)
    (f : collect_primary_services.t) (mem : list byte) :
  response_within_buffer Service -> response_writes_within Service ->
  2 <= collect_primary_services.output_ f <= collect_primary_services.end_ f ->
  collect_primary_services.end_ f <= Z.of_nat (length mem) ->
  collect_primary_services.attribute_data_size_ f = 1 ->
  let in_range :=
    (collect_primary_services.starting_handle_ f <=? collect_primary_services.index_ f)
    && (collect_primary_services.index_ f <=? collect_primary_services.ending_handle_ f) in
  exists f' mem',
    collect_primary_services.each Service (f, mem) = Some (f', mem')
    /\ collect_primary_services.output_ f <= collect_primary_services.output_ f'
       <= collect_primary_services.end_ f
    /\ collect_primary_services.end_ f' = collect_primary_services.end_ f
    /\ collect_primary_services.attribute_data_size_ f' = 1
    /\ collect_primary_services.starting_handle_ f' = collect_primary_services.starting_handle_ f
    /\ collect_primary_services.ending_handle_ f' = collect_primary_services.ending_handle_ f
    /\ collect_primary_services.index_ f'
       = uint16 (collect_primary_services.index_ f + details.number_of_attributes Service)
    /\ collect_primary_services.first_ f'
       = (if in_range then false else collect_primary_services.first_ f)
    /\ length mem' = length mem
    /\ (if in_range && collect_primary_services.first_ f
        then load mem' 1 = Some (to_byte (if uuid_is_128bit Service then 16 + 4 else 2 + 4))
        else load mem' 1 = load mem 1).
Proof.
  intros Hwithin Hwrites Hout Hend Hsize in_range. subst in_range.
  assert (forall (m1 : list byte) (is_128bit : bool),
            length m1 = length mem ->
            exists m2 out2,
              read_primary_service_response Service m1 (collect_primary_services.output_ f)
                (collect_primary_services.end_ f) (collect_primary_services.index_ f)
                is_128bit = (m2, out2)
              /\ collect_primary_services.output_ f <= out2 <= collect_primary_services.end_ f
              /\ length m2 = length mem
              /\ load m2 1 = load m1 1) as Hresponse.
  { intros m1 is_128bit Hlen1.
    pose proof (Hwithin m1 (collect_primary_services.output_ f)
                  (collect_primary_services.end_ f) (collect_primary_services.index_ f)
                  is_128bit ltac:(lia) ltac:(lia)) as H1.
    pose proof (Hwrites m1 (collect_primary_services.output_ f)
                  (collect_primary_services.end_ f) (collect_primary_services.index_ f)
                  is_128bit ltac:(lia) ltac:(lia)) as H2.
    destruct (read_primary_service_response Service m1 _ _ _ _) as [m2 out2].
    destruct H1 as [Hout2 Hlen2]. destruct H2 as [Htake _].
    exists m2, out2. split; [reflexivity|]. split; [exact Hout2|]. split; [lia|].
    apply (load_1_take m1 m2 (Z.to_nat (collect_primary_services.output_ f)));
      [lia|exact Htake]. }
  unfold collect_primary_services.each.
  destruct ((collect_primary_services.starting_handle_ f <=? collect_primary_services.index_ f)
            && (collect_primary_services.index_ f <=? collect_primary_services.ending_handle_ f)).
  2: { cbn [mbind option_bind andb]. eexists _, _. split; [reflexivity|].
       cbn [collect_primary_services.output_ collect_primary_services.end_
               collect_primary_services.index_ collect_primary_services.starting_handle_
               collect_primary_services.ending_handle_ collect_primary_services.first_
               collect_primary_services.attribute_data_size_].
       repeat split; lia. }
  cbn [andb].
  destruct (collect_primary_services.first_ f) eqn:Hfirst.
  - cbv zeta. rewrite Hsize.
    destruct (store_step mem 1 [to_byte (if uuid_is_128bit Service then 16 + 4 else 2 + 4)]
                ltac:(lia) ltac:(cbn [length]; lia)) as (m1 & -> & Hlen1 & Htake1 & _).
    cbn [mbind option_bind].
    cbn [collect_primary_services.output_ collect_primary_services.end_
           collect_primary_services.index_ collect_primary_services.is_128bit_uuid_].
    destruct (Hresponse m1 (uuid_is_128bit Service) Hlen1)
      as (m2 & out2 & -> & Hout2 & Hlen2 & Hload2).
    cbn [mbind option_bind]. eexists _, _. split; [reflexivity|].
    cbn [collect_primary_services.output_ collect_primary_services.end_
            collect_primary_services.index_ collect_primary_services.starting_handle_
            collect_primary_services.ending_handle_ collect_primary_services.first_
            collect_primary_services.attribute_data_size_].
     repeat (split; [try reflexivity; try lia|]).
    rewrite Hload2.
    cbn [length] in Htake1. change (Z.to_nat (1 + Z.of_nat 1)) with 2%nat in Htake1.
    change (Z.to_nat 1) with 1%nat in Htake1.
    destruct m1 as [|a [|b m1]]; cbn [length] in Hlen1; try lia.
    destruct mem as [|a0 [|b0 mem]]; cbn [length] in Hlen1; try lia.
    cbn [take app] in Htake1. injection Htake1 as _ ->. reflexivity.
  - cbn [mbind option_bind].
    destruct (Hresponse mem (collect_primary_services.is_128bit_uuid_ f) eq_refl)
      as (m2 & out2 & -> & Hout2 & Hlen2 & Hload2).
    cbn [mbind option_bind]. eexists _, _. split; [reflexivity|].
    cbn [collect_primary_services.output_ collect_primary_services.end_
            collect_primary_services.index_ collect_primary_services.starting_handle_
            collect_primary_services.ending_handle_ collect_primary_services.first_
            collect_primary_services.attribute_data_size_].
     repeat (split; [first [reflexivity | lia | exact Hfirst]|]). exact Hload2.
Qed.

(** The walk writes the length octet once, for the first service of the
    range. *)
Lemma collect_primary_services_walk_length (Services : list service) :
  Forall response_within_buffer Services -> Forall response_writes_within Services ->
  forall (f : collect_primary_services.t) (mem : list byte),
  2 <= collect_primary_services.output_ f <= collect_primary_services.end_ f ->
  collect_primary_services.end_ f <= Z.of_nat (length mem) ->
  collect_primary_services.attribute_data_size_ f = 1 ->
  exists f' mem',
    for_each collect_primary_services.each Services (f, mem) = Some (f', mem')
    /\ collect_primary_services.output_ f <= collect_primary_services.output_ f'
       <= collect_primary_services.end_ f
    /\ length mem' = length mem
    /\ match (if collect_primary_services.first_ f
              then first_in_range (collect_primary_services.starting_handle_ f)
                     (collect_primary_services.ending_handle_ f)
                     (collect_primary_services.index_ f) Services
              else None) with
       | Some Service =>
         load mem' 1 = Some (to_byte (if uuid_is_128bit Service then 16 + 4 else 2 + 4))
       | None => load mem' 1 = load mem 1
       end.
Proof.
  intros Hwithin. induction Hwithin as [|Service Services Hservice _ IH];
    intros Hwrites f mem Hout Hend Hsize.
  - exists f, mem. split; [reflexivity|]. split; [lia|]. split; [reflexivity|].
    destruct (collect_primary_services.first_ f); reflexivity.
  - apply Forall_cons in Hwrites as [Hwrite Hwrites]. cbn [for_each first_in_range].
    destruct (collect_primary_services_each_length Service f mem Hservice Hwrite Hout Hend
                Hsize)
      as (f1 & mem1 & -> & Hout1 & Hend1 & Hsize1 & Hs1 & He1 & Hindex1 & Hfirst1 & Hlen1
          & Hload1).
    cbv zeta in Hfirst1, Hload1. cbn [mbind option_bind].
    destruct (IH Hwrites f1 mem1 ltac:(lia) ltac:(lia) Hsize1)
      as (f' & mem' & -> & Hout' & Hlen' & Hload').
    exists f', mem'. split; [reflexivity|]. split; [lia|]. split; [lia|].
    rewrite Hfirst1, Hs1, He1, Hindex1 in Hload'.
    destruct ((collect_primary_services.starting_handle_ f
               <=? collect_primary_services.index_ f)
              && (collect_primary_services.index_ f
                  <=? collect_primary_services.ending_handle_ f));
      cbn [andb] in Hload1; destruct (collect_primary_services.first_ f);
      try congruence.
    destruct (first_in_range _ _ _ Services); congruence.
Qed.

(** X15: the length octet of a Read By Group Type Response is that of the
    first service whose declaration lies in the range: 20 when its UUID
    has 128 bits and 6 otherwise, whatever the UUIDs of the services
    behind it are.  When no writer of a tuple wrote, the answer is the
    Error Response attribute_not_found instead. *)
Theorem read_by_group_type_length_octet (opcode s_lo s_hi e_lo e_hi : byte)
    (output : list byte) (out_size : Z) (Service : service) :
  let input := [opcode; s_lo; s_hi; e_lo; e_hi; x00; x28] in
  let starting_handle := word16 s_lo s_hi in
  let ending_handle := word16 e_lo e_hi in
  5 <= out_size <= Z.of_nat (length output) -> out_size < 2 ^ 64 ->
  starting_handle <> 0 -> starting_handle <= ending_handle ->
  starting_handle <= number_of_attributes ->
  Forall response_within_buffer services -> Forall response_writes_within services ->
  first_in_range starting_handle ending_handle 1 services = Some Service ->
  exists output' size,
    server.handle_read_by_group_type_request services input output out_size
      = Some (output', size)
    /\ ((size = 5
         /\ pdu output' 5 = error_pdu opcode s_lo s_hi att_error_codes.attribute_not_found)
        \/ (2 < size <= out_size
            /\ take 2 output' = [x11; if uuid_is_128bit Service then x14 else x06])).
Proof.
  intros input starting_handle ending_handle Hout Hmax H0 Hle HleN Hwithin Hwrites Hfirst.
  subst input. unfold server.handle_read_by_group_type_request.
  rewrite check_size_and_handle_range_sized by (try (left; reflexivity); lia).
  fold starting_handle ending_handle.
  destruct (Z.eqb_spec starting_handle 0); [contradiction|].
  destruct (Z.ltb_spec ending_handle starting_handle); [lia|].
  destruct (Z.ltb_spec number_of_attributes starting_handle); [lia|].
  cbn [orb mbind option_bind].
  change (server.in_size [opcode; s_lo; s_hi; e_lo; e_hi; x00; x28] =? 5 + 16) with false.
  cbn iota. unfold read_handle. rewrite read_16bit_at_5. cbn [mbind option_bind].
  change (word16 x00 x28 =? gatt_uuids.primary_service) with true. cbn [negb].
  unfold write_opcode.
  destruct (store_step output 0 [to_byte (bits att_opcodes.read_by_group_type_response)]
              ltac:(lia) ltac:(cbn [length]; lia)) as (output1 & -> & Hlen1 & Htake1 & _).
  cbn [mbind option_bind].
  unfold collect_primary_services.make. change (0 + 1 + 1) with 2.
  change (0 + out_size) with out_size. change (2 - 1) with 1.
  match goal with |- context [for_each _ _ (?f, ?mem)] =>
    destruct (collect_primary_services_walk_length services Hwithin Hwrites f mem
                ltac:(cbn; lia) ltac:(cbn; lia) eq_refl)
      as (f' & mem' & Hwalk & Hout' & Hlen' & Hload');
    destruct (collect_primary_services_walk_leaves services Hwithin Hwrites f f' mem mem'
                Hwalk ltac:(cbn; lia) ltac:(cbn; lia) eq_refl) as [_ Htake']
  end.
  rewrite Hwalk. cbn in Hout', Hload'. rewrite Hfirst in Hload'.
  cbn [mbind option_bind].
  change (load (opcode :: ?l) 0) with (Some opcode). cbn [mbind option_bind].
  destruct (Z.eqb_spec (collect_primary_services.output_ f') 2) as [Hnone|Hsome].
  - fold starting_handle. unfold starting_handle.
    rewrite error_response_word16 by lia.
    eexists _, _. split; [reflexivity|]. left. split; reflexivity.
  - rewrite Z.sub_0_r, size_t_small by lia.
    eexists _, _. split; [reflexivity|]. right. split; [lia|].
    cbn [length] in Htake1. change (Z.to_nat (0 + Z.of_nat 1)) with 1%nat in Htake1.
    change (Z.to_nat 0) with 0%nat in Htake1. rewrite take_0 in Htake1. cbn [app] in Htake1.
    rewrite Htake1 in Htake'.
    destruct mem' as [|a [|b mem']]; cbn [length] in Hlen'; try lia.
    cbn [take] in Htake' |- *. injection Htake' as ->.
    cbn in Hload'. injection Hload' as ->.
    change (to_byte (bits att_opcodes.read_by_group_type_response)) with x11.
    destruct (uuid_is_128bit Service); reflexivity.
Qed.

End request_properties.

(** ** The concrete servers keep the contracts *)

Lemma fixed_attribute_read_within (uuid : Z) (value : list byte) (writable : bool) :
  read_within_buffer (battery.fixed_attribute uuid value writable).
Proof.
  intros args handle Htype Hsize. cbn [access battery.fixed_attribute].
  unfold battery.fixed_access. rewrite Htype.
  destruct (Z.of_nat (length value) <? buffer_offset args); cbn [snd buffer_size].
  - lia.
  - rewrite length_take, length_drop. lia.
Qed.

Lemma reads_within_buffer_table (services : list service) :
  Forall read_within_buffer (server.attribute_table services) ->
  reads_within_buffer services.
Proof.
  intros Hall index attr. unfold server.attribute_at.
  destruct (0 <=? index); [|discriminate].
  intros Hattr. rewrite Forall_lookup in Hall. eapply Hall. exact Hattr.
Qed.

Lemma long_uuids_declared_table (services : list service) (internal_128bit_uuid : Z) :
  Forall (fun attr => uuid attr <> internal_128bit_uuid) (server.attribute_table services) ->
  long_uuids_declared services internal_128bit_uuid.
Proof.
  intros Hall index attr. unfold server.attribute_at.
  destruct (0 <=? index); [|discriminate].
  intros Hattr Huuid. rewrite Forall_lookup in Hall.
  exfalso. eapply Hall; eassumption.
Qed.

Lemma service_16_response_within (service_uuid : Z) (rest : list attribute) :
  response_within_buffer (battery.service_16 service_uuid rest).
Proof.
  intros mem output end_ index is_128bit Hout Hend.
  cbn [read_primary_service_response battery.service_16].
  unfold battery.primary_service_response_16.
  destruct (negb is_128bit && (6 <=? end_ - output)) eqn:Hfits; [|split; [lia|reflexivity]].
  apply andb_true_iff in Hfits as [_ Hfits]. apply Z.leb_le in Hfits.
  destruct (store mem output _) as [mem'|] eqn:Hstore.
  - split; [lia|]. eapply length_store. exact Hstore.
  - split; [lia|reflexivity].
Qed.

Lemma battery_reads_within : reads_within_buffer battery.services.
Proof.
  apply reads_within_buffer_table. cbn -[battery.fixed_attribute].
  repeat (constructor; [apply fixed_attribute_read_within|]). constructor.
Qed.

Lemma battery_long_uuids_declared :
  long_uuids_declared battery.services battery.internal_128bit_uuid.
Proof.
  apply long_uuids_declared_table. cbn.
  repeat (constructor; [discriminate|]). constructor.
Qed.

Lemma battery_responses_within : Forall response_within_buffer battery.services.
Proof. constructor; [apply service_16_response_within|constructor]. Qed.





Lemma custom_long_uuids_declared :
  long_uuids_declared battery.custom_services battery.internal_128bit_uuid.
Proof.
  intros index attr. unfold server.attribute_at.
  destruct (Z.leb_spec 0 index); [|discriminate].
  intros Hattr Huuid.
  destruct (Z.to_nat index) as [|[|[|n]]] eqn:Hindex; cbn in Hattr;
    try (injection Hattr as <-; discriminate Huuid); [|discriminate Hattr].
  assert (index = 2) as -> by lia.
  eexists. split; [reflexivity|]. split; reflexivity.
Qed.

Lemma service_16_response_writes_within (service_uuid : Z) (rest : list attribute) :
  response_writes_within (battery.service_16 service_uuid rest).
Proof.
  intros mem output end_ index is_128bit Hout Hend.
  cbn [read_primary_service_response battery.service_16].
  unfold battery.primary_service_response_16.
  destruct (negb is_128bit && (6 <=? end_ - output)) eqn:Hfits; [|split; reflexivity].
  apply andb_true_iff in Hfits as [_ Hfits]. apply Z.leb_le in Hfits.
  destruct (store mem output _) as [mem'|] eqn:Hstore; [|split; reflexivity].
  split.
  - eapply take_store; [exact Hstore|lia].
  - eapply store_same_behind; [exact Hstore|cbn [length]; lia].
Qed.

Lemma battery_database_valid :
  database_valid battery.services battery.internal_128bit_uuid.
Proof.
  split; [vm_compute; reflexivity|].
  split; [exact battery_long_uuids_declared|].
  split; [exact battery_reads_within|].
  split; [exact battery_responses_within|].
  constructor; [apply service_16_response_writes_within|constructor].
Qed.

(** ** The scenarios *)

Example scenario_exchange_mtu :
  battery.respond battery.services [x02; x17; x00] = Some [x03; x17; x00].
Proof. vm_compute. reflexivity. Qed.

Example scenario_read :
  battery.respond battery.services [x0a; x03; x00] = Some [x0b; x55].
Proof. vm_compute. reflexivity. Qed.

Example scenario_read_handle_0 :
  battery.respond battery.services [x0a; x00; x00] = Some [x01; x0a; x00; x00; x01].
Proof. vm_compute. reflexivity. Qed.

Example scenario_read_past_the_end :
  battery.respond battery.services [x0a; x09; x00] = Some [x01; x0a; x09; x00; x0a].
Proof. vm_compute. reflexivity. Qed.

Example scenario_read_by_group_type :
  battery.respond battery.services [x10; x01; x00; xff; xff; x00; x28]
  = Some [x11; x06; x01; x00; x03; x00; x0f; x18].
Proof. vm_compute. reflexivity. Qed.

Example scenario_other_group_type :
  battery.respond battery.services [x10; x01; x00; xff; xff; x01; x29]
  = Some [x01; x10; x01; x00; x10].
Proof. vm_compute. reflexivity. Qed.

Example scenario_find_by_type_value :
  battery.respond battery.services [x06; x01; x00; xff; xff; x00; x28; x0f; x18]
  = Some [x07; x01; x00; x03; x00].
Proof. vm_compute. reflexivity. Qed.

Example scenario_read_by_type :
  battery.respond battery.services [x08; x01; x00; xff; xff; x19; x2a]
  = Some [x09; x03; x03; x00; x55].
Proof. vm_compute. reflexivity. Qed.

Example scenario_write_read_only :
  battery.respond battery.services [x12; x03; x00; x77] = Some [x01; x12; x03; x00; x03].
Proof. vm_compute. reflexivity. Qed.

Example scenario_find_information_128bit :
  battery.respond battery.custom_services [x04; x03; x00; x03; x00]
  = Some ([x05; x02; x03; x00] ++ battery.uuid_128).
Proof. vm_compute. reflexivity. Qed.

(** With an MTU of 512 and three values of 100 octets, three tuples of
    102 octets are packed, and the size of the response, taken through
    the 8 bit result of [size()], is 2 + 306 mod 256. *)
Example read_by_type_size_wraps :
  length <$> battery.respond_with 512 battery.three_long_levels
               [x08; x01; x00; xff; xff; x19; x2a]
  = Some 52%nat
  /\ (battery.respond_with 512 battery.three_long_levels
        [x08; x01; x00; xff; xff; x19; x2a]) ≫= (fun response => response !! 1%nat)
     = Some x66.
Proof. vm_compute. split; reflexivity. Qed.

(** ** The theorems at concrete requests *)

(** Decides a closed comparison of integers by evaluating it. *)
Ltac by_computation := vm_compute; repeat split; first [reflexivity | discriminate].

Lemma l2cap_input_out_size_witness :
  exists output' out_size' connection',
    server.l2cap_input battery.services battery.internal_128bit_uuid battery.uuid_filter
      [x08; x01; x00; xff; xff; x19; x2a] (battery.output 23) 23 (battery.connection 23)
      = Some (output', out_size', connection')
    /\ out_size' <= 23 /\ 1 <= out_size'.
Proof.
  destruct (l2cap_input_out_size battery.services battery.internal_128bit_uuid
              battery.uuid_filter [x08; x01; x00; xff; xff; x19; x2a] (battery.output 23) 23
              (battery.connection 23))
    as (output' & out_size' & connection' & Hrun & Hle & _ & _ & Hge & _).
  - by_computation.
  - by_computation.
  - by_computation.
  - by_computation.
  - exact battery_long_uuids_declared.
  - exact battery_reads_within.
  - exact battery_responses_within.
  - exists output', out_size', connection'. split; [exact Hrun|].
    change (Z.min 23 (connection_data.negotiated_mtu (battery.connection 23))) with 23 in Hle.
    split; [exact Hle|exact Hge].
Defined.


Lemma find_information_validated_response_witness :
  exists output' size,
    server.handle_find_information_request battery.custom_services battery.internal_128bit_uuid
      [x04; x03; x00; x03; x00] (battery.output 23) 23 = Some (output', size)
    /\ 20 <= size <= 23
    /\ take 4 output' = [x05; x02; x03; x00].
Proof.
  destruct (find_information_validated_response battery.custom_services
              battery.internal_128bit_uuid [x04; x03; x00; x03; x00] (battery.output 23) 23 3 3)
    as (attr & Hattr & _ & output' & size & Hrun & Hsize & Htake & _).
  - by_computation.
  - by_computation.
  - by_computation.
  - exact custom_long_uuids_declared.
  - vm_compute. reflexivity.
  - vm_compute in Hattr. injection Hattr as <-.
    exists output', size. split; [exact Hrun|]. split; [exact Hsize|exact Htake].
Defined.

Lemma find_by_type_value_request_sizes_witness :
  exists output',
    server.handle_find_by_type_value_request battery.services
      [x06; x01; x00; xff; xff; x00; x28; x0f; x18; x00] (battery.output 23) 23
      = Some (output', 5)
    /\ pdu output' 5 = error_pdu x06 x00 x00 att_error_codes.invalid_pdu.
Proof.
  destruct (find_by_type_value_request_sizes battery.services
              [x06; x01; x00; xff; xff; x00; x28; x0f; x18; x00] (battery.output 23) 23 x06)
    as [Hrejected _].
  - by_computation.
  - reflexivity.
  - apply Hrejected; by_computation.
Defined.

Lemma check_size_and_handle_range_cases_witness :
  server.check_size_and_handle_range battery.services 5 5 [x04; x01; x00; xff; xff]
    (battery.output 23) 23 = Some (check_true (1, 65535)).
Proof.
  destruct (check_size_and_handle_range_cases battery.services 5 5 [x04; x01; x00; xff; xff]
              (battery.output 23) 23 x04) as [_ Hsized].
  - by_computation.
  - by_computation.
  - by_computation.
  - reflexivity.
  - destruct (Hsized (or_introl eq_refl))
      as (s_lo & s_hi & e_lo & e_hi & rest & Hinput & _ & _ & Hpass).
    injection Hinput as <- <- <- <- <-.
    apply Hpass; by_computation.
Defined.

Lemma read_and_read_blob_responses_witness :
  exists output',
    server.handle_read_request battery.services [x0a; x03; x00] (battery.output 23) 23
      = Some (output', 2)
    /\ pdu output' 2 = [x0b; x55].
Proof.
  destruct (read_and_read_blob_responses battery.services x0a x03 x00 x00 x00
              (battery.output 23) 23) as (_ & _ & Hread).
  - by_computation.
  - by_computation.
  - destruct Hread as (attr & Hattr & Hread & _).
    + by_computation.
    + by_computation.
    + vm_compute in Hattr. injection Hattr as <-.
      destruct (Hread _ _ (surjective_pairing _)) as [Hsuccess _].
      destruct Hsuccess as (output' & Hrun & _ & Hpdu).
      * left. vm_compute. reflexivity.
      * by_computation.
      * exists output'. split; [exact Hrun|]. apply Hpdu. vm_compute. discriminate.
Defined.

Lemma write_request_responses_witness :
  exists output',
    server.handle_write_request battery.services [x12; x03; x00; x77] (battery.output 23) 23
      = Some (output', 5)
    /\ pdu output' 5 = error_pdu x12 x03 x00 att_error_codes.write_not_permitted.
Proof.
  destruct (write_request_responses battery.services [x12; x03; x00; x77] (battery.output 23)
              23 x12) as [_ Hsized].
  - by_computation.
  - reflexivity.
  - destruct Hsized as (lo & hi & value & Hinput & _ & _ & _ & Hwrite).
    + by_computation.
    + injection Hinput as <- <- <-.
      destruct Hwrite as (attr & Hattr & _ & _ & Hrefused).
      * by_computation.
      * by_computation.
      * vm_compute in Hattr. injection Hattr as <-.
        apply Hrefused; vm_compute; discriminate.
Defined.

Lemma exchange_mtu_request_responses_witness :
  exists output' connection',
    server.handle_exchange_mtu_request [x02; x17; x00] (battery.output 23) 23
      (battery.connection 23) = Some (output', 3, connection')
    /\ pdu output' 3 = [x03; x17; x00]
    /\ connection_data.negotiated_mtu connection' = 23.
Proof.
  destruct (exchange_mtu_request_responses [x02; x17; x00] (battery.output 23) 23
              (battery.connection 23) x02) as [_ Hsized].
  - by_computation.
  - reflexivity.
  - destruct (Hsized eq_refl) as (mtu_lo & mtu_hi & Hinput & _ & Haccepted).
    injection Hinput as <- <-.
    destruct Haccepted as (output' & connection' & Hrun & Hpdu & _ & _ & Hmtu).
    + by_computation.
    + exists output', connection'. split; [exact Hrun|]. split; [exact Hpdu|exact Hmtu].
Defined.


Lemma read_by_group_type_errors_witness :
  exists output',
    server.handle_read_by_group_type_request battery.services
      [x10; x02; x00; x03; x00; x00; x28] (battery.output 23) 23 = Some (output', 5)
    /\ pdu output' 5 = error_pdu x10 x02 x00 att_error_codes.attribute_not_found.
Proof.
  destruct (read_by_group_type_errors battery.services x10 x02 x00 x03 x00 [x00; x28]
              (battery.output 23) 23) as [_ Hsized].
  - by_computation.
  - by_computation.
  - by_computation.
  - by_computation.
  - destruct (Hsized eq_refl) as (t_lo & t_hi & Hrest & _ & Hnone).
    injection Hrest as <- <-.
    apply Hnone.
    + reflexivity.
    + constructor; [|constructor].
      vm_compute. intros [Hle _]. apply Hle. reflexivity.
Defined.

Lemma find_by_type_value_packs_while_room_witness :
  exists output',
    server.handle_find_by_type_value_request battery.six_services
      [x06; x01; x00; xff; xff; x00; x28; x0f; x18] (battery.output 23) 23
      = Some (output', 21)
    /\ take 21 output'
       = [ x07; x01; x00; x01; x00; x02; x00; x02; x00; x03; x00; x03; x00;
           x04; x00; x04; x00; x05; x00; x05; x00 ]
    /\ length (matching_groups
                 (value_filter.call [x06; x01; x00; xff; xff; x00; x28; x0f; x18]
                    {| value_filter.begin_ := 7; value_filter.end_ := 9 |})
                 1 65535 1 battery.six_services) = 6%nat.
Proof.
  destruct (find_by_type_value_packs_while_room battery.six_services x06 x01 x00 xff xff
              [x0f; x18] (battery.output 23) 23) as [Hpacked _].
  - left. reflexivity.
  - by_computation.
  - by_computation.
  - by_computation.
  - by_computation.
  - destruct Hpacked as (output' & Hrun & _ & _ & Htake).
    + vm_compute. discriminate.
    + exists output'. split; [exact Hrun|]. split; [exact Htake|].
      vm_compute. reflexivity.
Defined.

(** No request that passed the whole of the range validation is without
    an eligible attribute: a Find Information Request is without one only
    when its starting handle lies above the last attribute.  The request
    for all handles of the scenario is answered by a Find Information
    Response. *)
Lemma find_information_case_is_empty :
  ((exists services internal_128bit_uuid input output out_size
           starting_handle ending_handle attr,
      server.check_size_and_handle_range services 5 5 input output out_size
        = Some (check_true (starting_handle, ending_handle))
      /\ server.attribute_at services (starting_handle - 1) = Some attr
      /\ forall handle,
           ~ eligible services internal_128bit_uuid
               (has_16bit_uuid internal_128bit_uuid attr)
               starting_handle ending_handle handle)
   <-> False)
  /\ battery.respond battery.services [x04; x01; x00; xff; xff]
     = Some [x05; x01; x01; x00; x00; x28; x02; x00; x03; x28; x03; x00; x19; x2a].
Proof.
  split; [|vm_compute; reflexivity].
  split; [|contradiction].
  intros (services & internal_128bit_uuid & input & output & out_size
          & starting_handle & ending_handle & attr & Hcheck & Hattr & Hnone).
  destruct (check_size_and_handle_range_true_inv services 5 5 input output out_size
              starting_handle ending_handle ltac:(lia) ltac:(lia) Hcheck)
    as (_ & _ & _ & _ & _ & _ & _ & _ & _ & _ & _ & Hle & _).
  apply (Hnone starting_handle). split; [lia|].
  exists attr. split; [exact Hattr|reflexivity].
Qed.

(** ** The claims the code does not keep, at concrete requests *)

(** C3: a Find By Type Value Request of ten octets is rejected with
    invalid_pdu. *)
Lemma find_by_type_value_rejects_ten_octets :
  battery.respond battery.services [x06; x01; x00; xff; xff; x00; x28; x0f; x18; x00]
  = Some [x01; x06; x00; x00; x04].
Proof. vm_compute. reflexivity. Qed.


(** ** The further properties at concrete inputs *)

Lemma advertising_data_within_buffer_witness :
  exists buffer' size,
    server.advertising_data (Some [x42; x6c; x75; x65]) (replicate 31 x00) 31
      = Some (buffer', size)
    /\ 0 <= size <= 31
    /\ length buffer' = length (replicate 31 x00)
    /\ drop (Z.to_nat size) buffer' = drop (Z.to_nat size) (replicate 31 x00).
Proof.
  apply (advertising_data_within_buffer (Some [x42; x6c; x75; x65]) (replicate 31 x00) 31);
    by_computation.
Defined.

Lemma advertising_data_flags_alone_witness :
  exists buffer',
    server.advertising_data None (replicate 31 x00) 31 = Some (buffer', 3)
    /\ pdu buffer' 3 = [x02; x01; x06].
Proof.
  destruct (advertising_data_flags_alone None (replicate 31 x00) 31) as [_ Hflags].
  - by_computation.
  - by_computation.
  - left. reflexivity.
  - apply Hflags. by_computation.
Defined.

Lemma advertising_data_local_name_witness :
  exists buffer',
    server.advertising_data (Some [x42; x6c; x75; x65; x74; x6f; x65]) (replicate 31 x00) 8
      = Some (buffer', 8)
    /\ pdu buffer' 8 = [x02; x01; x06; x04; x08; x42; x6c; x75].
Proof.
  destruct (advertising_data_local_name [x42; x6c; x75; x65; x74; x6f; x65]
              (replicate 31 x00) 8) as (buffer' & Hrun & Hpdu & _).
  - discriminate.
  - by_computation.
  - by_computation.
  - exists buffer'. split; [exact Hrun|exact Hpdu].
Defined.

Lemma error_response_five_octets_or_none_witness :
  exists output',
    server.error_response x0a att_error_codes.invalid_handle 0x0102 (battery.output 23) 23
      = Some (output', 5)
    /\ pdu output' 5 = [x01; x0a; x02; x01; x01]
    /\ read_handle output' 2 = Some 0x0102.
Proof.
  destruct (error_response_five_octets_or_none x0a att_error_codes.invalid_handle 0x0102
              (battery.output 23) 23) as [_ Hfive].
  - by_computation.
  - by_computation.
  - destruct Hfive as (output' & Hrun & Hpdu & Hhandle & _); [by_computation|].
    exists output'. split; [exact Hrun|]. split; [exact Hpdu|exact Hhandle].
Defined.

Lemma l2cap_input_request_not_supported_witness :
  exists output',
    server.l2cap_input battery.services battery.internal_128bit_uuid battery.uuid_filter
      [x16; x01; x00] (battery.output 23) 23 (battery.connection 23)
      = Some (output', 5, battery.connection 23)
    /\ pdu output' 5 = error_pdu x16 x00 x00 att_error_codes.request_not_supported.
Proof.
  apply (l2cap_input_request_not_supported battery.services battery.internal_128bit_uuid
           battery.uuid_filter x16 [x01; x00] (battery.output 23) 23 (battery.connection 23)).
  - vm_compute. intros Hin. repeat (destruct Hin as [Hin|Hin]; [discriminate Hin|]).
    exact Hin.
  - by_computation.
  - by_computation.
Defined.

Lemma read_by_type_without_match_witness :
  exists output',
    server.handle_read_by_type_request battery.services battery.uuid_filter
      [x08; x01; x00; xff; xff; x00; x2a] (battery.output 23) 23 = Some (output', 5)
    /\ pdu output' 5 = error_pdu x08 x01 x00 att_error_codes.attribute_not_found.
Proof.
  destruct (read_by_type_without_match battery.services battery.uuid_filter
              [x08; x01; x00; xff; xff; x00; x2a] (battery.output 23) 23 1 65535)
    as (opcode & s_lo & s_hi & output' & Hop & Hs & Hrun & Hpdu).
  - by_computation.
  - by_computation.
  - vm_compute. reflexivity.
  - intros handle attr _. unfold server.attribute_at.
    destruct (Z.leb_spec 0 (handle - 1)); [|discriminate].
    destruct (Z.to_nat (handle - 1)) as [|[|[|n]]]; cbn;
      try (intros Hattr; injection Hattr as <-; reflexivity); discriminate.
  - injection Hop as <-.
    assert (s_lo = x01 /\ s_hi = x00) as [-> ->].
    { assert (to_byte (Z.land 1 255) = s_lo /\ to_byte (Z.shiftr 1 8) = s_hi) as [<- <-]
        by (rewrite Hs; split; [apply word16_lo|apply word16_hi]).
      split; reflexivity. }
    exists output'. split; [exact Hrun|exact Hpdu].
Defined.

Lemma find_by_type_value_other_type_witness :
  exists output',
    server.handle_find_by_type_value_request battery.services
      [x06; x01; x00; xff; xff; x03; x28; x0f; x18] (battery.output 23) 23
      = Some (output', 5)
    /\ pdu output' 5 = error_pdu x06 x01 x00 att_error_codes.unsupported_group_type.
Proof.
  apply (find_by_type_value_other_type battery.services x06 x01 x00 xff xff x03 x28
           [x0f; x18] (battery.output 23) 23).
  - left. reflexivity.
  - by_computation.
  - by_computation.
  - by_computation.
  - by_computation.
  - by_computation.
Defined.

Lemma read_blob_at_offset_0_witness :
  exists output'',
    server.handle_read_blob_request battery.services [x0c; x03; x00; x00; x00]
      (battery.output 23) 23 = Some (output'', 2)
    /\ load output'' 0 = Some x0d
    /\ drop 1 output'' = x55 :: replicate 21 x00.
Proof.
  apply (read_blob_at_offset_0 battery.services x0a x0c x03 x00 (battery.output 23) 23
           (x0b :: x55 :: replicate 21 x00) 2).
  - by_computation.
  - vm_compute. reflexivity.
  - reflexivity.
Defined.

Lemma find_information_response_tuples_witness :
  exists output',
    server.handle_find_information_request battery.custom_services
      battery.internal_128bit_uuid [x04; x01; x00; xff; xff] (battery.output 23) 23
      = Some (output', 10)
    /\ pdu output' 10 = [x05; x01; x01; x00; x00; x28; x02; x00; x03; x28].
Proof.
  destruct (find_information_response_tuples battery.custom_services
              battery.internal_128bit_uuid [x04; x01; x00; xff; xff] (battery.output 23) 23
              1 65535) as (attr & Hattr & output' & Hrun & _ & Hpdu & _).
  - by_computation.
  - by_computation.
  - by_computation.
  - exact custom_long_uuids_declared.
  - vm_compute. reflexivity.
  - vm_compute in Hattr. injection Hattr as <-.
    exists output'. split; [exact Hrun|exact Hpdu].
Defined.

Lemma l2cap_input_writes_in_front_of_size_witness :
  exists output' size connection',
    server.l2cap_input battery.services battery.internal_128bit_uuid battery.uuid_filter
      [x0a; x03; x00] (battery.output 30) 30 (battery.connection 23)
      = Some (output', size, connection')
    /\ size <= 23
    /\ length output' = length (battery.output 30)
    /\ drop 23 output' = drop 23 (battery.output 30).
Proof.
  apply (l2cap_input_writes_in_front_of_size battery.services battery.internal_128bit_uuid
           battery.uuid_filter x0a [x03; x00] (battery.output 30) 30 (battery.connection 23)).
  - by_computation.
  - by_computation.
  - exact battery_database_valid.
Defined.

Lemma l2cap_input_response_opcode_witness :
  exists output' size connection',
    server.l2cap_input battery.services battery.internal_128bit_uuid battery.uuid_filter
      [x0a; x03; x00] (battery.output 23) 23 (battery.connection 23)
      = Some (output', size, connection')
    /\ (load output' 0 = Some x0b \/ (size = 5 /\ take 2 output' = [x01; x0a])).
Proof.
  apply (l2cap_input_response_opcode battery.services battery.internal_128bit_uuid
           battery.uuid_filter x0a [x03; x00] (battery.output 23) 23 (battery.connection 23)).
  - by_computation.
  - by_computation.
  - exact battery_database_valid.
Defined.

Lemma l2cap_input_keeps_connection_witness :
  exists output' size connection',
    server.l2cap_input battery.services battery.internal_128bit_uuid battery.uuid_filter
      [x12; x03; x00; x01] (battery.output 23) 23 (battery.connection 23)
      = Some (output', size, connection')
    /\ connection' = battery.connection 23.
Proof.
  destruct (l2cap_input_keeps_connection battery.services battery.internal_128bit_uuid
              battery.uuid_filter x12 [x03; x00; x01] (battery.output 23) 23
              (battery.connection 23))
    as (output' & size & connection' & Hrun & _ & Hsame).
  - by_computation.
  - by_computation.
  - exact battery_database_valid.
  - exists output', size, connection'. split; [exact Hrun|]. apply Hsame. by_computation.
Defined.

Lemma first_response_within_default_mtu_witness :
  exists output' size connection',
    server.l2cap_input battery.services battery.internal_128bit_uuid battery.uuid_filter
      [x0a; x03; x00] (battery.output 100) 100
      {| connection_data.server_mtu_ := 100; connection_data.client_mtu_ := 23 |}
      = Some (output', size, connection')
    /\ 1 <= size <= 23.
Proof.
  apply (first_response_within_default_mtu battery.services battery.internal_128bit_uuid
           battery.uuid_filter 100).
  - vm_compute. reflexivity.
  - by_computation.
  - by_computation.
  - exact battery_database_valid.
Defined.

Lemma exchange_mtu_limits_next_response_witness :
  exists output1 connection1,
    server.l2cap_input battery.services battery.internal_128bit_uuid battery.uuid_filter
      [x02; x32; x00] (battery.output 100) 100 (battery.connection 100)
      = Some (output1, 3, connection1)
    /\ exists output2 size2,
         server.l2cap_input battery.services battery.internal_128bit_uuid
           battery.uuid_filter [x0a; x03; x00] (battery.output 100) 100 connection1
           = Some (output2, size2, connection1)
         /\ 1 <= size2 <= 50.
Proof.
  destruct (exchange_mtu_limits_next_response battery.services battery.internal_128bit_uuid
              battery.uuid_filter x32 x00 (battery.output 100) 100 (battery.connection 100))
    as (output1 & connection1 & Hrun & Hnext).
  - by_computation.
  - by_computation.
  - exact battery_database_valid.
  - by_computation.
  - exists output1, connection1. split; [exact Hrun|].
    destruct (Hnext x0a [x03; x00] (battery.output 100) 100)
      as (output2 & size2 & connection2 & Hrun2 & Hsize2 & Hkept).
    + by_computation.
    + rewrite Hkept in Hrun2 by (vm_compute; discriminate).
      exists output2, size2. split; [exact Hrun2|exact Hsize2].
Defined.

Lemma read_by_group_type_length_octet_witness :
  exists output' size,
    server.handle_read_by_group_type_request battery.services
      [x10; x01; x00; xff; xff; x00; x28] (battery.output 23) 23 = Some (output', size)
    /\ ((size = 5
         /\ pdu output' 5 = error_pdu x10 x01 x00 att_error_codes.attribute_not_found)
        \/ (2 < size <= 23 /\ take 2 output' = [x11; x06])).
Proof.
  apply (read_by_group_type_length_octet battery.services x10 x01 x00 xff xff
           (battery.output 23) 23 (battery.service_16 0x180F (battery.battery_level 3 [x55]))).
  - by_computation.
  - by_computation.
  - by_computation.
  - by_computation.
  - by_computation.
  - exact battery_responses_within.
  - constructor; [apply service_16_response_writes_within|constructor].
  - reflexivity.
Defined.
